(** * Book subscription backend: entitlement, ownership and session rules

    A shallow embedding of [backend/main.py].  The relational store is a
    record of four tables, each a list of rows in insertion (rowid) order.
    Endpoints run in a small state-and-exception monad over a SQLAlchemy
    session; the state survives an exception, so that "a failed request
    leaves the store untouched" is a statement that has to be proved.

    External collaborators are kept abstract or modelled at the level of
    their documented contract:
    - [bcrypt.gensalt], [bcrypt.hashpw] and [bcrypt.checkpw] (bcrypt 5)
      are fields of the class [External]; they may raise, and the class
      records that they do for a password of more than 72 bytes and that
      a hash starts with the salt it was made with.  That a hash does not
      give the password away is the library's business and is stated
      nowhere below;
    - the HMAC behind the HS256 signature is a field of [External], the
      PyJWT (2.10) [encode] / [decode] logic around it is written out for
      claim sets of JSON values;
    - the clock ([datetime.utcnow()]) is an input of a request; one clock
      reading serves a whole request;
    - SQLite keeps an integer in 64 bits: a request parameter outside that
      range cannot be bound to a statement;
    - requests are served one at a time: a history is a sequence, and the
      stores a history leads to are those of such sequences.  The routes
      are plain [def]s, which the framework runs on worker threads; what
      two overlapping requests can do is written out for
      [add_book_to_library] only;
    - a protected request always carries a bearer credential: the
      [HTTPBearer] check for a missing header is left to the framework. *)

From Stdlib Require Import ZArith List String Bool Lia DecimalString.
From Stdlib Require Import Floats.PrimFloat Floats.SpecFloat Floats.FloatOps.
Import ListNotations.

Local Open Scope Z_scope.
Local Open Scope string_scope.

(** ** Database models *)

(** [datetime] values are microseconds since the epoch. *)
Definition datetime := Z.

Record User := mkUser {
  User_id : Z;
  User_email : string;
  User_hashed_password : string;
  User_is_active : bool;
  User_subscription_plan : string;
  User_created_at : datetime
}.

Record Book := mkBook {
  Book_id : Z;
  Book_title : string;
  Book_author : string;
  Book_genre : string;
  Book_description : string;
  Book_price : float;
  Book_is_premium : bool
}.

Record SubscriptionPlan := mkSubscriptionPlan {
  SubscriptionPlan_id : Z;
  SubscriptionPlan_name : string;
  SubscriptionPlan_price : float;
  SubscriptionPlan_description : string;
  SubscriptionPlan_max_books : Z
}.

Record UserBook := mkUserBook {
  UserBook_id : Z;
  UserBook_user_id : Z;
  UserBook_book_id : Z;
  UserBook_is_read : bool;
  UserBook_added_at : datetime
}.

(** The persistent store: Users, Items, Plans, Ownerships. *)
Record DB := mkDB {
  users : list User;
  books : list Book;
  subscription_plans : list SubscriptionPlan;
  user_books : list UserBook
}.

(** [Base.metadata.create_all]: four empty tables. *)
Definition create_all : DB := mkDB [] [] [] [].

(** An [INTEGER PRIMARY KEY] column left unset on insert receives one more
    than the largest key in the table (1 in an empty table). *)
Definition next_id (ids : list Z) : Z := fold_right Z.max 0 ids + 1.

(** ** Pydantic request and response models *)

Record UserCreate := mkUserCreate {
  UserCreate_email : string;
  UserCreate_password : string
}.

Record UserLogin := mkUserLogin {
  UserLogin_email : string;
  UserLogin_password : string
}.

Record UserResponse := mkUserResponse {
  UserResponse_id : Z;
  UserResponse_email : string;
  UserResponse_subscription_plan : string;
  UserResponse_is_active : bool
}.

Record BookResponse := mkBookResponse {
  BookResponse_id : Z;
  BookResponse_title : string;
  BookResponse_author : string;
  BookResponse_genre : string;
  BookResponse_description : string;
  BookResponse_price : float;
  BookResponse_is_premium : bool
}.

(** [from_attributes = True]: a response model reads the attributes it
    declares from the ORM object and nothing else. *)
Definition UserResponse_from_attributes (u : User) : UserResponse :=
  mkUserResponse (User_id u) (User_email u) (User_subscription_plan u)
                 (User_is_active u).

Definition BookResponse_from_attributes (b : Book) : BookResponse :=
  mkBookResponse (Book_id b) (Book_title b) (Book_author b) (Book_genre b)
                 (Book_description b) (Book_price b) (Book_is_premium b).

(** ** Outcome of a request *)

Inductive Result (A : Type) : Type :=
| Ok (a : A)
| HTTPException (status_code : Z) (detail : string)
| InternalServerError.

Arguments Ok {A} a.
Arguments HTTPException {A} status_code detail.
Arguments InternalServerError {A}.

Definition is_failure {A} (r : Result A) : bool :=
  match r with Ok _ => false | _ => true end.

(** ** The session monad *)

(** A session holds what is committed ([database]) and the view of its
    open transaction ([transaction]).  Rows are written to the transaction
    when they are added or modified (the code never queries between a write
    and the commit that follows it); [db_commit] publishes the
    transaction. *)
Record Session := mkSession {
  database : DB;
  transaction : DB
}.

Definition M (A : Type) : Type := Session -> Result A * Session.

Definition ret {A} (a : A) : M A := fun s => (Ok a, s).

Definition bind {A B} (m : M A) (k : A -> M B) : M B :=
  fun s =>
    match m s with
    | (Ok a, s') => k a s'
    | (HTTPException c d, s') => (HTTPException c d, s')
    | (InternalServerError, s') => (InternalServerError, s')
    end.

Definition raise {A} (r : Result A) : M A := fun s => (r, s).

(** The outcome of validating a return value against the route's
    [response_model]. *)
Definition validated {A} (r : Result A) : M A := fun s => (r, s).

Declare Scope session_scope.
Delimit Scope session_scope with session.
Notation "x <- m ;; k" := (bind m (fun x => k))
  (at level 61, m at next level, right associativity) : session_scope.
Notation "m ;; k" := (bind m (fun _ => k))
  (at level 61, right associativity) : session_scope.
Local Open Scope session_scope.

(** SQLite keeps an INTEGER in 64 bits, signed.  [sqlite3] refuses to
    bind a Python [int] outside that range to a statement: it raises
    [OverflowError], which nothing in the application catches. *)
Definition sqlite_integer (n : Z) : bool :=
  (- 2 ^ 63 <=? n)%Z && (n <? 2 ^ 63)%Z.

(** [db.query(T).filter(criterion).first()], where [parameters] are the
    integers of the request that the criterion compares a column with.
    Every integer a table holds is one SQLite stored, hence within the
    range: a parameter that cannot be bound is equal to none of them, and
    the [OverflowError] is raised where the scan would find nothing. *)
Definition query_first {R} (table : DB -> list R) (parameters : list Z)
    (criterion : R -> bool) : M (option R) :=
  fun s =>
    match find criterion (table (transaction s)) with
    | Some row => (Ok (Some row), s)
    | None =>
        if forallb sqlite_integer parameters
        then (Ok None, s)
        else (InternalServerError, s)
    end.

(** [db.query(T).filter(criterion).all()]: without ORDER BY the table is
    scanned in rowid order. *)
Definition query_all {R} (table : DB -> list R) (criterion : R -> bool)
  : M (list R) :=
  fun s => (Ok (filter criterion (table (transaction s))), s).

Definition update_transaction (f : DB -> DB) : M unit :=
  fun s => (Ok tt, mkSession (database s) (f (transaction s))).

(** [db.commit()] *)
Definition db_commit : M unit :=
  fun s => (Ok tt, mkSession (transaction s) (transaction s)).

(** [get_db]: open a session on the store, run the endpoint, close the
    session; what was not committed is discarded. *)
Definition get_db {A} (endpoint : M A) (db : DB) : Result A * DB :=
  let (r, s) := endpoint (mkSession db db) in (r, database s).

(** *** Inserts: [db.add(T(...))], column defaults filled in *)

(** [User(email=..., hashed_password=...)]: [is_active] defaults to [True],
    [subscription_plan] to ["free"], [created_at] to the clock; [email] is
    UNIQUE. *)
Definition db_add_User (email hashed_password : string) (now : datetime)
  : M User :=
  fun s =>
    let t := transaction s in
    if existsb (fun u => User_email u =? email) (users t)
    then (InternalServerError, s)
    else
      let row := mkUser (next_id (map User_id (users t))) email hashed_password
                        true "free" now in
      (Ok row,
       mkSession (database s)
         (mkDB (users t ++ [row]) (books t) (subscription_plans t) (user_books t))).

(** [UserBook(user_id=..., book_id=...)]: [is_read] defaults to [False],
    [added_at] to the clock.  The table declares no uniqueness on the
    pair. *)
Definition db_add_UserBook (user_id book_id : Z) (now : datetime) : M UserBook :=
  fun s =>
    let t := transaction s in
    let row := mkUserBook (next_id (map UserBook_id (user_books t)))
                          user_id book_id false now in
    (Ok row,
     mkSession (database s)
       (mkDB (users t) (books t) (subscription_plans t) (user_books t ++ [row]))).

(** [SubscriptionPlan(name=..., ...)]: [name] is UNIQUE. *)
Definition db_add_SubscriptionPlan (name : string) (price : float)
    (description : string) (max_books : Z) : M SubscriptionPlan :=
  fun s =>
    let t := transaction s in
    if existsb (fun p => SubscriptionPlan_name p =? name) (subscription_plans t)
    then (InternalServerError, s)
    else
      let row := mkSubscriptionPlan
                   (next_id (map SubscriptionPlan_id (subscription_plans t)))
                   name price description max_books in
      (Ok row,
       mkSession (database s)
         (mkDB (users t) (books t) (subscription_plans t ++ [row]) (user_books t))).

Definition db_add_Book (title author genre description : string)
    (price : float) (is_premium : bool) : M Book :=
  fun s =>
    let t := transaction s in
    let row := mkBook (next_id (map Book_id (books t)))
                      title author genre description price is_premium in
    (Ok row,
     mkSession (database s)
       (mkDB (users t) (books t ++ [row]) (subscription_plans t) (user_books t))).

(** *** Attribute writes on loaded objects (UPDATE ... WHERE id = ?) *)

Definition set_is_read (v : bool) (ub : UserBook) : UserBook :=
  mkUserBook (UserBook_id ub) (UserBook_user_id ub) (UserBook_book_id ub) v
             (UserBook_added_at ub).

Definition set_subscription_plan (name : string) (u : User) : User :=
  mkUser (User_id u) (User_email u) (User_hashed_password u) (User_is_active u)
         name (User_created_at u).

Definition update_where {R} (key : R -> Z) (id : Z) (f : R -> R) (rows : list R)
  : list R :=
  map (fun r => if (key r =? id)%Z then f r else r) rows.

(** [user_book.is_read = v] *)
Definition UserBook_set_is_read (user_book : UserBook) (v : bool) : M unit :=
  update_transaction (fun t =>
    mkDB (users t) (books t) (subscription_plans t)
         (update_where UserBook_id (UserBook_id user_book) (set_is_read v)
                       (user_books t))).

(** [user.subscription_plan = name] *)
Definition User_set_subscription_plan (user : User) (name : string) : M unit :=
  update_transaction (fun t =>
    mkDB (update_where User_id (User_id user) (set_subscription_plan name)
                       (users t))
         (books t) (subscription_plans t) (user_books t)).

(** [user_book.book]: the relationship loads the row the foreign key points
    to, [None] when there is none. *)
Definition UserBook_book (user_book : UserBook) : M (option Book) :=
  query_first books [] (fun b => (Book_id b =? UserBook_book_id user_book)%Z).

Fixpoint for_each {A B} (f : A -> M B) (l : list A) : M (list B) :=
  match l with
  | [] => ret []
  | x :: l' => y <- f x ;; ys <- for_each f l' ;; ret (y :: ys)
  end.

(** ** JSON web tokens *)

Set Warnings "-register-all".

(** The values of a claim set: what [json.loads] yields, and a
    [datetime] (before encoding only). *)
Inductive PyValue : Type :=
| PyNone
| PyBool (b : bool)
| PyInt (n : Z)
| PyFloat (x : float)
| PyStr (s : string)
| PyList (l : list PyValue)
| PyDict (d : list (string * PyValue))
| PyDatetime (t : datetime).

(** A Python [dict] with string keys, in insertion order (the order is
    part of what a token's signature covers). *)
Definition dict := list (string * PyValue).

Fixpoint dict_get (k : string) (d : dict) : option PyValue :=
  match d with
  | [] => None
  | (k', v) :: d' => if k' =? k then Some v else dict_get k d'
  end.

(** [d.update({k: v})] *)
Fixpoint dict_update (k : string) (v : PyValue) (d : dict) : dict :=
  match d with
  | [] => [(k, v)]
  | (k', v') :: d' =>
      if k' =? k then (k, v) :: d' else (k', v') :: dict_update k v d'
  end.

(** A bearer credential: either a string that does not split into a
    header, a claim set and a signature, or those three parts. *)
Inductive JWT : Type :=
| jwt_malformed
| jwt_compact (alg : string) (claims : dict) (signature : string).

Inductive PyJWTError : Type :=
| DecodeError
| InvalidAlgorithmError
| InvalidSignatureError
| InvalidIssuedAtError
| ImmatureSignatureError
| ExpiredSignatureError
| InvalidAudienceError
| InvalidSubjectError
| InvalidJTIError.

(** What is raised inside [jwt.decode]: its own errors, and those of the
    built-in [int()]. *)
Inductive Exception : Type :=
| PyJWT (e : PyJWTError)
| ValueError
| TypeError
| OverflowError.

(** [bool(v)] *)
Definition py_bool (v : PyValue) : bool :=
  match v with
  | PyNone => false
  | PyBool b => b
  | PyInt n => negb (n =? 0)%Z
  | PyFloat x => negb (PrimFloat.eqb x 0%float)
  | PyStr s => negb (s =? "")
  | PyList l => match l with [] => false | _ => true end
  | PyDict d => match d with [] => false | _ => true end
  | PyDatetime _ => true
  end.

(** [int(x)] of a float: the integer part, [ValueError] for a NaN,
    [OverflowError] for an infinity. *)
Definition int_of_float (x : float) : Exception + Z :=
  match Prim2SF x with
  | S754_zero _ => inr 0
  | S754_infinity _ => inl OverflowError
  | S754_nan => inl ValueError
  | S754_finite s m e =>
      let n := if (0 <=? e)%Z then Zpos m * 2 ^ e else Zpos m / 2 ^ (- e) in
      inr (if s then - n else n)
  end.

Record Token := mkToken {
  access_token : JWT;
  token_type : string
}.

Record Message := mkMessage { message : string }.

(** JWT settings *)
Definition SECRET_KEY : string := "your-secret-key-change-this-in-production".
Definition ALGORITHM : string := "HS256".
Definition ACCESS_TOKEN_EXPIRE_MINUTES : Z := 30.

Definition timedelta_minutes (m : Z) : Z := m * 60 * 1000000.

(** [timegm(t.utctimetuple())]: whole seconds since the epoch. *)
Definition timegm (t : datetime) : Z := t / 1000000.

Set Warnings "-inexact-float".

(** ** External collaborators *)

(** What the service takes from its libraries without looking inside:
    [bcrypt.gensalt()], [bcrypt.hashpw(password, salt)],
    [bcrypt.checkpw(password, hashed)], the keyed MAC of HS256 over a
    token's header and claim set, and Python's [int()] of a string;
    together with what the service's behaviour depends on of bcrypt.  A
    [string] is the UTF-8 encoding of the text, one character per byte. *)
Class External : Type := {
  (** [bcrypt.gensalt()]: the salt drawn while the request of clock
      reading [now] is served *)
  bcrypt_gensalt : datetime -> string;
  (** [bcrypt.hashpw(password, salt)], [None] when it raises *)
  bcrypt_hashpw : string -> string -> option string;
  (** [bcrypt.checkpw(password, hashed_password)], [None] when it raises *)
  bcrypt_checkpw : string -> string -> option bool;
  hmac_sha256 : string -> string -> dict -> string;
  (** [int(s)] of a string, [None] for [ValueError] *)
  int_of_str : string -> option Z;
  (** bcrypt refuses a password of more than 72 bytes ([ValueError]) *)
  bcrypt_hashpw_limit : forall password salt,
    (72 < String.length password)%nat -> bcrypt_hashpw password salt = None;
  bcrypt_checkpw_limit : forall password hashed_password,
    (72 < String.length password)%nat ->
    bcrypt_checkpw password hashed_password = None;
  (** a hash starts with the salt it was made with *)
  bcrypt_hashpw_salted : forall password now hashed_password,
    bcrypt_hashpw password (bcrypt_gensalt now) = Some hashed_password ->
    prefix (bcrypt_gensalt now) hashed_password = true
}.

Section Backend.

Context {lib : External}.

(** [jwt.encode(payload, key, algorithm)]: a [datetime] under a registered
    time claim is replaced by its epoch seconds, then the parts are
    signed.  The one caller, [login], passes a string [sub], to which
    [create_access_token] adds a [datetime] [exp]: a payload that
    serialises. *)
Definition jwt_encode (payload : dict) (key : string) (algorithm : string) : JWT :=
  let claims :=
    map (fun kv =>
           match kv with
           | (k, PyDatetime t) =>
               if (k =? "exp") || (k =? "iat") || (k =? "nbf")
               then (k, PyInt (timegm t)) else kv
           | _ => kv
           end) payload in
  jwt_compact algorithm claims (hmac_sha256 key algorithm claims).

(** [int(v)]: the integer, or the exception raised.  [bool] is a
    subclass of [int]. *)
Definition py_int (v : PyValue) : Exception + Z :=
  match v with
  | PyInt n => inr n
  | PyBool b => inr (if b then 1 else 0)
  | PyFloat x => int_of_float x
  | PyStr s =>
      match int_of_str s with
      | Some n => inr n
      | None => inl ValueError
      end
  | PyNone | PyList _ | PyDict _ | PyDatetime _ => inl TypeError
  end.

(** [_validate_iat], [_validate_nbf], [_validate_exp]: the claim is
    converted with [int()], a [ValueError] becomes the given error, and
    the integer is compared with the clock (seconds, as a float). *)
Definition validate_time_claim (name : string) (not_an_integer : PyJWTError)
    (acceptable : Z -> bool) (refused : PyJWTError) (payload : dict)
  : option Exception :=
  match dict_get name payload with
  | None => None
  | Some v =>
      match py_int v with
      | inr n => if acceptable n then None else Some (PyJWT refused)
      | inl ValueError => Some (PyJWT not_an_integer)
      | inl e => Some e
      end
  end.

(** [_validate_iat]: the issued-at second must not lie ahead of the
    clock. *)
Definition validate_iat (now : datetime) (payload : dict) : option Exception :=
  validate_time_claim "iat" InvalidIssuedAtError
    (fun iat => (iat * 1000000 <=? now)%Z) ImmatureSignatureError payload.

(** [_validate_nbf] *)
Definition validate_nbf (now : datetime) (payload : dict) : option Exception :=
  validate_time_claim "nbf" DecodeError
    (fun nbf => (nbf * 1000000 <=? now)%Z) ImmatureSignatureError payload.

(** [_validate_exp]: the expiry second must lie ahead of the clock. *)
Definition validate_exp (now : datetime) (payload : dict) : option Exception :=
  validate_time_claim "exp" DecodeError
    (fun exp => (now <? exp * 1000000)%Z) ExpiredSignatureError payload.

(** [_validate_aud] when no audience is asked for: the token must not name
    one. *)
Definition validate_aud (payload : dict) : option Exception :=
  match dict_get "aud" payload with
  | Some v => if py_bool v then Some (PyJWT InvalidAudienceError) else None
  | None => None
  end.

(** [_validate_sub] *)
Definition validate_sub (payload : dict) : option Exception :=
  match dict_get "sub" payload with
  | Some (PyStr _) | None => None
  | Some _ => Some (PyJWT InvalidSubjectError)
  end.

(** [_validate_jti] *)
Definition validate_jti (payload : dict) : option Exception :=
  match dict_get "jti" payload with
  | Some (PyStr _) | None => None
  | Some _ => Some (PyJWT InvalidJTIError)
  end.

(** The first exception of a sequence of checks. *)
Fixpoint first_raised (checks : list (option Exception)) : option Exception :=
  match checks with
  | [] => None
  | Some e :: _ => Some e
  | None :: checks' => first_raised checks'
  end.

(** [_validate_claims] with no audience, issuer or subject asked for. *)
Definition validate_claims (now : datetime) (payload : dict) : option Exception :=
  first_raised [ validate_iat now payload;
                 validate_nbf now payload;
                 validate_exp now payload;
                 validate_aud payload;
                 validate_sub payload;
                 validate_jti payload ].

(** [jwt.decode(token, key, algorithms=[...])] at clock reading [now]:
    the token must split into its parts, the header algorithm must be
    allowed, the signature must be the MAC of the parts, and the claims
    must be valid. *)
Definition jwt_decode (now : datetime) (token : JWT) (key : string)
    (algorithms : list string) : Exception + dict :=
  match token with
  | jwt_malformed => inl (PyJWT DecodeError)
  | jwt_compact alg claims signature =>
      if negb (existsb (String.eqb alg) algorithms)
      then inl (PyJWT InvalidAlgorithmError)
      else if negb (signature =? hmac_sha256 key alg claims)
      then inl (PyJWT InvalidSignatureError)
      else
        match validate_claims now claims with
        | Some e => inl e
        | None => inr claims
        end
  end.

(** ** Authentication functions *)

Definition create_access_token (now : datetime) (data : dict) : JWT :=
  let to_encode := data in
  let expire := now + timedelta_minutes ACCESS_TOKEN_EXPIRE_MINUTES in
  let to_encode := dict_update "exp" (PyDatetime expire) to_encode in
  let encoded_jwt := jwt_encode to_encode SECRET_KEY ALGORITHM in
  encoded_jwt.

Definition verify_token (now : datetime) (credentials : JWT) : Result string :=
  match jwt_decode now credentials SECRET_KEY [ALGORITHM] with
  | inr payload =>
      match dict_get "sub" payload with
      | Some (PyStr email) => Ok email
      | _ => HTTPException 401 "Invalid token"
      end
  | inl (PyJWT _) => HTTPException 401 "Invalid token"
  | inl _ => InternalServerError
  end.

Definition get_current_user (email : string) : M User :=
  user <- query_first users [] (fun u => User_email u =? email) ;;
  match user with
  | None => raise (HTTPException 401 "User not found")
  | Some user => ret user
  end.

(** [Depends(get_current_user)]: the token is verified, the user is loaded
    in the request's session, and only then the endpoint body runs. *)
Definition Depends_get_current_user {A} (now : datetime) (credentials : JWT)
    (endpoint : User -> M A) : M A :=
  match verify_token now credentials with
  | Ok email => current_user <- get_current_user email ;; endpoint current_user
  | HTTPException c d => raise (HTTPException c d)
  | InternalServerError => raise InternalServerError
  end.

Definition hash_password (password : string) (now : datetime) : M string :=
  match bcrypt_hashpw password (bcrypt_gensalt now) with
  | Some hashed_password => ret hashed_password
  | None => raise InternalServerError
  end.

Definition verify_password (password hashed_password : string) : M bool :=
  match bcrypt_checkpw password hashed_password with
  | Some accepted => ret accepted
  | None => raise InternalServerError
  end.

(** ** API endpoints *)

Definition register (user : UserCreate) (now : datetime) : M User :=
  db_user <- query_first users [] (fun u => User_email u =? UserCreate_email user) ;;
  match db_user with
  | Some _ => raise (HTTPException 400 "Email already registered")
  | None =>
      hashed_password <- hash_password (UserCreate_password user) now ;;
      db_user <- db_add_User (UserCreate_email user) hashed_password now ;;
      db_commit ;;
      (* db.refresh(db_user): the row is read back as it was inserted *)
      ret db_user
  end.

Definition login (user : UserLogin) (now : datetime) : M Token :=
  db_user <- query_first users [] (fun u => User_email u =? UserLogin_email user) ;;
  match db_user with
  | None => raise (HTTPException 401 "Invalid credentials")
  | Some db_user =>
      accepted <- verify_password (UserLogin_password user)
                                  (User_hashed_password db_user) ;;
      if negb accepted
      then raise (HTTPException 401 "Invalid credentials")
      else
        let access_token :=
          create_access_token now [("sub", PyStr (UserLogin_email user))] in
        ret (mkToken access_token "bearer")
  end.

Definition get_current_user_info (current_user : User) : M User :=
  ret current_user.

Definition add_book_to_library (book_id : Z) (current_user : User)
    (now : datetime) : M Message :=
  book <- query_first books [book_id] (fun b => (Book_id b =? book_id)%Z) ;;
  match book with
  | None => raise (HTTPException 404 "Book not found")
  | Some book =>
      (* no new parameter: [book_id] is the one the query before has
         bound, the user's key is a stored one *)
      existing <- query_first user_books []
                    (fun ub => (UserBook_user_id ub =? User_id current_user)%Z
                               && (UserBook_book_id ub =? book_id)%Z) ;;
      match existing with
      | Some _ => raise (HTTPException 400 "Book already in library")
      | None =>
          if Book_is_premium book
             && (User_subscription_plan current_user =? "free")
          then raise (HTTPException 403 "Premium subscription required")
          else
            user_book <- db_add_UserBook (User_id current_user) book_id now ;;
            db_commit ;;
            ret (mkMessage "Book added to library")
      end
  end.

Definition get_my_books (current_user : User) : M (list (option Book)) :=
  user_books <- query_all user_books
                  (fun ub => (UserBook_user_id ub =? User_id current_user)%Z) ;;
  books <- for_each UserBook_book user_books ;;
  ret books.

Definition mark_book_as_read (book_id : Z) (current_user : User) : M Message :=
  user_book <- query_first user_books [book_id]
                 (fun ub => (UserBook_user_id ub =? User_id current_user)%Z
                            && (UserBook_book_id ub =? book_id)%Z) ;;
  match user_book with
  | None => raise (HTTPException 404 "Book not in your library")
  | Some user_book =>
      UserBook_set_is_read user_book true ;;
      db_commit ;;
      ret (mkMessage "Book marked as read")
  end.

Definition subscribe_to_plan (plan_id : Z) (current_user : User) : M Message :=
  plan <- query_first subscription_plans [plan_id]
            (fun p => (SubscriptionPlan_id p =? plan_id)%Z) ;;
  match plan with
  | None => raise (HTTPException 404 "Subscription plan not found")
  | Some plan =>
      User_set_subscription_plan current_user (SubscriptionPlan_name plan) ;;
      db_commit ;;
      ret (mkMessage ("Successfully subscribed to "
                        ++ SubscriptionPlan_name plan ++ " plan"))
  end.

Definition seed_data : M Message :=
  first_book <- query_first books [] (fun _ => true) ;;
  match first_book with
  | Some _ => ret (mkMessage "Data already exists")
  | None =>
      db_add_SubscriptionPlan "free" 0.0%float "Access to basic books" 5 ;;
      db_add_SubscriptionPlan "premium" 9.99%float "Access to all books" 100 ;;
      db_add_SubscriptionPlan "unlimited" 19.99%float "Unlimited access" 999 ;;
      db_add_Book "The Python Guide" "John Doe" "Programming"
                  "Learn Python programming" 29.99%float false ;;
      db_add_Book "Advanced FastAPI" "Jane Smith" "Programming"
                  "Master FastAPI development" 39.99%float true ;;
      db_add_Book "Data Science Handbook" "Bob Johnson" "Data Science"
                  "Complete guide to data science" 49.99%float true ;;
      db_add_Book "Web Development Basics" "Alice Brown" "Web Development"
                  "HTML, CSS, JavaScript fundamentals" 19.99%float false ;;
      db_add_Book "Machine Learning Primer" "Charlie Wilson" "AI/ML"
                  "Introduction to machine learning" 34.99%float true ;;
      db_commit ;;
      ret (mkMessage "Sample data created successfully")
  end.

(** ** The application: routes, dependencies, response models *)

(** The routes that write to the store or that the properties below are
    about.  The remaining ones ([/], [/books], [/books/{id}],
    [/subscription-plans]) only read. *)
Inductive Request : Type :=
| POST_register (user : UserCreate)
| POST_login (user : UserLogin)
| GET_me (credentials : JWT)
| POST_add_to_library (book_id : Z) (credentials : JWT)
| GET_my_books (credentials : JWT)
| POST_mark_read (book_id : Z) (credentials : JWT)
| POST_subscribe (plan_id : Z) (credentials : JWT)
| POST_seed_data.

Inductive Body : Type :=
| JSON_User (user : UserResponse)
| JSON_Token (token : Token)
| JSON_Books (books : list BookResponse)
| JSON_Message (msg : Message).

(** [response_model=List[BookResponse]]: every element must be a book. *)
Fixpoint response_model_List_BookResponse (l : list (option Book))
  : Result (list BookResponse) :=
  match l with
  | [] => Ok []
  | None :: _ => InternalServerError
  | Some b :: l' =>
      match response_model_List_BookResponse l' with
      | Ok bs => Ok (BookResponse_from_attributes b :: bs)
      | HTTPException c d => HTTPException c d
      | InternalServerError => InternalServerError
      end
  end.

Definition app (now : datetime) (request : Request) : M Body :=
  match request with
  | POST_register user =>
      db_user <- register user now ;;
      ret (JSON_User (UserResponse_from_attributes db_user))
  | POST_login user =>
      token <- login user now ;;
      ret (JSON_Token token)
  | GET_me credentials =>
      current_user <- Depends_get_current_user now credentials
                        get_current_user_info ;;
      ret (JSON_User (UserResponse_from_attributes current_user))
  | POST_add_to_library book_id credentials =>
      msg <- Depends_get_current_user now credentials
               (fun current_user => add_book_to_library book_id current_user now) ;;
      ret (JSON_Message msg)
  | GET_my_books credentials =>
      books <- Depends_get_current_user now credentials get_my_books ;;
      response <- validated (response_model_List_BookResponse books) ;;
      ret (JSON_Books response)
  | POST_mark_read book_id credentials =>
      msg <- Depends_get_current_user now credentials
               (mark_book_as_read book_id) ;;
      ret (JSON_Message msg)
  | POST_subscribe plan_id credentials =>
      msg <- Depends_get_current_user now credentials
               (subscribe_to_plan plan_id) ;;
      ret (JSON_Message msg)
  | POST_seed_data =>
      msg <- seed_data ;;
      ret (JSON_Message msg)
  end.

(** One request served against the store at clock reading [now]. *)
Definition handle (now : datetime) (request : Request) (db : DB)
  : Result Body * DB :=
  get_db (app now request) db.

(** The user a bearer credential resolves to in a given store. *)
Definition current_user (now : datetime) (credentials : JWT) (db : DB)
  : Result User :=
  fst (get_db (Depends_get_current_user now credentials ret) db).

(** A history is a list of timed requests served one after the other,
    each one to its end before the next begins. *)
Definition serve (db : DB) (event : datetime * Request) : DB :=
  snd (handle (fst event) (snd event) db).

Definition run (history : list (datetime * Request)) (db : DB) : DB :=
  fold_left serve history db.

(** The stores such a history leads to from the empty tables.  Stores
    that only requests overlapping in time lead to are not among them. *)
Definition reachable (db : DB) : Prop :=
  exists history, db = run history create_all.

(** Book ids the user with key [uid] acquired over a history, oldest
    first: the [add-to-library] requests that were answered 200 on behalf
    of that user. *)
Definition acquired (uid : Z) (now : datetime) (request : Request) (db : DB)
  : list Z :=
  match request with
  | POST_add_to_library book_id credentials =>
      match fst (handle now request db), current_user now credentials db with
      | Ok _, Ok user => if (User_id user =? uid)%Z then [book_id] else []
      | _, _ => []
      end
  | _ => []
  end.

Fixpoint acquisitions (uid : Z) (history : list (datetime * Request)) (db : DB)
  : list Z :=
  match history with
  | [] => []
  | event :: history' =>
      acquired uid (fst event) (snd event) db
        ++ acquisitions uid history' (serve db event)
  end.

End Backend.

(** ** Error taxonomy

    The names the specification gives to the exceptions the endpoints
    raise. *)

Definition DuplicateIdentity {A} : Result A :=
  HTTPException 400 "Email already registered".
Definition InvalidCredentials {A} : Result A :=
  HTTPException 401 "Invalid credentials".
Definition InvalidToken {A} : Result A :=
  HTTPException 401 "Invalid token".
Definition BookNotFound {A} : Result A :=
  HTTPException 404 "Book not found".
Definition PlanNotFound {A} : Result A :=
  HTTPException 404 "Subscription plan not found".
Definition AlreadyOwned {A} : Result A :=
  HTTPException 400 "Book already in library".
Definition EntitlementDenied {A} : Result A :=
  HTTPException 403 "Premium subscription required".
Definition NotOwned {A} : Result A :=
  HTTPException 404 "Book not in your library".

(** The answer of a route whose lookup by a request's integer finds
    nothing: its own 404 when the integer could be bound, a 500 when it
    could not. *)
Definition miss {A} (parameter : Z) (not_found : Result A) : Result A :=
  if sqlite_integer parameter then not_found else InternalServerError.

Definition Result_map {A B} (f : A -> B) (r : Result A) : Result B :=
  match r with
  | Ok a => Ok (f a)
  | HTTPException c d => HTTPException c d
  | InternalServerError => InternalServerError
  end.

(** Selection criteria of the queries. *)
Definition has_email (email : string) (u : User) : bool :=
  User_email u =? email.
Definition has_book_id (book_id : Z) (b : Book) : bool :=
  (Book_id b =? book_id)%Z.
Definition has_plan_id (plan_id : Z) (p : SubscriptionPlan) : bool :=
  (SubscriptionPlan_id p =? plan_id)%Z.
Definition is_ownership (uid book_id : Z) (ub : UserBook) : bool :=
  (UserBook_user_id ub =? uid)%Z && (UserBook_book_id ub =? book_id)%Z.
Definition owned_by (uid : Z) (ub : UserBook) : bool :=
  (UserBook_user_id ub =? uid)%Z.

(** The row [add_book_to_library] inserts. *)
Definition new_ownership (db : DB) (uid book_id : Z) (now : datetime) : UserBook :=
  mkUserBook (next_id (map UserBook_id (user_books db))) uid book_id false now.

(** The row [register] inserts. *)
Definition new_user (db : DB) (email hashed_password : string) (now : datetime)
  : User :=
  mkUser (next_id (map User_id (users db))) email hashed_password true "free" now.

Definition with_users (us : list User) (db : DB) : DB :=
  mkDB us (books db) (subscription_plans db) (user_books db).
Definition with_books (bs : list Book) (db : DB) : DB :=
  mkDB (users db) bs (subscription_plans db) (user_books db).
Definition with_user_books (ubs : list UserBook) (db : DB) : DB :=
  mkDB (users db) (books db) (subscription_plans db) ubs.
Definition with_subscription_plans (ps : list SubscriptionPlan) (db : DB) : DB :=
  mkDB (users db) (books db) ps (user_books db).

(** Ownership rows of a pair, and the book ids a user holds, in table
    order. *)
Definition ownerships (uid book_id : Z) (db : DB) : list UserBook :=
  filter (is_ownership uid book_id) (user_books db).

Definition owned_ids (uid : Z) (db : DB) : list Z :=
  map UserBook_book_id (filter (owned_by uid) (user_books db)).

(** The books behind a user's ownership rows, in table order. *)
Definition library (uid : Z) (db : DB) : list (option Book) :=
  map (fun ub => find (has_book_id (UserBook_book_id ub)) (books db))
      (filter (owned_by uid) (user_books db)).

(** Store invariants. *)

(** Every ownership row points to a catalogued book. *)
Definition foreign_keys_ok (db : DB) : Prop :=
  forall ub, In ub (user_books db) ->
    exists b, find (has_book_id (UserBook_book_id ub)) (books db) = Some b.

(** At most one ownership row per (user, book) pair. *)
Definition ownership_unique (db : DB) : Prop :=
  forall uid book_id, (List.length (ownerships uid book_id db) <= 1)%nat.

(** [user_book.is_read = True] on the row with key [id], seen row by row:
    the UPDATE touches neither a row's key nor the pair it relates. *)
Definition mark (id : Z) (ub : UserBook) : UserBook :=
  if (UserBook_id ub =? id)%Z then set_is_read true ub else ub.

(** The three ways a request can leave the ownership table. *)
Inductive ownership_step {lib : External} (now : datetime)
    (request : Request) (db db' : DB) : Prop :=
| step_same :
    user_books db' = user_books db ->
    (forall uid, acquired uid now request db = []) ->
    ownership_step now request db db'
| step_marked id :
    user_books db' = map (mark id) (user_books db) ->
    (forall uid, acquired uid now request db = []) ->
    ownership_step now request db db'
| step_acquired book_id credentials user book :
    request = POST_add_to_library book_id credentials ->
    current_user now credentials db = Ok user ->
    find (has_book_id book_id) (books db) = Some book ->
    ownerships (User_id user) book_id db = [] ->
    user_books db' = (user_books db
                       ++ [new_ownership db (User_id user) book_id now])%list ->
    (forall uid, acquired uid now request db
                 = if (User_id user =? uid)%Z then [book_id] else []) ->
    ownership_step now request db db'.

(** ** Read-only routes *)

Record SubscriptionPlanResponse := mkSubscriptionPlanResponse {
  SubscriptionPlanResponse_id : Z;
  SubscriptionPlanResponse_name : string;
  SubscriptionPlanResponse_price : float;
  SubscriptionPlanResponse_description : string;
  SubscriptionPlanResponse_max_books : Z
}.

Definition SubscriptionPlanResponse_from_attributes (p : SubscriptionPlan)
  : SubscriptionPlanResponse :=
  mkSubscriptionPlanResponse (SubscriptionPlan_id p) (SubscriptionPlan_name p)
    (SubscriptionPlan_price p) (SubscriptionPlan_description p)
    (SubscriptionPlan_max_books p).

(** [.offset(skip)] and [.limit(limit)] on a table scan.  SQLite reads a
    negative OFFSET as 0 and a negative LIMIT as no bound. *)
Definition offset_rows {R} (skip : Z) (rows : list R) : list R :=
  skipn (Z.to_nat skip) rows.

Definition limit_rows {R} (limit : Z) (rows : list R) : list R :=
  if (limit <? 0)%Z then rows else firstn (Z.to_nat limit) rows.

(** [db.query(T).offset(skip).limit(limit).all()]: both numbers are bound
    to the statement as parameters. *)
Definition query_page {R} (table : DB -> list R) (skip limit : Z)
  : M (list R) :=
  fun s =>
    if sqlite_integer skip && sqlite_integer limit
    then (Ok (limit_rows limit (offset_rows skip (table (transaction s)))), s)
    else (InternalServerError, s).

Definition read_root : M Message :=
  ret (mkMessage "Book Subscription API").

(** [get_books(skip: int = 0, limit: int = 100)] *)
Definition get_books (skip limit : Z) : M (list Book) :=
  books <- query_page books skip limit ;;
  ret books.

Definition get_book (book_id : Z) : M Book :=
  book <- query_first books [book_id] (fun b => (Book_id b =? book_id)%Z) ;;
  match book with
  | None => raise (HTTPException 404 "Book not found")
  | Some book => ret book
  end.

Definition get_subscription_plans : M (list SubscriptionPlan) :=
  plans <- query_all subscription_plans (fun _ => true) ;;
  ret plans.

(** ** What [seed_data] writes into empty tables *)

Definition seeded_plans : list SubscriptionPlan :=
  [ mkSubscriptionPlan 1 "free" 0.0%float "Access to basic books" 5;
    mkSubscriptionPlan 2 "premium" 9.99%float "Access to all books" 100;
    mkSubscriptionPlan 3 "unlimited" 19.99%float "Unlimited access" 999 ].

Definition seeded_books : list Book :=
  [ mkBook 1 "The Python Guide" "John Doe" "Programming"
           "Learn Python programming" 29.99%float false;
    mkBook 2 "Advanced FastAPI" "Jane Smith" "Programming"
           "Master FastAPI development" 39.99%float true;
    mkBook 3 "Data Science Handbook" "Bob Johnson" "Data Science"
           "Complete guide to data science" 49.99%float true;
    mkBook 4 "Web Development Basics" "Alice Brown" "Web Development"
           "HTML, CSS, JavaScript fundamentals" 19.99%float false;
    mkBook 5 "Machine Learning Primer" "Charlie Wilson" "AI/ML"
           "Introduction to machine learning" 34.99%float true ].

(** The second half of [seed_data]: the five books, then the commit. *)
Definition seed_books_and_commit : M Message :=
  db_add_Book "The Python Guide" "John Doe" "Programming"
              "Learn Python programming" 29.99%float false ;;
  db_add_Book "Advanced FastAPI" "Jane Smith" "Programming"
              "Master FastAPI development" 39.99%float true ;;
  db_add_Book "Data Science Handbook" "Bob Johnson" "Data Science"
              "Complete guide to data science" 49.99%float true ;;
  db_add_Book "Web Development Basics" "Alice Brown" "Web Development"
              "HTML, CSS, JavaScript fundamentals" 19.99%float false ;;
  db_add_Book "Machine Learning Primer" "Charlie Wilson" "AI/ML"
              "Introduction to machine learning" 34.99%float true ;;
  db_commit ;;
  ret (mkMessage "Sample data created successfully").

(** The reference data of a store is either not there yet or exactly what
    [seed_data] writes. *)
Definition reference_data_ok (db : DB) : Prop :=
  (books db = [] /\ subscription_plans db = [])
  \/ (books db = seeded_books /\ subscription_plans db = seeded_plans).

(** ** Users along a history *)

(** Two rows of the same account: everything but the plan agrees. *)
Definition same_account (u u' : User) : Prop :=
  User_id u' = User_id u
  /\ User_email u' = User_email u
  /\ User_hashed_password u' = User_hashed_password u
  /\ User_is_active u' = User_is_active u
  /\ User_created_at u' = User_created_at u.

(** [user.subscription_plan = name] on the row with key [id], seen row by
    row. *)
Definition switch (id : Z) (name : string) (u : User) : User :=
  if (User_id u =? id)%Z then set_subscription_plan name u else u.

(** The three ways a request can leave the users table. *)
Inductive users_step (db db' : DB) : Prop :=
| users_same :
    users db' = users db -> users_step db db'
| users_registered row :
    users db' = (users db ++ [row])%list ->
    User_id row = next_id (map User_id (users db)) ->
    find (has_email (User_email row)) (users db) = None ->
    User_subscription_plan row = "free" ->
    User_is_active row = true ->
    users_step db db'
| users_switched caller plan :
    In caller (users db) ->
    In plan (subscription_plans db) ->
    users db' = map (switch (User_id caller) (SubscriptionPlan_name plan))
                    (users db) ->
    users_step db db'.

(** Well-formed users table: keys and emails are unique, every user is
    active and on one of the three plans, and every ownership row belongs
    to a stored user. *)
Definition users_ok (db : DB) : Prop :=
  NoDup (map User_id (users db))
  /\ NoDup (map User_email (users db))
  /\ (forall u, In u (users db) ->
        User_is_active u = true
        /\ (User_subscription_plan u = "free"
            \/ User_subscription_plan u = "premium"
            \/ User_subscription_plan u = "unlimited"))
  /\ (forall ub, In ub (user_books db) ->
        exists u, In u (users db) /\ User_id u = UserBook_user_id ub).

(** ** Requests that overlap

    The routes are plain [def]s, which the framework runs on worker
    threads, each request with a session of its own.  Below,
    [add_book_to_library] is written as the sequence of its statements,
    each one run against what is committed when its turn comes: the two
    queries, then the insert with its commit (SQLite admits one writer at
    a time).  Taken without interruption the sequence is the endpoint
    above; taken in turns with the statements of another request it
    describes what two worker threads can do. *)
Inductive Statements (A : Type) : Type :=
| Returns (r : Result A)
| Query {R : Type} (table : DB -> list R) (parameters : list Z)
    (criterion : R -> bool) (next : option R -> Statements A)
| Insert_UserBook (user_id book_id : Z) (now : datetime) (next : Statements A).

Arguments Returns {A} r.
Arguments Query {A R} table parameters criterion next.
Arguments Insert_UserBook {A} user_id book_id now next.

Definition add_book_to_library_statements (book_id : Z) (current_user : User)
    (now : datetime) : Statements Message :=
  Query books [book_id] (fun b => (Book_id b =? book_id)%Z) (fun book =>
  match book with
  | None => Returns (HTTPException 404 "Book not found")
  | Some book =>
      Query user_books []
        (fun ub => (UserBook_user_id ub =? User_id current_user)%Z
                   && (UserBook_book_id ub =? book_id)%Z) (fun existing =>
      match existing with
      | Some _ => Returns (HTTPException 400 "Book already in library")
      | None =>
          if Book_is_premium book
             && (User_subscription_plan current_user =? "free")
          then Returns (HTTPException 403 "Premium subscription required")
          else
            Insert_UserBook (User_id current_user) book_id now
              (Returns (Ok (mkMessage "Book added to library")))
      end)
  end).

(** One statement, run against the committed store. *)
Definition statement {A} (p : Statements A) (db : DB) : Statements A * DB :=
  match p with
  | Returns r => (Returns r, db)
  | Query table parameters criterion next =>
      match get_db (query_first table parameters criterion) db with
      | (Ok row, _) => (next row, db)
      | (HTTPException c d, _) => (Returns (HTTPException c d), db)
      | (InternalServerError, _) => (Returns InternalServerError, db)
      end
  | Insert_UserBook user_id book_id now next =>
      match get_db (db_add_UserBook user_id book_id now ;; db_commit) db with
      | (Ok _, db') => (next, db')
      | (HTTPException c d, _) => (Returns (HTTPException c d), db)
      | (InternalServerError, _) => (Returns InternalServerError, db)
      end
  end.

(** The next [n] statements of a request. *)
Fixpoint statements {A} (n : nat) (p : Statements A) (db : DB)
  : Statements A * DB :=
  match n with
  | O => (p, db)
  | S n' => let (p', db') := statement p db in statements n' p' db'
  end.

(** All the statements that are left, to the answer. *)
Fixpoint to_the_end {A} (p : Statements A) (db : DB) : Result A * DB :=
  match p with
  | Returns r => (r, db)
  | Query table parameters criterion next =>
      match get_db (query_first table parameters criterion) db with
      | (Ok row, _) => to_the_end (next row) db
      | (HTTPException c d, _) => (HTTPException c d, db)
      | (InternalServerError, _) => (InternalServerError, db)
      end
  | Insert_UserBook user_id book_id now next =>
      match get_db (db_add_UserBook user_id book_id now ;; db_commit) db with
      | (Ok _, db') => to_the_end next db'
      | (HTTPException c d, _) => (HTTPException c d, db)
      | (InternalServerError, _) => (InternalServerError, db)
      end
  end.

(** * The dashboard (frontend/main.py)

    A Streamlit script is modelled by what it renders, in order, by the
    session state and the world behind the API it leaves, and by how it
    ends: normally, by [st.rerun()], or by an uncaught Python error.  The
    HTTP client and the clicks of the current run are parameters; layout
    ([st.columns], [st.container]) is not represented. *)

Definition API_BASE_URL : string := "http://localhost:8000".

(** The JSON document of a request body. *)
Inductive Payload : Type :=
| no_data
| credentials_data (email password : string).

(** What [requests] gives back: a response, or a [RequestException]. *)
Inductive Reply : Type :=
| Response (status_code : Z) (text : string) (json : Body)
| RequestException (e : string).

(** [bool(x)] and [len(x)] of a decoded JSON document: an object is a
    dict with the keys of its response model, a listing is a list. *)
Definition truthy (x : Body) : bool :=
  match x with
  | JSON_Books [] => false
  | _ => true
  end.

Definition len (x : Body) : nat :=
  match x with
  | JSON_Books books => List.length books
  | JSON_User _ => 4
  | JSON_Token _ => 2
  | JSON_Message _ => 1
  end.

(** [bool(x)] of an [Optional] document. *)
Definition truthy_opt (x : option Body) : bool :=
  match x with
  | Some x => truthy x
  | None => false
  end.

(** [str(n)] *)
Definition str (n : Z) : string := NilZero.string_of_int (Z.to_int n).

(** [st.session_state] *)
Record SessionState := mkSessionState {
  session_token : option JWT;
  session_user_info : option Body;
  session_page : string
}.

Inductive Element : Type :=
| st_title (body : string)
| st_write (body : string)
| st_markdown (body : string)
| st_info (body : string)
| st_error (body : string)
| st_success (body : string)
| st_button (label : string) (key : option string).

Inductive Outcome (A : Type) : Type :=
| Done (a : A)
| Rerun
| Crash.

Arguments Done {A} a.
Arguments Rerun {A}.
Arguments Crash {A}.

Section Dashboard.

(** The world behind the API, the HTTP client
    ([requests.get/post/put(url, headers, json)], seen through the method,
    the URL, the bearer token of the Authorization header and the JSON
    body), and the buttons clicked in this run, by label and key. *)
Variable W : Type.
Variable http : string -> string -> option JWT -> Payload -> W -> Reply * W.
Variable clicked : string -> option string -> bool.

Record Browser := mkBrowser {
  session_state : SessionState;
  world : W
}.

Definition UI (A : Type) : Type :=
  Browser -> list Element * Browser * Outcome A.

Definition ui_ret {A} (a : A) : UI A := fun b => ([], b, Done a).

Definition ui_bind {A B} (m : UI A) (k : A -> UI B) : UI B :=
  fun b =>
    match m b with
    | (out, b', Done a) =>
        match k a b' with
        | (out', b'', r) => ((out ++ out')%list, b'', r)
        end
    | (out, b', Rerun) => (out, b', Rerun)
    | (out, b', Crash) => (out, b', Crash)
    end.

Definition render (e : Element) : UI unit := fun b => ([e], b, Done tt).

(** [st.rerun()] *)
Definition st_rerun {A} : UI A := fun b => ([], b, Rerun).

Definition crash {A} : UI A := fun b => ([], b, Crash).

(** [st.button(label, key=key)]: the button is drawn, the call returns
    whether it was clicked. *)
Definition button (label : string) (key : option string) : UI bool :=
  fun b => ([st_button label key], b, Done (clicked label key)).

Definition get_session : UI SessionState :=
  fun b => ([], b, Done (session_state b)).

Definition set_session (s : SessionState) : UI unit :=
  fun b => ([], mkBrowser s (world b), Done tt).

Definition requests (method url : string) (bearer : option JWT)
    (data : Payload) : UI Reply :=
  fun b =>
    let (reply, w) := http method url bearer data (world b) in
    ([], mkBrowser (session_state b) w, Done reply).

Declare Scope ui_scope.
Notation "x <~ m ;; k" := (ui_bind m (fun x => k))
  (at level 61, m at next level, right associativity) : ui_scope.
Notation "m ;;; k" := (ui_bind m (fun _ => k))
  (at level 61, right associativity) : ui_scope.
Local Open Scope ui_scope.

(** ** Helper functions *)

Definition make_api_request (endpoint method : string) (data : Payload)
    (auth_required : bool) : UI (option Body) :=
  let url := API_BASE_URL ++ endpoint in
  s <~ get_session ;;
  let bearer := if auth_required then session_token s else None in
  response <~ (if method =? "GET" then requests "GET" url bearer no_data
               else if method =? "POST" then requests "POST" url bearer data
               else if method =? "PUT" then requests "PUT" url bearer data
               else crash) ;;
  match response with
  | Response status_code text json =>
      if (status_code =? 200)%Z || (status_code =? 201)%Z
      then ui_ret (Some json)
      else
        render (st_error ("API Error: " ++ str status_code ++ " - " ++ text)) ;;;
        ui_ret None
  | RequestException e =>
      render (st_error ("Connection error: " ++ e)) ;;;
      ui_ret None
  end.

Definition logout : UI unit :=
  s <~ get_session ;;
  set_session (mkSessionState None (session_user_info s) (session_page s)) ;;;
  s <~ get_session ;;
  set_session (mkSessionState (session_token s) None (session_page s)) ;;;
  st_rerun.

Definition check_auth : UI bool :=
  s <~ get_session ;;
  match session_token s with
  | Some _ =>
      user_info <~ make_api_request "/me" "GET" no_data true ;;
      if truthy_opt user_info
      then
        s <~ get_session ;;
        set_session (mkSessionState (session_token s) user_info
                                    (session_page s)) ;;;
        ui_ret true
      else
        s <~ get_session ;;
        set_session (mkSessionState None None (session_page s)) ;;;
        ui_ret false
  | None => ui_ret false
  end.

Definition get_user_books_count : UI nat :=
  user_books <~ make_api_request "/my-books" "GET" no_data true ;;
  ui_ret (match user_books with
          | Some x => if truthy x then len x else 0%nat
          | None => 0%nat
          end).

(** ** The library page *)

(** One pass of [for book in user_books] over a listing. *)
Fixpoint library_cards (user_books : list BookResponse) : UI unit :=
  match user_books with
  | [] => ui_ret tt
  | book :: rest =>
      render (st_markdown "---") ;;;
      render (st_write ("**" ++ BookResponse_title book ++ "**")) ;;;
      render (st_write ("by " ++ BookResponse_author book)) ;;;
      render (st_write ("Genre: " ++ BookResponse_genre book)) ;;;
      (if BookResponse_is_premium book
       then render (st_write "💎 Premium") else ui_ret tt) ;;;
      is_clicked <~ button "Mark as Read"
                      (Some ("read_" ++ str (BookResponse_id book))) ;;
      (if is_clicked
       then
         response <~ make_api_request
                       ("/books/" ++ str (BookResponse_id book) ++ "/mark-read")
                       "POST" no_data true ;;
         if truthy_opt response
         then render (st_success "Marked as read!") ;;; st_rerun
         else ui_ret tt
       else ui_ret tt) ;;;
      library_cards rest
  end.

Definition show_my_library : UI unit :=
  render (st_title "📖 My Library") ;;;
  user_books <~ make_api_request "/my-books" "GET" no_data true ;;
  if truthy_opt user_books
  then
    match user_books with
    | Some x =>
        if (len x =? 0)%nat
        then
          render (st_info "Your library is empty. Go browse some books!") ;;;
          is_clicked <~ button "Browse Books" None ;;
          if is_clicked
          then
            s <~ get_session ;;
            set_session (mkSessionState (session_token s)
                           (session_user_info s) "browse") ;;;
            st_rerun
          else ui_ret tt
        else
          render (st_write ("You have " ++ str (Z.of_nat (len x))
                              ++ " books in your library.")) ;;;
          match x with
          | JSON_Books books => library_cards books
          | _ =>
              (* iterating a dict yields its keys; [key['title']] raises *)
              render (st_markdown "---") ;;; crash
          end
    | None => ui_ret tt
    end
  else render (st_error "Failed to load your library.").

End Dashboard.

Arguments mkBrowser {W} session_state world.
Arguments session_state {W} b.
Arguments world {W} b.

(** ** The dashboard over the backend *)

(** Every element a script renders satisfies [P], whatever the state it
    starts from. *)
Definition renders_only {W A} (P : Element -> Prop) (m : UI W A) : Prop :=
  forall b, Forall P (fst (fst (m b))).

Definition not_info (e : Element) : Prop :=
  match e with st_info _ => False | _ => True end.

(** A reply that carries an answer of the backend: its status code and,
    on success, its document. *)
Definition carries (answer : Result Body) (reply : Reply) : Prop :=
  match reply with
  | Response status_code _ json =>
      match answer with
      | Ok body => status_code = 200 /\ json = body
      | HTTPException c _ => status_code = c
      | InternalServerError => status_code = 500
      end
  | RequestException _ => False
  end.

(** The client's call reaches a route of the backend: with the store as
    the world behind the API, a call with a bearer token is answered as
    [handle] answers the request, and leaves the store [handle] leaves. *)
Definition reaches {lib : External}
    (http : string -> string -> option JWT -> Payload -> DB -> Reply * DB)
    (now : datetime) (method url : string) (route : JWT -> Request) : Prop :=
  forall tok data db,
    carries (fst (handle now (route tok) db))
            (fst (http method url (Some tok) data db))
    /\ snd (http method url (Some tok) data db)
       = snd (handle now (route tok) db).

(** The cards of a book on the library page, up to its button. *)
Definition card (book : BookResponse) : list Element :=
  let premium :=
    if BookResponse_is_premium book then [st_write "💎 Premium"] else [] in
  let key := "read_" ++ str (BookResponse_id book) in
  ([ st_markdown "---";
     st_write ("**" ++ BookResponse_title book ++ "**");
     st_write ("by " ++ BookResponse_author book);
     st_write ("Genre: " ++ BookResponse_genre book) ]
   ++ premium ++ [ st_button "Mark as Read" (Some key) ])%list.

(** ** A stand-in for the external collaborators

    Used to run the model on concrete histories: a salt that spells the
    clock reading, a hash that is the salt followed by the password, and
    the 72-byte limit of bcrypt. *)

Definition ends_with (suffix s : string) : bool :=
  substring (String.length s - String.length suffix) (String.length suffix) s
    =? suffix.

Definition sample_gensalt (now : datetime) : string :=
  "$2b$12$" ++ NilZero.string_of_int (Z.to_int now).

Definition sample_hashpw (password salt : string) : option string :=
  if (72 <? String.length password)%nat then None
  else Some (salt ++ "$" ++ password).

Definition sample_checkpw (password hashed_password : string) : option bool :=
  if (72 <? String.length password)%nat then None
  else Some (ends_with ("$" ++ password) hashed_password).

Definition sample_hmac (key alg : string) (claims : dict) : string :=
  key ++ "." ++ alg ++ "." ++ String.concat "," (map fst claims).

Definition sample_int_of_str (s : string) : option Z :=
  option_map Z.of_int (NilZero.int_of_string s).

Definition sample_lib : External.
Proof.
  refine {| bcrypt_gensalt := sample_gensalt;
            bcrypt_hashpw := sample_hashpw;
            bcrypt_checkpw := sample_checkpw;
            hmac_sha256 := sample_hmac;
            int_of_str := sample_int_of_str |}.
  - intros password salt H. unfold sample_hashpw.
    apply Nat.ltb_lt in H. rewrite H. reflexivity.
  - intros password hashed_password H. unfold sample_checkpw.
    apply Nat.ltb_lt in H. rewrite H. reflexivity.
  - assert (P : forall salt rest, prefix salt (salt ++ rest) = true).
    { induction salt as [| c salt IH]; intros rest; cbn [prefix append].
      - destruct rest; reflexivity.
      - destruct (Ascii.ascii_dec c c) as [_ | N]; [apply IH | contradiction]. }
    intros password now hashed_password. unfold sample_hashpw.
    destruct (72 <? String.length password)%nat; [discriminate |].
    intros E. injection E as <-. apply P.
Defined.

Definition alice : UserCreate := mkUserCreate "a@x.com" "pw1".
Definition alice_login : UserLogin := mkUserLogin "a@x.com" "pw1".

(** The bearer token [login] hands to alice at clock reading 6. *)
Definition alice_token : JWT :=
  @create_access_token sample_lib 6 [("sub", PyStr "a@x.com")].

(** Seed the catalogue, register alice, log her in: she is on the "free"
    plan. *)
Definition free_history : list (datetime * Request) :=
  [ (0, POST_seed_data);
    (5, POST_register alice);
    (6, POST_login alice_login) ].

Definition free_db : DB := @run sample_lib free_history create_all.

Definition alice_free_row : User :=
  mkUser 1 "a@x.com" "$2b$12$5$pw1" true "free" 5.

Definition free_plan : SubscriptionPlan :=
  mkSubscriptionPlan 1 "free" 0.0%float "Access to basic books" 5.

(** Then subscribe her to plan 2 ("premium"). *)
Definition sample_history : list (datetime * Request) :=
  (free_history ++ [ (7, POST_subscribe 2 alice_token) ])%list.

Definition sample_db : DB := @run sample_lib sample_history create_all.

Definition alice_row : User :=
  mkUser 1 "a@x.com" "$2b$12$5$pw1" true "premium" 5.

(** Then let her acquire book 2 ("Advanced FastAPI", premium). *)
Definition owned_history : list (datetime * Request) :=
  (sample_history ++ [ (8, POST_add_to_library 2 alice_token) ])%list.

Definition owned_db : DB := @run sample_lib owned_history create_all.

(** Then let her mark it as read. *)
Definition read_history : list (datetime * Request) :=
  (owned_history ++ [ (9, POST_mark_read 2 alice_token) ])%list.

Definition read_db : DB := @run sample_lib read_history create_all.

(** A longer shelf: books 2, 1 and 3 acquired in that order, with a
    refused duplicate in between. *)
Definition shelf_history : list (datetime * Request) :=
  (owned_history
     ++ [ (10, POST_add_to_library 1 alice_token);
          (11, POST_add_to_library 2 alice_token);
          (12, POST_mark_read 1 alice_token);
          (13, POST_add_to_library 3 alice_token) ])%list.

Definition advanced_fastapi : Book :=
  mkBook 2 "Advanced FastAPI" "Jane Smith" "Programming"
         "Master FastAPI development" 39.99%float true.

(** A stand-in HTTP client wired to the backend at clock reading 10: the
    three calls the library page and the guard make. *)
Definition as_reply (answer : Result Body) : Reply :=
  match answer with
  | Ok body => Response 200 "" body
  | HTTPException c d => Response c d (JSON_Message (mkMessage d))
  | InternalServerError =>
      Response 500 "Internal Server Error" (JSON_Message (mkMessage ""))
  end.

Definition sample_route (method url : string) (tok : JWT) : option Request :=
  if (method =? "GET") && (url =? API_BASE_URL ++ "/me")
  then Some (GET_me tok)
  else if (method =? "GET") && (url =? API_BASE_URL ++ "/my-books")
  then Some (GET_my_books tok)
  else if (method =? "POST")
          && (url =? API_BASE_URL ++ "/books/" ++ str 2 ++ "/mark-read")
  then Some (POST_mark_read 2 tok)
  else None.

Definition sample_http (method url : string) (bearer : option JWT)
    (data : Payload) (db : DB) : Reply * DB :=
  match bearer with
  | None => (Response 403 "Not authenticated" (JSON_Message (mkMessage "")), db)
  | Some tok =>
      match sample_route method url tok with
      | Some request =>
          (as_reply (fst (@handle sample_lib 10 request db)),
           snd (@handle sample_lib 10 request db))
      | None => (Response 404 "Not Found" (JSON_Message (mkMessage "")), db)
      end
  end.

Definition alice_session : SessionState :=
  mkSessionState (Some alice_token) None "library".

Definition no_clicks (label : string) (key : option string) : bool := false.

Definition click_read_2 (label : string) (key : option string) : bool :=
  match key with
  | Some k => k =? "read_2"
  | None => false
  end.

(** * Properties *)

Section Properties.

Context {lib : External}.

(** ** What each endpoint body does to the store *)

Lemma get_db_bind_ret {A B} (m : M A) (f : A -> B) (db : DB) :
  get_db (x <- m ;; ret (f x)) db
  = (Result_map f (fst (get_db m db)), snd (get_db m db)).
Proof.
  unfold get_db, bind, ret.
  destruct (m (mkSession db db)) as [[a | c d |] s]; reflexivity.
Qed.

Lemma sqlite_integer_spec n :
  sqlite_integer n = true <-> - 2 ^ 63 <= n < 2 ^ 63.
Proof.
  unfold sqlite_integer. rewrite andb_true_iff, Z.leb_le, Z.ltb_lt.
  reflexivity.
Qed.

Lemma miss_in_range {A} n (not_found : Result A) :
  - 2 ^ 63 <= n < 2 ^ 63 -> miss n not_found = not_found.
Proof.
  intros H. apply sqlite_integer_spec in H. unfold miss. rewrite H.
  reflexivity.
Qed.

Lemma miss_out_of_range {A} n (not_found : Result A) :
  ~ - 2 ^ 63 <= n < 2 ^ 63 -> miss n not_found = InternalServerError.
Proof.
  intros H. unfold miss.
  destruct (sqlite_integer n) eqn:E; [| reflexivity].
  apply sqlite_integer_spec in E. contradiction.
Qed.

Lemma miss_failure {A} n (not_found : Result A) :
  is_failure not_found = true -> is_failure (miss n not_found) = true.
Proof. unfold miss. destruct (sqlite_integer n); auto. Qed.

Lemma query_first_eq {R} (table : DB -> list R) criterion (s : Session) :
  query_first table [] criterion s
  = (Ok (find criterion (table (transaction s))), s).
Proof.
  unfold query_first. destruct (find _ _); reflexivity.
Qed.

Lemma current_user_eq (now : datetime) (credentials : JWT) (db : DB) :
  current_user now credentials db
  = match verify_token now credentials with
    | Ok email =>
        match find (has_email email) (users db) with
        | Some user => Ok user
        | None => HTTPException 401 "User not found"
        end
    | HTTPException c d => HTTPException c d
    | InternalServerError => InternalServerError
    end.
Proof.
  unfold current_user, get_db, Depends_get_current_user, get_current_user,
    bind, query_first, raise, ret, has_email.
  destruct (verify_token now credentials) as [email | c d |]; cbn; auto.
  destruct (find _ (users db)); reflexivity.
Qed.

Lemma add_book_to_library_eq book_id user now db :
  get_db (add_book_to_library book_id user now) db
  = match find (has_book_id book_id) (books db) with
    | None => (miss book_id BookNotFound, db)
    | Some book =>
        match find (is_ownership (User_id user) book_id) (user_books db) with
        | Some _ => (AlreadyOwned, db)
        | None =>
            if Book_is_premium book && (User_subscription_plan user =? "free")
            then (EntitlementDenied, db)
            else (Ok (mkMessage "Book added to library"),
                  with_user_books
                    (user_books db
                       ++ [new_ownership db (User_id user) book_id now]) db)
        end
    end.
Proof.
  unfold get_db, add_book_to_library, bind, query_first, raise, ret,
    has_book_id, is_ownership, miss; cbn.
  destruct (find _ (books db)) as [book |]; cbn;
    [| destruct (sqlite_integer book_id); reflexivity].
  destruct (find _ (user_books db)); cbn; [reflexivity |].
  destruct (Book_is_premium book && _); reflexivity.
Qed.

Lemma mark_book_as_read_eq book_id user db :
  get_db (mark_book_as_read book_id user) db
  = match find (is_ownership (User_id user) book_id) (user_books db) with
    | None => (miss book_id NotOwned, db)
    | Some user_book =>
        (Ok (mkMessage "Book marked as read"),
         with_user_books
           (update_where UserBook_id (UserBook_id user_book) (set_is_read true)
                         (user_books db)) db)
    end.
Proof.
  unfold get_db, mark_book_as_read, bind, query_first, raise, ret,
    is_ownership, miss; cbn.
  destruct (find _ (user_books db)); [reflexivity |].
  destruct (sqlite_integer book_id); reflexivity.
Qed.

Lemma subscribe_to_plan_eq plan_id user db :
  get_db (subscribe_to_plan plan_id user) db
  = match find (has_plan_id plan_id) (subscription_plans db) with
    | None => (miss plan_id PlanNotFound, db)
    | Some plan =>
        (Ok (mkMessage ("Successfully subscribed to "
                          ++ SubscriptionPlan_name plan ++ " plan")),
         with_users
           (update_where User_id (User_id user)
              (set_subscription_plan (SubscriptionPlan_name plan)) (users db))
           db)
    end.
Proof.
  unfold get_db, subscribe_to_plan, bind, query_first, raise, ret,
    has_plan_id, miss; cbn.
  destruct (find _ (subscription_plans db)); [reflexivity |].
  destruct (sqlite_integer plan_id); reflexivity.
Qed.

Lemma existsb_find_none {A} (p : A -> bool) (l : list A) :
  find p l = None -> existsb p l = false.
Proof.
  induction l as [| a l IH]; cbn; [reflexivity |].
  destruct (p a); [discriminate | exact IH].
Qed.

Lemma register_eq user now db :
  get_db (register user now) db
  = match find (has_email (UserCreate_email user)) (users db) with
    | Some _ => (DuplicateIdentity, db)
    | None =>
        match bcrypt_hashpw (UserCreate_password user) (bcrypt_gensalt now) with
        | Some hashed_password =>
            let row := new_user db (UserCreate_email user) hashed_password now in
            (Ok row, with_users (users db ++ [row]) db)
        | None => (InternalServerError, db)
        end
    end.
Proof.
  unfold get_db, register, bind, query_first, raise, ret, db_add_User,
    db_commit, has_email, hash_password; cbn.
  destruct (find _ (users db)) eqn:E; [reflexivity |].
  cbn. destruct (bcrypt_hashpw _ _); [| reflexivity].
  unfold ret. cbn. rewrite (existsb_find_none _ _ E). reflexivity.
Qed.

Lemma login_eq user now db :
  get_db (login user now) db
  = match find (has_email (UserLogin_email user)) (users db) with
    | None => (InvalidCredentials, db)
    | Some db_user =>
        match bcrypt_checkpw (UserLogin_password user)
                             (User_hashed_password db_user) with
        | Some true =>
            (Ok (mkToken (create_access_token now
                            [("sub", PyStr (UserLogin_email user))]) "bearer"),
             db)
        | Some false => (InvalidCredentials, db)
        | None => (InternalServerError, db)
        end
    end.
Proof.
  unfold get_db, login, bind, query_first, raise, ret, has_email,
    verify_password; cbn.
  destruct (find _ (users db)) as [u |]; [| reflexivity].
  cbn. destruct (bcrypt_checkpw _ _) as [[|] |]; reflexivity.
Qed.

Lemma Depends_eq {A} now credentials db (endpoint : User -> M A) :
  get_db (Depends_get_current_user now credentials endpoint) db
  = match current_user now credentials db with
    | Ok user => get_db (endpoint user) db
    | HTTPException c d => (HTTPException c d, db)
    | InternalServerError => (InternalServerError, db)
    end.
Proof.
  rewrite current_user_eq.
  unfold get_db, Depends_get_current_user, get_current_user, bind,
    query_first, raise, ret, has_email.
  destruct (verify_token now credentials) as [email | c d |]; cbn;
    try reflexivity.
  destruct (find _ (users db)); reflexivity.
Qed.

Lemma for_each_UserBook_book (l : list UserBook) (s : Session) :
  for_each UserBook_book l s
  = (Ok (map (fun ub => find (has_book_id (UserBook_book_id ub))
                             (books (transaction s))) l), s).
Proof.
  induction l as [| ub l IH]; [reflexivity |].
  cbn [for_each map]. unfold bind at 1. unfold UserBook_book at 1.
  rewrite query_first_eq. unfold bind at 1. rewrite IH. reflexivity.
Qed.

Lemma get_my_books_eq user db :
  get_db (get_my_books user) db = (Ok (library (User_id user) db), db).
Proof.
  unfold get_db, get_my_books, library, owned_by.
  unfold bind at 1. unfold query_all at 1. unfold bind at 1.
  rewrite for_each_UserBook_book. reflexivity.
Qed.

Lemma db_add_SubscriptionPlan_effect name price description max_books s :
  db_add_SubscriptionPlan name price description max_books s
  = (InternalServerError, s)
  \/ exists row s',
       db_add_SubscriptionPlan name price description max_books s = (Ok row, s')
       /\ database s' = database s
       /\ users (transaction s') = users (transaction s)
       /\ books (transaction s') = books (transaction s)
       /\ user_books (transaction s') = user_books (transaction s).
Proof.
  unfold db_add_SubscriptionPlan.
  destruct (existsb _ _); [left; reflexivity | right].
  do 2 eexists. split; [reflexivity |]. cbn. auto.
Qed.

Lemma seed_books_and_commit_effect s :
  exists s',
    seed_books_and_commit s
    = (Ok (mkMessage "Sample data created successfully"), s')
    /\ users (database s') = users (transaction s)
    /\ user_books (database s') = user_books (transaction s).
Proof.
  eexists. split; [reflexivity |]. cbn. auto.
Qed.

Lemma seed_data_effect db :
  exists r db',
    get_db seed_data db = (r, db')
    /\ users db' = users db
    /\ user_books db' = user_books db
    /\ (books db' = books db \/ books db = [])
    /\ (is_failure r = true -> db' = db).
Proof.
  unfold get_db, seed_data.
  unfold bind at 1. rewrite query_first_eq. cbn [transaction].
  destruct (books db) as [| b bs] eqn:Eb; cbn [find].
  2: { do 2 eexists. split; [reflexivity |]. cbn.
       repeat split; auto; intros; discriminate. }
  unfold bind at 1.
  destruct (db_add_SubscriptionPlan_effect "free" 0.0%float
              "Access to basic books" 5 (mkSession db db))
    as [E | (r1 & s1 & E & D1 & U1 & B1 & O1)]; rewrite E.
  { do 2 eexists. split; [reflexivity |]. cbn. auto. }
  unfold bind at 1.
  destruct (db_add_SubscriptionPlan_effect "premium" 9.99%float
              "Access to all books" 100 s1)
    as [E2 | (r2 & s2 & E2 & D2 & U2 & B2 & O2)]; rewrite E2.
  { do 2 eexists. split; [reflexivity |]. rewrite D1. cbn. auto. }
  unfold bind at 1.
  destruct (db_add_SubscriptionPlan_effect "unlimited" 19.99%float
              "Unlimited access" 999 s2)
    as [E3 | (r3 & s3 & E3 & D3 & U3 & B3 & O3)]; rewrite E3.
  { do 2 eexists. split; [reflexivity |]. rewrite D2, D1. cbn. auto. }
  match goal with
  | |- context [bind (db_add_Book ?a ?b ?c ?d ?e ?f) ?k ?s] =>
      change (bind (db_add_Book a b c d e f) k s)
        with (seed_books_and_commit s)
  end.
  destruct (seed_books_and_commit_effect s3) as (s' & -> & U & O).
  do 2 eexists. split; [reflexivity |].
  rewrite U, O, U3, O3, U2, O2, U1, O1. cbn.
  repeat split; auto; intros; discriminate.
Qed.

(** ** Requests *)

Lemma handle_authenticated {A} now credentials db (endpoint : User -> M A)
    (f : A -> Body) :
  get_db (x <- Depends_get_current_user now credentials endpoint ;; ret (f x)) db
  = match current_user now credentials db with
    | Ok user => (Result_map f (fst (get_db (endpoint user) db)),
                  snd (get_db (endpoint user) db))
    | HTTPException c d => (HTTPException c d, db)
    | InternalServerError => (InternalServerError, db)
    end.
Proof.
  rewrite get_db_bind_ret, Depends_eq.
  destruct (current_user now credentials db); reflexivity.
Qed.

Lemma handle_add_to_library now book_id credentials db :
  handle now (POST_add_to_library book_id credentials) db
  = match current_user now credentials db with
    | Ok user =>
        (Result_map JSON_Message
           (fst (get_db (add_book_to_library book_id user now) db)),
         snd (get_db (add_book_to_library book_id user now) db))
    | HTTPException c d => (HTTPException c d, db)
    | InternalServerError => (InternalServerError, db)
    end.
Proof. apply handle_authenticated. Qed.

Lemma handle_mark_read now book_id credentials db :
  handle now (POST_mark_read book_id credentials) db
  = match current_user now credentials db with
    | Ok user =>
        (Result_map JSON_Message
           (fst (get_db (mark_book_as_read book_id user) db)),
         snd (get_db (mark_book_as_read book_id user) db))
    | HTTPException c d => (HTTPException c d, db)
    | InternalServerError => (InternalServerError, db)
    end.
Proof. apply handle_authenticated. Qed.

Lemma handle_subscribe now plan_id credentials db :
  handle now (POST_subscribe plan_id credentials) db
  = match current_user now credentials db with
    | Ok user =>
        (Result_map JSON_Message
           (fst (get_db (subscribe_to_plan plan_id user) db)),
         snd (get_db (subscribe_to_plan plan_id user) db))
    | HTTPException c d => (HTTPException c d, db)
    | InternalServerError => (InternalServerError, db)
    end.
Proof. apply handle_authenticated. Qed.

Lemma handle_me now credentials db :
  handle now (GET_me credentials) db
  = (Result_map (fun u => JSON_User (UserResponse_from_attributes u))
       (current_user now credentials db), db).
Proof.
  unfold handle, app. rewrite handle_authenticated.
  destruct (current_user now credentials db); reflexivity.
Qed.

Lemma handle_my_books now credentials db :
  handle now (GET_my_books credentials) db
  = match current_user now credentials db with
    | Ok user =>
        (Result_map JSON_Books
           (response_model_List_BookResponse (library (User_id user) db)), db)
    | HTTPException c d => (HTTPException c d, db)
    | InternalServerError => (InternalServerError, db)
    end.
Proof.
  unfold handle, app.
  pose proof (Depends_eq now credentials db get_my_books) as H.
  unfold get_db in *. unfold bind at 1.
  destruct (Depends_get_current_user now credentials get_my_books
              (mkSession db db)) as [r s] eqn:E.
  destruct (current_user now credentials db) as [user | c d |].
  - pose proof (get_my_books_eq user db) as G. unfold get_db in G.
    destruct (get_my_books user (mkSession db db)) as [r' s'].
    injection G as -> Gs. injection H as -> Hs.
    unfold bind, validated, ret.
    destruct (response_model_List_BookResponse (library (User_id user) db));
      cbn; congruence.
  - injection H as -> Hs. cbn. congruence.
  - injection H as -> Hs. cbn. congruence.
Qed.

Lemma handle_register now user db :
  handle now (POST_register user) db
  = (Result_map (fun u => JSON_User (UserResponse_from_attributes u))
       (fst (get_db (register user now) db)),
     snd (get_db (register user now) db)).
Proof. apply get_db_bind_ret. Qed.

Lemma handle_login now user db :
  handle now (POST_login user) db
  = (Result_map JSON_Token (fst (get_db (login user now) db)),
     snd (get_db (login user now) db)).
Proof. apply get_db_bind_ret. Qed.

Lemma handle_seed_data now db :
  handle now POST_seed_data db
  = (Result_map JSON_Message (fst (get_db seed_data db)),
     snd (get_db seed_data db)).
Proof. apply get_db_bind_ret. Qed.

Lemma is_failure_map {A B} (f : A -> B) (r : Result A) :
  is_failure (Result_map f r) = is_failure r.
Proof. destruct r; reflexivity. Qed.

(** ** Failure atomicity *)

(** C4. Whatever the request (register, login, add-to-library, mark-read,
    subscribe, and the others as well), if it is answered with an error
    then the store after the request is the store before it: a failed
    acquisition leaves no ownership row, a failed registration no user. *)
Theorem failure_leaves_store_unchanged now request db :
  is_failure (fst (handle now request db)) = true ->
  snd (handle now request db) = db.
Proof.
  destruct request as [user | user | credentials | book_id credentials
                      | credentials | book_id credentials
                      | plan_id credentials |].
  - rewrite handle_register, register_eq.
    destruct (find _ (users db)); cbn; [reflexivity |].
    destruct (bcrypt_hashpw _ _); cbn; [discriminate | reflexivity].
  - rewrite handle_login, login_eq.
    destruct (find _ (users db)) as [u |]; [| reflexivity].
    destruct (bcrypt_checkpw _ _) as [[|] |]; reflexivity.
  - rewrite handle_me. reflexivity.
  - rewrite handle_add_to_library.
    destruct (current_user now credentials db) as [user | c d |];
      [| reflexivity ..].
    rewrite add_book_to_library_eq.
    destruct (find _ (books db)) as [book |]; [| reflexivity].
    destruct (find _ (user_books db)); [reflexivity |].
    destruct (Book_is_premium book && _); cbn; [reflexivity | discriminate].
  - rewrite handle_my_books.
    destruct (current_user now credentials db); reflexivity.
  - rewrite handle_mark_read.
    destruct (current_user now credentials db) as [user | c d |];
      [| reflexivity ..].
    rewrite mark_book_as_read_eq.
    destruct (find _ (user_books db)); cbn; [discriminate | reflexivity].
  - rewrite handle_subscribe.
    destruct (current_user now credentials db) as [user | c d |];
      [| reflexivity ..].
    rewrite subscribe_to_plan_eq.
    destruct (find _ (subscription_plans db)); cbn; [discriminate | reflexivity].
  - rewrite handle_seed_data. cbn [fst snd]. rewrite is_failure_map.
    destruct (seed_data_effect db) as (r & db' & -> & _ & _ & _ & H).
    exact H.
Qed.

(** ** Queries on lists of rows *)

Lemma find_none_filter {A} (p : A -> bool) (l : list A) :
  find p l = None <-> filter p l = [].
Proof.
  induction l as [| a l IH]; cbn; [tauto |].
  destruct (p a); [split; discriminate | exact IH].
Qed.

Lemma find_filter_head {A} (p : A -> bool) (l : list A) (a : A) (rest : list A) :
  filter p l = a :: rest -> find p l = Some a.
Proof.
  induction l as [| x l IH]; cbn; [discriminate |].
  destruct (p x); [congruence | exact IH].
Qed.


(** ** Acquisition *)

Lemma handle_add_ok now credentials book_id db user book :
  current_user now credentials db = Ok user ->
  find (has_book_id book_id) (books db) = Some book ->
  ownerships (User_id user) book_id db = [] ->
  ~ (Book_is_premium book = true /\ User_subscription_plan user = "free") ->
  handle now (POST_add_to_library book_id credentials) db
  = (Ok (JSON_Message (mkMessage "Book added to library")),
     mkDB (users db) (books db) (subscription_plans db)
          (user_books db
             ++ [mkUserBook (next_id (map UserBook_id (user_books db)))
                            (User_id user) book_id false now])).
Proof.
  intros Hu Hb Eo Hn.
  rewrite handle_add_to_library, Hu, add_book_to_library_eq, Hb.
  apply find_none_filter in Eo. rewrite Eo.
  destruct (Book_is_premium book) eqn:Ep; cbn; [| reflexivity].
  destruct (String.eqb_spec (User_subscription_plan user) "free");
    [| reflexivity].
  exfalso. apply Hn. auto.
Qed.

(** C2. For a request made on behalf of [user] (the row the credential
    resolves to when the request is served): the answer is 403
    "Premium subscription required" exactly when the book exists, the
    user holds no ownership row for it, the book is premium and the
    user's stored plan is "free"; and whenever the book exists, is not
    yet owned and that denial does not apply, the answer is 200 and the
    store gains exactly one ownership row for the pair, unread and
    stamped with the clock reading of the request. *)
Theorem add_to_library_entitlement now credentials book_id db user :
  current_user now credentials db = Ok user ->
  (fst (handle now (POST_add_to_library book_id credentials) db)
     = EntitlementDenied
   <-> exists book,
         find (has_book_id book_id) (books db) = Some book
         /\ ownerships (User_id user) book_id db = []
         /\ Book_is_premium book = true
         /\ User_subscription_plan user = "free")
  /\ (forall book,
        find (has_book_id book_id) (books db) = Some book ->
        ownerships (User_id user) book_id db = [] ->
        ~ (Book_is_premium book = true
           /\ User_subscription_plan user = "free") ->
        handle now (POST_add_to_library book_id credentials) db
        = (Ok (JSON_Message (mkMessage "Book added to library")),
           mkDB (users db) (books db) (subscription_plans db)
                (user_books db
                   ++ [mkUserBook (next_id (map UserBook_id (user_books db)))
                                  (User_id user) book_id false now]))).
Proof.
  intros Hu. split.
  - rewrite handle_add_to_library, Hu, add_book_to_library_eq. split.
    + destruct (find _ (books db)) as [book |];
        [| unfold miss; destruct (sqlite_integer _); discriminate].
      destruct (find _ (user_books db)) eqn:Eo; [discriminate |].
      apply find_none_filter in Eo.
      destruct (Book_is_premium book) eqn:Ep; cbn; [| discriminate].
      destruct (String.eqb_spec (User_subscription_plan user) "free");
        cbn; [| discriminate].
      intros _. exists book. auto.
    + intros (book & -> & Eo & -> & ->).
      apply find_none_filter in Eo. rewrite Eo. reflexivity.
  - intros book Hb Eo Hn. apply handle_add_ok with (book := book); assumption.
Qed.

(** ** Registration *)


(** ** Tokens *)

Lemma create_access_token_sub now email :
  create_access_token now [("sub", PyStr email)]
  = let claims :=
      [("sub", PyStr email);
       ("exp", PyInt (timegm (now + timedelta_minutes
                                      ACCESS_TOKEN_EXPIRE_MINUTES)))] in
    jwt_compact ALGORITHM claims (hmac_sha256 SECRET_KEY ALGORITHM claims).
Proof. reflexivity. Qed.

Lemma verify_token_issued now now' email :
  verify_token now' (create_access_token now [("sub", PyStr email)])
  = if (timegm (now + timedelta_minutes ACCESS_TOKEN_EXPIRE_MINUTES) * 1000000
        <=? now')%Z
    then InvalidToken
    else Ok email.
Proof.
  rewrite create_access_token_sub. cbv zeta.
  unfold verify_token, jwt_decode.
  replace (existsb (String.eqb ALGORITHM) [ALGORITHM]) with true
    by reflexivity.
  rewrite String.eqb_refl.
  unfold validate_claims, validate_iat, validate_nbf, validate_exp,
    validate_aud, validate_sub, validate_jti, validate_time_claim.
  cbn [negb dict_get String.eqb Ascii.eqb Bool.eqb py_int first_raised].
  rewrite Z.ltb_antisym.
  destruct (_ <=? now')%Z; reflexivity.
Qed.

(** C7. A token issued for an email at clock reading [now] resolves to
    that email when it is verified at the same reading, and at any reading
    before its expiry second; verified at any reading that is the expiry
    window (30 minutes) or more after the issuance it is rejected with 401
    "Invalid token". *)
Theorem token_round_trip_and_expiry now email :
  let token := create_access_token now [("sub", PyStr email)] in
  let window := timedelta_minutes ACCESS_TOKEN_EXPIRE_MINUTES in
  verify_token now token = Ok email
  /\ (forall now', now' < timegm (now + window) * 1000000 ->
                   verify_token now' token = Ok email)
  /\ (forall now', now + window <= now' ->
                   verify_token now' token = InvalidToken).
Proof.
  intros token window. subst token window.
  assert (B : now < timegm (now + timedelta_minutes ACCESS_TOKEN_EXPIRE_MINUTES)
                    * 1000000
              /\ timegm (now + timedelta_minutes ACCESS_TOKEN_EXPIRE_MINUTES)
                    * 1000000
                  <= now + timedelta_minutes ACCESS_TOKEN_EXPIRE_MINUTES).
  { unfold timegm, timedelta_minutes, ACCESS_TOKEN_EXPIRE_MINUTES.
    pose proof (Z.div_mod (now + 30 * 60 * 1000000) 1000000 ltac:(lia)) as D.
    pose proof (Z.mod_pos_bound (now + 30 * 60 * 1000000) 1000000 ltac:(lia)).
    lia. }
  destruct B as [B1 B2].
  repeat split.
  - rewrite verify_token_issued.
    destruct (Z.leb_spec
                (timegm (now + timedelta_minutes ACCESS_TOKEN_EXPIRE_MINUTES)
                 * 1000000) now); [lia | reflexivity].
  - intros now' H. rewrite verify_token_issued.
    destruct (Z.leb_spec
                (timegm (now + timedelta_minutes ACCESS_TOKEN_EXPIRE_MINUTES)
                 * 1000000) now'); [lia | reflexivity].
  - intros now' H. rewrite verify_token_issued.
    destruct (Z.leb_spec
                (timegm (now + timedelta_minutes ACCESS_TOKEN_EXPIRE_MINUTES)
                 * 1000000) now'); [reflexivity | lia].
Qed.

(** ** One request at a time: what a step can do to ownerships *)

Lemma filter_map_preserved {A} (p : A -> bool) (g : A -> A) (l : list A) :
  (forall a, p (g a) = p a) -> filter p (map g l) = map g (filter p l).
Proof.
  intros H. induction l as [| a l IH]; cbn; [reflexivity |].
  rewrite H. destruct (p a); cbn; congruence.
Qed.

Lemma update_where_mark id rows :
  update_where UserBook_id id (set_is_read true) rows = map (mark id) rows.
Proof. reflexivity. Qed.

Lemma mark_id id ub : UserBook_id (mark id ub) = UserBook_id ub.
Proof. unfold mark. destruct (_ =? _)%Z; reflexivity. Qed.

Lemma mark_user_id id ub : UserBook_user_id (mark id ub) = UserBook_user_id ub.
Proof. unfold mark. destruct (_ =? _)%Z; reflexivity. Qed.

Lemma mark_book_id id ub : UserBook_book_id (mark id ub) = UserBook_book_id ub.
Proof. unfold mark. destruct (_ =? _)%Z; reflexivity. Qed.

Lemma mark_is_ownership id uid book_id ub :
  is_ownership uid book_id (mark id ub) = is_ownership uid book_id ub.
Proof. unfold is_ownership. rewrite mark_user_id, mark_book_id. reflexivity. Qed.

Lemma mark_owned_by id uid ub : owned_by uid (mark id ub) = owned_by uid ub.
Proof. unfold owned_by. rewrite mark_user_id. reflexivity. Qed.

Lemma mark_mark id ub : mark id (mark id ub) = mark id ub.
Proof.
  unfold mark. destruct (UserBook_id ub =? id)%Z eqn:E; cbn.
  - rewrite E. reflexivity.
  - rewrite E. reflexivity.
Qed.

Lemma handle_ownership_step now request db :
  ownership_step now request db (snd (handle now request db)).
Proof.
  destruct request as [user | user | credentials | book_id credentials
                      | credentials | book_id credentials
                      | plan_id credentials |].
  - apply step_same; [| reflexivity].
    rewrite handle_register, register_eq.
    destruct (find _ (users db)); [reflexivity |].
    destruct (bcrypt_hashpw _ _); reflexivity.
  - apply step_same; [| reflexivity].
    rewrite handle_login, login_eq.
    destruct (find _ (users db)) as [u |]; [| reflexivity].
    destruct (bcrypt_checkpw _ _) as [[|] |]; reflexivity.
  - apply step_same; [| reflexivity]. rewrite handle_me. reflexivity.
  - destruct (current_user now credentials db) as [user | c d |] eqn:Eu.
    2, 3: apply step_same;
      [rewrite handle_add_to_library, Eu; reflexivity
      | intros uid; unfold acquired;
        rewrite handle_add_to_library, Eu; reflexivity].
    destruct (find (has_book_id book_id) (books db)) as [book |] eqn:Eb.
    2: { apply step_same;
           [rewrite handle_add_to_library, Eu, add_book_to_library_eq, Eb;
            reflexivity
           | intros uid; unfold acquired;
             rewrite handle_add_to_library, Eu, add_book_to_library_eq, Eb;
             unfold miss; destruct (sqlite_integer _); reflexivity]. }
    destruct (find (is_ownership (User_id user) book_id) (user_books db))
      as [ub |] eqn:Eo.
    { apply step_same;
        [rewrite handle_add_to_library, Eu, add_book_to_library_eq, Eb, Eo;
         reflexivity
        | intros uid; unfold acquired;
          rewrite handle_add_to_library, Eu, add_book_to_library_eq, Eb, Eo;
          reflexivity]. }
    destruct (Book_is_premium book && (User_subscription_plan user =? "free"))
      eqn:Ep.
    { apply step_same;
        [rewrite handle_add_to_library, Eu, add_book_to_library_eq, Eb, Eo, Ep;
         reflexivity
        | intros uid; unfold acquired;
          rewrite handle_add_to_library, Eu, add_book_to_library_eq, Eb, Eo, Ep;
          reflexivity]. }
    apply (step_acquired now _ db _ book_id credentials user book);
      auto.
    + apply find_none_filter, Eo.
    + rewrite handle_add_to_library, Eu, add_book_to_library_eq, Eb, Eo, Ep.
      reflexivity.
    + intros uid. unfold acquired.
      rewrite handle_add_to_library, Eu, add_book_to_library_eq, Eb, Eo, Ep.
      reflexivity.
  - apply step_same; [| reflexivity]. rewrite handle_my_books.
    destruct (current_user now credentials db); reflexivity.
  - rewrite handle_mark_read.
    destruct (current_user now credentials db) as [user | c d |].
    2, 3: apply step_same; reflexivity.
    rewrite mark_book_as_read_eq.
    destruct (find _ (user_books db)) as [ub |].
    + apply (step_marked now _ db _ (UserBook_id ub)); reflexivity.
    + apply step_same; reflexivity.
  - apply step_same; [| reflexivity]. rewrite handle_subscribe.
    destruct (current_user now credentials db) as [user | c d |];
      [| reflexivity ..].
    rewrite subscribe_to_plan_eq.
    destruct (find _ (subscription_plans db)); reflexivity.
  - apply step_same; [| reflexivity]. rewrite handle_seed_data.
    destruct (seed_data_effect db) as (r & db' & -> & _ & H & _).
    exact H.
Qed.

(** The catalogue is written once, into an empty table, and never again. *)
Lemma handle_books now request db :
  books (snd (handle now request db)) = books db \/ books db = [].
Proof.
  destruct request as [user | user | credentials | book_id credentials
                      | credentials | book_id credentials
                      | plan_id credentials |].
  - left. rewrite handle_register, register_eq.
    destruct (find _ (users db)); [reflexivity |].
    destruct (bcrypt_hashpw _ _); reflexivity.
  - left. rewrite handle_login, login_eq.
    destruct (find _ (users db)) as [u |]; [| reflexivity].
    destruct (bcrypt_checkpw _ _) as [[|] |]; reflexivity.
  - left. rewrite handle_me. reflexivity.
  - left. rewrite handle_add_to_library.
    destruct (current_user now credentials db) as [user | c d |];
      [| reflexivity ..].
    rewrite add_book_to_library_eq.
    destruct (find _ (books db)) as [book |]; [| reflexivity].
    destruct (find _ (user_books db)); [reflexivity |].
    destruct (Book_is_premium book && _); reflexivity.
  - left. rewrite handle_my_books.
    destruct (current_user now credentials db); reflexivity.
  - left. rewrite handle_mark_read.
    destruct (current_user now credentials db) as [user | c d |];
      [| reflexivity ..].
    rewrite mark_book_as_read_eq.
    destruct (find _ (user_books db)); reflexivity.
  - left. rewrite handle_subscribe.
    destruct (current_user now credentials db) as [user | c d |];
      [| reflexivity ..].
    rewrite subscribe_to_plan_eq.
    destruct (find _ (subscription_plans db)); reflexivity.
  - rewrite handle_seed_data.
    destruct (seed_data_effect db) as (r & db' & -> & _ & _ & H & _).
    exact H.
Qed.

(** ** Invariants of the store along a history *)

Lemma run_snoc history event db :
  run (history ++ [event]) db = serve (run history db) event.
Proof. unfold run. rewrite fold_left_app. reflexivity. Qed.

Lemma run_cons event history db :
  run (event :: history) db = run history (serve db event).
Proof. reflexivity. Qed.

Lemma serve_ownership_step db event :
  ownership_step (fst event) (snd event) db (serve db event).
Proof. apply handle_ownership_step. Qed.

Lemma serve_find_book db event book_id book :
  find (has_book_id book_id) (books db) = Some book ->
  find (has_book_id book_id) (books (serve db event)) = Some book.
Proof.
  intros H. destruct (handle_books (fst event) (snd event) db) as [E | E].
  - unfold serve. rewrite E. exact H.
  - rewrite E in H. discriminate.
Qed.

(** Ownership rows are only ever appended, by successful acquisitions. *)
Lemma owned_ids_serve uid db event :
  owned_ids uid (serve db event)
  = (owned_ids uid db ++ acquired uid (fst event) (snd event) db)%list.
Proof.
  unfold owned_ids.
  destruct (serve_ownership_step db event)
    as [E A | id E A | book_id credentials user book _ _ _ _ E A];
    rewrite E, A.
  - rewrite app_nil_r. reflexivity.
  - rewrite app_nil_r.
    rewrite filter_map_preserved by (intros; apply mark_owned_by).
    rewrite map_map. apply map_ext. intros; apply mark_book_id.
  - rewrite filter_app, map_app. f_equal.
    unfold new_ownership, owned_by. cbn.
    destruct (User_id user =? uid)%Z; reflexivity.
Qed.

Lemma owned_ids_run uid history db :
  owned_ids uid (run history db)
  = (owned_ids uid db ++ acquisitions uid history db)%list.
Proof.
  revert db. induction history as [| event history IH]; intros db.
  - cbn. rewrite app_nil_r. reflexivity.
  - rewrite run_cons, IH, owned_ids_serve, <- app_assoc. reflexivity.
Qed.

Lemma ownerships_serve uid book_id db event :
  ownerships uid book_id db <> [] ->
  ownerships uid book_id (serve db event) <> [].
Proof.
  unfold ownerships.
  destruct (serve_ownership_step db event)
    as [E A | id E A | book_id' credentials user book _ _ _ _ E A];
    rewrite E; auto.
  - rewrite filter_map_preserved by (intros; apply mark_is_ownership).
    destruct (filter _ (user_books db)); cbn; congruence.
  - rewrite filter_app.
    destruct (filter _ (user_books db)); cbn; congruence.
Qed.

Lemma ownerships_run uid book_id history db :
  ownerships uid book_id db <> [] ->
  ownerships uid book_id (run history db) <> [].
Proof.
  revert db. induction history as [| event history IH]; intros db H;
    [exact H |].
  rewrite run_cons. apply IH, ownerships_serve, H.
Qed.

Lemma foreign_keys_serve db event :
  foreign_keys_ok db -> foreign_keys_ok (serve db event).
Proof.
  intros FK ub Hin.
  destruct (serve_ownership_step db event)
    as [E A | id E A | book_id credentials user book _ _ Hb _ E A];
    rewrite E in Hin.
  - destruct (FK ub Hin) as (b & Hb). exists b.
    apply serve_find_book, Hb.
  - apply in_map_iff in Hin. destruct Hin as (ub0 & <- & Hin).
    destruct (FK ub0 Hin) as (b & Hb). exists b.
    rewrite mark_book_id. apply serve_find_book, Hb.
  - apply in_app_or in Hin. destruct Hin as [Hin | [<- | []]].
    + destruct (FK ub Hin) as (b & Hb'). exists b.
      apply serve_find_book, Hb'.
    + exists book. apply serve_find_book, Hb.
Qed.

Lemma ownership_unique_serve db event :
  ownership_unique db -> ownership_unique (serve db event).
Proof.
  intros U uid book_id. specialize (U uid book_id). unfold ownerships in *.
  destruct (serve_ownership_step db event)
    as [E A | id E A | book_id' credentials user book _ _ _ Hn E A];
    rewrite E.
  - exact U.
  - rewrite filter_map_preserved by (intros; apply mark_is_ownership).
    rewrite length_map. exact U.
  - rewrite filter_app, length_app. cbn [filter].
    unfold is_ownership at 2. cbn [new_ownership UserBook_user_id UserBook_book_id].
    destruct (Z.eqb_spec (User_id user) uid) as [Eu | ];
      [destruct (Z.eqb_spec book_id' book_id) as [Eb | ] |];
      cbn [andb Datatypes.length].
    + subst uid book_id. unfold ownerships in Hn. rewrite Hn. cbn. lia.
    + lia.
    + lia.
Qed.

Lemma next_id_above ids x : In x ids -> x < next_id ids.
Proof.
  unfold next_id. induction ids as [| y ids IH]; cbn; [tauto |].
  intros [-> | H]; [lia |]. specialize (IH H). lia.
Qed.

Lemma NoDup_snoc {A} (l : list A) (x : A) :
  NoDup l -> ~ In x l -> NoDup (l ++ [x]).
Proof.
  induction l as [| a l IH]; cbn; intros N H.
  - constructor; [tauto | constructor].
  - inversion N as [| ? ? Ha Nl]; subst. constructor.
    + rewrite in_app_iff. cbn. intros [Hin | [-> | []]]; tauto.
    + apply IH; tauto.
Qed.

Lemma primary_keys_serve db event :
  NoDup (map UserBook_id (user_books db)) ->
  NoDup (map UserBook_id (user_books (serve db event))).
Proof.
  intros N.
  destruct (serve_ownership_step db event)
    as [E A | id E A | book_id' credentials user book _ _ _ _ E A];
    rewrite E.
  - exact N.
  - rewrite map_map.
    erewrite map_ext; [exact N |]. intros; apply mark_id.
  - rewrite map_app. cbn. apply NoDup_snoc; [exact N |].
    intros H. apply next_id_above in H. lia.
Qed.

(** Every store a history leads to from the empty tables is well formed. *)
Lemma reachable_invariants db :
  reachable db ->
  foreign_keys_ok db
  /\ ownership_unique db
  /\ NoDup (map UserBook_id (user_books db)).
Proof.
  intros (history & ->).
  induction history as [| event history IH] using rev_ind.
  - repeat split.
    + intros ub [].
    + intros uid book_id. cbn. lia.
    + constructor.
  - rewrite run_snoc. destruct IH as (FK & U & N).
    repeat split.
    + apply foreign_keys_serve, FK.
    + apply ownership_unique_serve, U.
    + apply primary_keys_serve, N.
Qed.

Lemma reachable_run history db : reachable db -> reachable (run history db).
Proof.
  intros (h0 & ->). exists (h0 ++ history)%list.
  unfold run. rewrite fold_left_app. reflexivity.
Qed.

(** ** Ownership uniqueness *)

Lemma current_user_users now credentials db db' :
  users db' = users db ->
  current_user now credentials db' = current_user now credentials db.
Proof. intros E. rewrite !current_user_eq, E. reflexivity. Qed.

Lemma filter_nonempty_find {A} (p : A -> bool) (l : list A) :
  filter p l <> [] -> exists a rest, filter p l = a :: rest /\ find p l = Some a.
Proof.
  destruct (filter p l) as [| a rest] eqn:E; [congruence |].
  intros _. exists a, rest. split; [reflexivity |].
  apply find_filter_head with (rest := rest), E.
Qed.


(** ** Marking as read *)

Lemma mark_all_read id rows :
  (forall ub, In ub rows -> UserBook_id ub = id -> UserBook_is_read ub = true) ->
  map (mark id) rows = rows.
Proof.
  intros H. induction rows as [| ub rows IH]; cbn; [reflexivity |].
  rewrite IH by (intros; apply H; [right |]; assumption).
  f_equal. unfold mark.
  destruct (Z.eqb_spec (UserBook_id ub) id) as [E |]; [| reflexivity].
  specialize (H ub (or_introl eq_refl) E).
  destruct ub; cbn in *; subst; reflexivity.
Qed.

Lemma NoDup_map_eq {A B} (f : A -> B) (l : list A) (a b : A) :
  NoDup (map f l) -> In a l -> In b l -> f a = f b -> a = b.
Proof.
  induction l as [| x l IH]; cbn; [tauto |].
  intros N Ha Hb E. inversion N as [| ? ? Hx Nl]; subst.
  destruct Ha as [-> | Ha], Hb as [-> | Hb]; auto.
  - exfalso. apply Hx. rewrite E. apply in_map, Hb.
  - exfalso. apply Hx. rewrite <- E. apply in_map, Ha.
Qed.

Lemma with_user_books_same db : with_user_books (user_books db) db = db.
Proof. destruct db; reflexivity. Qed.

Lemma handle_mark_read_none now credentials book_id db user :
  current_user now credentials db = Ok user ->
  ownerships (User_id user) book_id db = [] ->
  handle now (POST_mark_read book_id credentials) db
  = (miss book_id NotOwned, db).
Proof.
  intros Hu Hn. rewrite handle_mark_read, Hu, mark_book_as_read_eq.
  apply find_none_filter in Hn. rewrite Hn.
  unfold miss. destruct (sqlite_integer book_id); reflexivity.
Qed.

Lemma handle_mark_read_some now credentials book_id db user user_book rest :
  current_user now credentials db = Ok user ->
  ownerships (User_id user) book_id db = user_book :: rest ->
  handle now (POST_mark_read book_id credentials) db
  = (Ok (JSON_Message (mkMessage "Book marked as read")),
     with_user_books (map (mark (UserBook_id user_book)) (user_books db)) db).
Proof.
  intros Hu Ho. rewrite handle_mark_read, Hu, mark_book_as_read_eq.
  rewrite (find_filter_head _ _ _ _ Ho). reflexivity.
Qed.

Lemma ownerships_marked uid book_id db user_book rest :
  ownerships uid book_id db = user_book :: rest ->
  ownerships uid book_id
    (with_user_books (map (mark (UserBook_id user_book)) (user_books db)) db)
  = set_is_read true user_book :: map (mark (UserBook_id user_book)) rest.
Proof.
  unfold ownerships. intros Ho. cbn [with_user_books user_books].
  rewrite filter_map_preserved by (intros; apply mark_is_ownership).
  rewrite Ho. cbn [map]. f_equal.
  unfold mark. rewrite Z.eqb_refl. reflexivity.
Qed.

(** C6, as the code has it.  For a request made on behalf of [user]:
    with no ownership row for the pair the answer is 404 "Book not in
    your library" when the book id is within the 64-bit range of the
    store's integers, and 500 when it is not; the store is unchanged
    either way.  Otherwise the answer is 200, the first row of the pair
    (the one the query returns) has its read flag set and nothing else
    changes; a second request is answered 200 again and changes nothing;
    and in a store reached from the empty tables, a request on a row that
    is already read leaves the store exactly as it was. *)
Theorem mark_read_behaviour now credentials book_id db user :
  current_user now credentials db = Ok user ->
  (ownerships (User_id user) book_id db = [] ->
   (- 2 ^ 63 <= book_id < 2 ^ 63 ->
    handle now (POST_mark_read book_id credentials) db = (NotOwned, db))
   /\ (~ - 2 ^ 63 <= book_id < 2 ^ 63 ->
       handle now (POST_mark_read book_id credentials) db
       = (InternalServerError, db)))
  /\ (forall user_book rest,
        ownerships (User_id user) book_id db = user_book :: rest ->
        exists db',
          handle now (POST_mark_read book_id credentials) db
          = (Ok (JSON_Message (mkMessage "Book marked as read")), db')
          /\ db' = with_user_books
                     (map (mark (UserBook_id user_book)) (user_books db)) db
          /\ (exists rest',
                ownerships (User_id user) book_id db'
                = set_is_read true user_book :: rest')
          /\ (forall now2 credentials2 user2,
                current_user now2 credentials2 db' = Ok user2 ->
                User_id user2 = User_id user ->
                handle now2 (POST_mark_read book_id credentials2) db'
                = (Ok (JSON_Message (mkMessage "Book marked as read")), db'))
          /\ (reachable db -> UserBook_is_read user_book = true -> db' = db)).
Proof.
  intros Hu. split.
  - intros Hn.
    rewrite (handle_mark_read_none now credentials book_id db user Hu Hn).
    split; intros Hr.
    + rewrite (miss_in_range _ _ Hr). reflexivity.
    + rewrite (miss_out_of_range _ _ Hr). reflexivity.
  - intros user_book rest Ho.
    pose proof (find_filter_head _ _ _ _ Ho) as Hf.
    eexists. split; [| split; [reflexivity |]].
    { exact (handle_mark_read_some now credentials book_id db user user_book
               rest Hu Ho). }
    pose proof (ownerships_marked _ _ _ _ _ Ho) as Ho'.
    split; [eexists; exact Ho' |]. split.
    + intros now2 credentials2 user2 Hu2 Eid.
      rewrite handle_mark_read, Hu2, mark_book_as_read_eq, Eid.
      rewrite (find_filter_head _ _ _ _ Ho').
      cbn [set_is_read UserBook_id with_user_books user_books users books
           subscription_plans].
      rewrite update_where_mark, map_map.
      erewrite map_ext; [reflexivity |]. intros; apply mark_mark.
    + intros R Hr. destruct (reachable_invariants db R) as (_ & _ & N).
      rewrite mark_all_read; [apply with_user_books_same |].
      intros ub Hin E.
      assert (Hin' : In user_book (user_books db)).
      { apply find_some in Hf. apply Hf. }
      rewrite (NoDup_map_eq UserBook_id _ ub user_book N Hin Hin' E).
      exact Hr.
Qed.

(** C10, as the code has it.  [mark-read] never looks at the catalogue:
    for a user with no ownership row for a book id within the 64-bit
    range of the store's integers the answer is 404 "Book not in your
    library", and it is so whatever the books table holds, in particular
    when no book has that id; for an id outside the range the answer is
    500, again whatever the books table holds. *)
Theorem mark_read_ignores_catalog now credentials book_id db user :
  current_user now credentials db = Ok user ->
  ownerships (User_id user) book_id db = [] ->
  (- 2 ^ 63 <= book_id < 2 ^ 63 ->
   handle now (POST_mark_read book_id credentials) db = (NotOwned, db)
   /\ forall catalog,
        handle now (POST_mark_read book_id credentials) (with_books catalog db)
        = (NotOwned, with_books catalog db))
  /\ (~ - 2 ^ 63 <= book_id < 2 ^ 63 ->
      forall catalog,
        handle now (POST_mark_read book_id credentials) (with_books catalog db)
        = (InternalServerError, with_books catalog db)).
Proof.
  intros Hu Hn.
  assert (G : forall catalog,
             handle now (POST_mark_read book_id credentials)
                    (with_books catalog db)
             = (miss book_id NotOwned, with_books catalog db)).
  { intros catalog.
    apply handle_mark_read_none with (user := user); [| exact Hn].
    rewrite (current_user_users now credentials db (with_books catalog db))
      by reflexivity.
    exact Hu. }
  split; intros Hr.
  - split.
    + rewrite (handle_mark_read_none now credentials book_id db user Hu Hn).
      rewrite (miss_in_range _ _ Hr). reflexivity.
    + intros catalog. rewrite G, (miss_in_range _ _ Hr). reflexivity.
  - intros catalog. rewrite G, (miss_out_of_range _ _ Hr). reflexivity.
Qed.

(** ** The library listing *)

Lemma response_model_books (bs : list Book) :
  response_model_List_BookResponse (map Some bs)
  = Ok (map BookResponse_from_attributes bs).
Proof.
  induction bs as [| b bs IH]; cbn; [reflexivity |]. rewrite IH. reflexivity.
Qed.

Lemma has_book_id_eq book_id b : has_book_id book_id b = true -> Book_id b = book_id.
Proof. apply Z.eqb_eq. Qed.

Lemma is_ownership_eq uid book_id ub :
  is_ownership uid book_id ub = true
  <-> UserBook_user_id ub = uid /\ UserBook_book_id ub = book_id.
Proof.
  unfold is_ownership. rewrite andb_true_iff, !Z.eqb_eq. reflexivity.
Qed.

(** With sound foreign keys, the listing is a list of catalogued books whose
    ids are those of the user's ownership rows, row by row. *)
Lemma library_books uid db :
  foreign_keys_ok db ->
  exists bs,
    library uid db = map Some bs
    /\ map Book_id bs = owned_ids uid db
    /\ (forall b, In b bs -> In b (books db)).
Proof.
  intros FK. unfold library, owned_ids.
  assert (H : forall ub, In ub (filter (owned_by uid) (user_books db)) ->
                         exists b, find (has_book_id (UserBook_book_id ub))
                                        (books db) = Some b).
  { intros ub Hin. apply filter_In in Hin. apply FK, Hin. }
  induction (filter (owned_by uid) (user_books db)) as [| ub l IH].
  - exists []. repeat split. intros b [].
  - destruct IH as (bs & E1 & E2 & E3); [intros; apply H; right; assumption |].
    destruct (H ub (or_introl eq_refl)) as (b & Hb).
    exists (b :: bs). cbn. rewrite Hb, E1, E2.
    apply find_some in Hb. destruct Hb as (Hin & Hid).
    rewrite (has_book_id_eq _ _ Hid).
    repeat split. intros b' [<- | Hb']; auto.
Qed.

Lemma handle_my_books_ok now credentials db user :
  foreign_keys_ok db ->
  current_user now credentials db = Ok user ->
  exists bs,
    handle now (GET_my_books credentials) db
    = (Ok (JSON_Books (map BookResponse_from_attributes bs)), db)
    /\ library (User_id user) db = map Some bs
    /\ map Book_id bs = owned_ids (User_id user) db
    /\ (forall b, In b bs -> In b (books db)).
Proof.
  intros FK Hu.
  destruct (library_books (User_id user) db FK) as (bs & E1 & E2 & E3).
  exists bs. rewrite handle_my_books, Hu, E1, response_model_books. auto.
Qed.

Lemma owned_in_library uid book_id db bs :
  ownerships uid book_id db <> [] ->
  library uid db = map Some bs ->
  exists book,
    find (has_book_id book_id) (books db) = Some book /\ In book bs.
Proof.
  intros Ho E.
  destruct (filter_nonempty_find _ _ Ho) as (ub & rest & _ & Hf).
  apply find_some in Hf. destruct Hf as (Hin & Hp).
  apply is_ownership_eq in Hp. destruct Hp as (Eu & Eb).
  assert (Hl : In (find (has_book_id book_id) (books db)) (library uid db)).
  { unfold library. apply in_map_iff. exists ub. rewrite Eb. split; auto.
    apply filter_In. split; [exact Hin |]. unfold owned_by. rewrite Eu.
    apply Z.eqb_refl. }
  rewrite E in Hl. apply in_map_iff in Hl. destruct Hl as (book & Hb & Hin').
  exists book. auto.
Qed.

(** The listing, said of the response: record by record, it is made of
    the seven catalogue fields of the books behind the user's rows. *)
Lemma handle_my_books_response now credentials db user :
  foreign_keys_ok db ->
  current_user now credentials db = Ok user ->
  exists rs,
    handle now (GET_my_books credentials) db = (Ok (JSON_Books rs), db)
    /\ map BookResponse_id rs = owned_ids (User_id user) db
    /\ (forall r, In r rs ->
          exists b,
            In b (books db)
            /\ r = mkBookResponse (Book_id b) (Book_title b) (Book_author b)
                      (Book_genre b) (Book_description b) (Book_price b)
                      (Book_is_premium b))
    /\ (forall book_id,
          ownerships (User_id user) book_id db <> [] ->
          exists b,
            find (has_book_id book_id) (books db) = Some b
            /\ In (mkBookResponse (Book_id b) (Book_title b) (Book_author b)
                      (Book_genre b) (Book_description b) (Book_price b)
                      (Book_is_premium b)) rs).
Proof.
  intros FK Hu.
  destruct (handle_my_books_ok now credentials db user FK Hu)
    as (bs & E1 & E2 & E3 & E4).
  exists (map BookResponse_from_attributes bs).
  split; [exact E1 |]. split; [| split].
  - rewrite map_map, <- E3. reflexivity.
  - intros r Hr. apply in_map_iff in Hr. destruct Hr as (b & <- & Hb).
    exists b. split; [apply E4, Hb | reflexivity].
  - intros book_id Ho.
    destruct (owned_in_library _ _ _ _ Ho E2) as (b & Hb & Hin).
    exists b. split; [exact Hb |].
    apply (in_map BookResponse_from_attributes) in Hin. exact Hin.
Qed.

Lemma add_ok_owned now credentials book_id db user msg db1 :
  current_user now credentials db = Ok user ->
  handle now (POST_add_to_library book_id credentials) db = (Ok msg, db1) ->
  ownerships (User_id user) book_id db1 <> [].
Proof.
  intros Hu. rewrite handle_add_to_library, Hu, add_book_to_library_eq.
  destruct (find _ (books db)) as [book |];
    [| unfold miss; destruct (sqlite_integer _); discriminate].
  destruct (find _ (user_books db)); [discriminate |].
  destruct (Book_is_premium book && _); [discriminate |].
  cbn. intros H. injection H as _ <-.
  unfold ownerships. cbn [with_user_books user_books].
  rewrite filter_app. cbn. unfold is_ownership at 2. cbn.
  rewrite !Z.eqb_refl. cbn.
  destruct (filter _ (user_books db)); discriminate.
Qed.

(** ** Downgrade *)

Lemma reachable_serve db event : reachable db -> reachable (serve db event).
Proof. intros R. apply (reachable_run [event] db R). Qed.

Lemma current_user_in now credentials db user :
  current_user now credentials db = Ok user -> In user (users db).
Proof.
  rewrite current_user_eq.
  destruct (verify_token now credentials) as [email | |]; try discriminate.
  destruct (find _ (users db)) as [u |] eqn:E; try discriminate.
  intros H. injection H as <-. apply find_some in E. apply E.
Qed.

(** C1. Take any history, and a user whose [add-to-library] request for a
    book is then answered 200 (for a premium book this means the user was
    not on the "free" plan).  After any further history, let the user
    switch to any existing plan, the "free" one in particular.  The switch
    is answered 200 and the ownership table and the catalogue are exactly
    what they were before it.  From then on the user's stored plan is the
    new one; [my-books] is answered 200 with a list that holds the record
    of the book, made of the seven fields the catalogue has for it; and
    [mark-read] on the book is answered 200 and leaves the user's first
    row for the book, the same row as before, stored as read. *)
Theorem downgrade_keeps_ownership
    history1 now1 credentials1 book_id user msg db1
    history2 now3 credentials3 user3 plan_id plan :
  current_user now1 credentials1 (run history1 create_all) = Ok user ->
  handle now1 (POST_add_to_library book_id credentials1)
         (run history1 create_all) = (Ok msg, db1) ->
  current_user now3 credentials3 (run history2 db1) = Ok user3 ->
  User_id user3 = User_id user ->
  find (has_plan_id plan_id) (subscription_plans (run history2 db1))
    = Some plan ->
  exists db3,
    handle now3 (POST_subscribe plan_id credentials3) (run history2 db1)
    = (Ok (JSON_Message
             (mkMessage ("Successfully subscribed to "
                           ++ SubscriptionPlan_name plan ++ " plan"))), db3)
    /\ user_books db3 = user_books (run history2 db1)
    /\ books db3 = books (run history2 db1)
    /\ forall now4 credentials4 user4,
         current_user now4 credentials4 db3 = Ok user4 ->
         User_id user4 = User_id user ->
         User_subscription_plan user4 = SubscriptionPlan_name plan
         /\ (exists rs book,
               handle now4 (GET_my_books credentials4) db3
               = (Ok (JSON_Books rs), db3)
               /\ In book (books db3)
               /\ Book_id book = book_id
               /\ In (mkBookResponse book_id (Book_title book)
                        (Book_author book) (Book_genre book)
                        (Book_description book) (Book_price book)
                        (Book_is_premium book)) rs)
         /\ (exists user_book rest db4 user_book' rest',
               ownerships (User_id user) book_id db3 = user_book :: rest
               /\ handle now4 (POST_mark_read book_id credentials4) db3
                  = (Ok (JSON_Message (mkMessage "Book marked as read")), db4)
               /\ ownerships (User_id user) book_id db4 = user_book' :: rest'
               /\ UserBook_id user_book' = UserBook_id user_book
               /\ UserBook_is_read user_book' = true
               /\ users db4 = users db3
               /\ books db4 = books db3).
Proof.
  intros Hu Hadd Hu3 Eid3 Hplan.
  assert (R1 : reachable db1).
  { replace db1 with (serve (run history1 create_all)
                            (now1, POST_add_to_library book_id credentials1))
      by (unfold serve; cbn [fst snd]; rewrite Hadd; reflexivity).
    apply reachable_serve. exists history1. reflexivity. }
  pose proof (reachable_run history2 db1 R1) as R2.
  pose proof (add_ok_owned _ _ _ _ _ _ _ Hu Hadd) as Ho1.
  pose proof (ownerships_run _ _ history2 _ Ho1) as Ho2.
  destruct (reachable_invariants _ R2) as (FK2 & _ & _).
  set (db2 := run history2 db1) in *.
  rewrite handle_subscribe, Hu3, subscribe_to_plan_eq, Hplan.
  cbn [fst snd Result_map].
  eexists. split; [reflexivity |]. split; [reflexivity |].
  split; [reflexivity |].
  intros now4 credentials4 user4 Hu4 Eid4.
  set (db3 := with_users _ db2) in *.
  assert (FK3 : foreign_keys_ok db3) by exact FK2.
  assert (Ho3 : ownerships (User_id user4) book_id db3 <> [])
    by (rewrite Eid4; exact Ho2).
  split; [| split].
  - apply current_user_in in Hu4. subst db3. cbn [with_users users] in Hu4.
    unfold update_where in Hu4. apply in_map_iff in Hu4.
    destruct Hu4 as (u & Eu & _). revert Eu Eid4.
    destruct (Z.eqb_spec (User_id u) (User_id user3)) as [E | E];
      intros <-; [reflexivity |].
    intros E'. congruence.
  - destruct (handle_my_books_response now4 credentials4 db3 user4 FK3 Hu4)
      as (rs & E1 & _ & _ & E4).
    destruct (E4 book_id Ho3) as (book & Hb & Hin).
    apply find_some in Hb. destruct Hb as (Hb & Hid).
    apply has_book_id_eq in Hid.
    exists rs, book. split; [exact E1 |]. split; [exact Hb |].
    split; [exact Hid |]. rewrite <- Hid at 1. exact Hin.
  - rewrite Eid4 in Ho3.
    destruct (ownerships (User_id user) book_id db3) as [| ub rest] eqn:Ho;
      [congruence |].
    rewrite <- Eid4 in Ho.
    rewrite (handle_mark_read_some now4 credentials4 book_id db3 user4 ub rest
               Hu4 Ho).
    pose proof (ownerships_marked _ _ _ _ _ Ho) as Ho'.
    rewrite Eid4 in Ho, Ho'.
    exists ub, rest. eexists. exists (set_is_read true ub).
    eexists. split; [reflexivity |]. split; [reflexivity |].
    split; [exact Ho' |]. repeat split.
Qed.

(** ** Listing order *)

Lemma filter_length_pos {A} (p : A -> bool) (l : list A) (a : A) :
  In a l -> p a = true -> (1 <= List.length (filter p l))%nat.
Proof.
  intros Hin Hp.
  assert (H : In a (filter p l)) by (apply filter_In; auto).
  destruct (filter p l); [destruct H | cbn; lia].
Qed.

Lemma owned_ids_NoDup uid db : ownership_unique db -> NoDup (owned_ids uid db).
Proof.
  unfold ownership_unique, ownerships, owned_ids.
  induction (user_books db) as [| a l IH]; intros U; cbn; [constructor |].
  assert (Ul : forall uid0 book_id,
             (List.length (filter (is_ownership uid0 book_id) l) <= 1)%nat).
  { intros uid0 book_id. specialize (U uid0 book_id). cbn in U.
    destruct (is_ownership uid0 book_id a); cbn in U; lia. }
  destruct (owned_by uid a) eqn:Ea; [| apply IH, Ul].
  cbn. constructor; [| apply IH, Ul].
  intros Hin. apply in_map_iff in Hin. destruct Hin as (a' & Eb & Hin).
  apply filter_In in Hin. destruct Hin as (Hin & Ha').
  specialize (U uid (UserBook_book_id a)). cbn in U.
  assert (Hp : is_ownership uid (UserBook_book_id a) a = true).
  { unfold is_ownership. unfold owned_by in Ea. rewrite Ea, Z.eqb_refl.
    reflexivity. }
  assert (Hp' : is_ownership uid (UserBook_book_id a) a' = true).
  { unfold is_ownership. unfold owned_by in Ha'. rewrite Ha', Eb, Z.eqb_refl.
    reflexivity. }
  rewrite Hp in U. cbn in U.
  pose proof (filter_length_pos _ _ _ Hin Hp'). lia.
Qed.

(** C8. In the store a history leads to, [my-books] for a user is answered
    200 with one record per ownership row of the user, in the order of
    those rows; that order is the order in which the user's acquisitions
    were answered 200 along the history; and every record carries the
    seven fields of a book of the catalogue. *)
Theorem my_books_in_acquisition_order history now credentials user :
  current_user now credentials (run history create_all) = Ok user ->
  exists rs,
    handle now (GET_my_books credentials) (run history create_all)
    = (Ok (JSON_Books rs), run history create_all)
    /\ map BookResponse_id rs
       = map UserBook_book_id
           (filter (fun ub => UserBook_user_id ub =? User_id user)%Z
                   (user_books (run history create_all)))
    /\ map BookResponse_id rs = acquisitions (User_id user) history create_all
    /\ (forall r, In r rs ->
          exists b,
            In b (books (run history create_all))
            /\ r = mkBookResponse (Book_id b) (Book_title b) (Book_author b)
                      (Book_genre b) (Book_description b) (Book_price b)
                      (Book_is_premium b)).
Proof.
  intros Hu.
  assert (R : reachable (run history create_all)) by (exists history; reflexivity).
  destruct (reachable_invariants _ R) as (FK & U & _).
  destruct (handle_my_books_response now credentials _ user FK Hu)
    as (rs & E1 & E2 & E3 & _).
  exists rs. split; [exact E1 |]. split; [exact E2 |].
  split; [| exact E3].
  rewrite E2, owned_ids_run. reflexivity.
Qed.

(** ** Read state and the listing *)

Lemma library_marked uid id db :
  library uid (with_user_books (map (mark id) (user_books db)) db)
  = library uid db.
Proof.
  unfold library. cbn [with_user_books user_books books].
  rewrite filter_map_preserved by (intros; apply mark_owned_by).
  rewrite map_map. apply map_ext. intros ub. rewrite mark_book_id. reflexivity.
Qed.

(** C9, as the code has it.  When [mark-read] is answered 200, the user's
    first ownership row for the book is stored with the read flag set,
    and every later [my-books] listing is answered exactly as it would
    have been before the book was marked: the listing is made of
    [BookResponse] records, which carry the catalogue fields of a book
    and no read flag.  In a store reached from the empty tables that
    listing is answered 200 and contains the book. *)
Theorem mark_read_stored_not_listed now credentials book_id db user msg db' :
  current_user now credentials db = Ok user ->
  handle now (POST_mark_read book_id credentials) db = (Ok msg, db') ->
  (exists user_book rest,
      ownerships (User_id user) book_id db' = user_book :: rest
      /\ UserBook_is_read user_book = true)
  /\ (forall now2 credentials2,
        fst (handle now2 (GET_my_books credentials2) db')
        = fst (handle now2 (GET_my_books credentials2) db))
  /\ (reachable db ->
      forall now2 credentials2 user2,
        current_user now2 credentials2 db' = Ok user2 ->
        User_id user2 = User_id user ->
        exists bs book,
          handle now2 (GET_my_books credentials2) db'
          = (Ok (JSON_Books (map BookResponse_from_attributes bs)), db')
          /\ Book_id book = book_id
          /\ In book bs).
Proof.
  intros Hu H.
  assert (Hs : db' = serve db (now, POST_mark_read book_id credentials))
    by (unfold serve; cbn [fst snd]; rewrite H; reflexivity).
  destruct (ownerships (User_id user) book_id db) as [| ub rest] eqn:Ho.
  - rewrite (handle_mark_read_none now credentials book_id db user Hu Ho) in H.
    unfold miss in H. destruct (sqlite_integer book_id); discriminate.
  - rewrite (handle_mark_read_some now credentials book_id db user ub rest
               Hu Ho) in H.
    injection H as _ <-.
    pose proof (ownerships_marked _ _ _ _ _ Ho) as Ho'.
    split; [| split].
    + exists (set_is_read true ub), (map (mark (UserBook_id ub)) rest).
      split; [exact Ho' | reflexivity].
    + intros now2 credentials2. rewrite !handle_my_books.
      rewrite (current_user_users now2 credentials2 db) by reflexivity.
      destruct (current_user now2 credentials2 db); try reflexivity.
      cbn [fst]. rewrite library_marked. reflexivity.
    + intros R now2 credentials2 user2 Hu2 Eid.
      assert (FK : foreign_keys_ok
                     (with_user_books
                        (map (mark (UserBook_id ub)) (user_books db)) db)).
      { rewrite Hs. apply reachable_invariants, reachable_serve, R. }
      destruct (handle_my_books_ok now2 credentials2 _ user2 FK Hu2)
        as (bs & E1 & E2 & _).
      assert (Hne : ownerships (User_id user2) book_id
                      (with_user_books
                         (map (mark (UserBook_id ub)) (user_books db)) db)
                    <> [])
        by (rewrite Eid, Ho'; discriminate).
      destruct (owned_in_library _ _ _ _ Hne E2) as (book & Hb & Hin).
      exists bs, book. split; [exact E1 |]. split; [| exact Hin].
      apply find_some in Hb. apply has_book_id_eq, Hb.
Qed.

End Properties.

(** * Further properties of the service *)

Section Service.

Context {lib : External}.

(** ** The catalogue routes *)

Lemma get_book_eq book_id db :
  get_db (get_book book_id) db
  = match find (has_book_id book_id) (books db) with
    | Some book => (Ok book, db)
    | None => (miss book_id BookNotFound, db)
    end.
Proof.
  unfold get_db, get_book, bind, query_first, raise, ret, has_book_id, miss;
    cbn.
  destruct (find _ (books db)); [reflexivity |].
  destruct (sqlite_integer book_id); reflexivity.
Qed.

Lemma get_books_eq skip limit db :
  get_db (get_books skip limit) db
  = if sqlite_integer skip && sqlite_integer limit
    then (Ok (limit_rows limit (offset_rows skip (books db))), db)
    else (InternalServerError, db).
Proof.
  unfold get_db, get_books, bind, query_page, ret. cbn [transaction].
  destruct (sqlite_integer skip && sqlite_integer limit); reflexivity.
Qed.

Lemma find_none_forall {A} (p : A -> bool) (l : list A) :
  find p l = None <-> forall a, In a l -> p a = false.
Proof.
  split; [apply find_none |].
  intros H. destruct (find p l) as [a |] eqn:E; [| reflexivity].
  apply find_some in E. destruct E as (Hin & Hp).
  rewrite (H a Hin) in Hp. discriminate.
Qed.

(** X1. [GET /books/{id}] never writes.  For an id within the 64-bit
    range of the store's integers it is answered 404 "Book not found"
    exactly when no catalogued book has the id; for an id outside that
    range, which no book has, it is answered 500; and when it is answered
    200 it is with a catalogued book of that id.  [add-to-library] is
    answered 404 for a book id exactly when [GET /books/{id}] is, and 500
    exactly when it is. *)
Theorem get_book_found_iff now credentials book_id db user :
  current_user now credentials db = Ok user ->
  snd (get_db (get_book book_id) db) = db
  /\ (- 2 ^ 63 <= book_id < 2 ^ 63 ->
      (fst (get_db (get_book book_id) db) = BookNotFound
       <-> forall b, In b (books db) -> Book_id b <> book_id))
  /\ (~ - 2 ^ 63 <= book_id < 2 ^ 63 ->
      (forall b, In b (books db) -> Book_id b <> book_id) ->
      fst (get_db (get_book book_id) db) = InternalServerError)
  /\ (forall b, fst (get_db (get_book book_id) db) = Ok b ->
                In b (books db) /\ Book_id b = book_id)
  /\ (fst (handle now (POST_add_to_library book_id credentials) db)
        = BookNotFound
      <-> fst (get_db (get_book book_id) db) = BookNotFound)
  /\ (fst (handle now (POST_add_to_library book_id credentials) db)
        = InternalServerError
      <-> fst (get_db (get_book book_id) db) = InternalServerError).
Proof.
  intros Hu. rewrite handle_add_to_library, Hu, add_book_to_library_eq.
  rewrite get_book_eq.
  destruct (find (has_book_id book_id) (books db)) as [book |] eqn:E.
  - apply find_some in E. destruct E as (Hin & Hid).
    apply has_book_id_eq in Hid.
    split; [reflexivity |]. split; [| split; [| split; [| split]]].
    + intros _. split; [discriminate |].
      intros H. exfalso. apply (H book Hin Hid).
    + intros _ H. exfalso. apply (H book Hin Hid).
    + intros b Hb. injection Hb as <-. auto.
    + split; [| discriminate].
      destruct (find _ (user_books db)); [discriminate |].
      destruct (Book_is_premium book && _); discriminate.
    + split; [| discriminate].
      destruct (find _ (user_books db)); [discriminate |].
      destruct (Book_is_premium book && _); discriminate.
  - assert (Hnone : forall b, In b (books db) -> Book_id b <> book_id).
    { intros b Hin Hid.
      pose proof (proj1 (find_none_forall _ _) E b Hin) as Hp.
      unfold has_book_id in Hp. rewrite Hid, Z.eqb_refl in Hp. discriminate. }
    cbn [fst snd].
    split; [reflexivity |]. split; [| split; [| split; [| split]]].
    + intros Hr. rewrite (miss_in_range _ _ Hr). split; auto.
    + intros Hr _. apply miss_out_of_range, Hr.
    + unfold miss. destruct (sqlite_integer book_id); discriminate.
    + unfold miss. destruct (sqlite_integer book_id); cbn;
        split; intros H; (reflexivity || discriminate H).
    + unfold miss. destruct (sqlite_integer book_id); cbn;
        split; intros H; (reflexivity || discriminate H).
Qed.

Lemma firstn_plus {A} (n m : nat) (l : list A) :
  firstn (n + m) l = (firstn n l ++ firstn m (skipn n l))%list.
Proof.
  revert l. induction n as [| n IH]; intros l; [reflexivity |].
  destruct l as [| a l]; cbn; [rewrite firstn_nil; reflexivity |].
  rewrite IH. reflexivity.
Qed.

Lemma In_firstn_list {A} (n : nat) (l : list A) (a : A) :
  In a (firstn n l) -> In a l.
Proof.
  intros H. rewrite <- (firstn_skipn n l). apply in_or_app. left. exact H.
Qed.

Lemma In_skipn_list {A} (n : nat) (l : list A) (a : A) :
  In a (skipn n l) -> In a l.
Proof.
  intros H. rewrite <- (firstn_skipn n l). apply in_or_app. right. exact H.
Qed.

(** X2. [GET /books] never writes.  With [skip] and [limit] within the
    64-bit range of the store's integers it does not fail: for
    non-negative numbers a page holds at most [limit] books, all of them
    catalogued, and consecutive pages join up (the page of [n] books from
    [skip] followed by the page of [m] books from [skip + n] is the page
    of [n + m] books from [skip]).  With [skip] or [limit] outside that
    range it is answered 500. *)
Theorem get_books_pages db :
  (forall skip n m,
      0 <= skip -> 0 <= n -> 0 <= m ->
      skip + n < 2 ^ 63 -> n + m < 2 ^ 63 ->
      exists page1 page2,
        get_db (get_books skip n) db = (Ok page1, db)
        /\ get_db (get_books (skip + n) m) db = (Ok page2, db)
        /\ get_db (get_books skip (n + m)) db = (Ok (page1 ++ page2)%list, db)
        /\ (List.length page1 <= Z.to_nat n)%nat
        /\ (forall b, In b page1 -> In b (books db)))
  /\ (forall skip limit,
        ~ (- 2 ^ 63 <= skip < 2 ^ 63 /\ - 2 ^ 63 <= limit < 2 ^ 63) ->
        get_db (get_books skip limit) db = (InternalServerError, db)).
Proof.
  split.
  - intros skip n m Hs Hn Hm Hsn Hnm. rewrite !get_books_eq.
    rewrite !(proj2 (sqlite_integer_spec _)) by lia. cbn [andb].
    unfold limit_rows, offset_rows.
    destruct (Z.ltb_spec n 0); [lia |].
    destruct (Z.ltb_spec m 0); [lia |].
    destruct (Z.ltb_spec (n + m) 0); [lia |].
    do 2 eexists. split; [reflexivity |]. split; [reflexivity |].
    split; [| split].
    + rewrite !Z2Nat.inj_add by lia.
      rewrite firstn_plus, skipn_skipn.
      rewrite (Nat.add_comm (Z.to_nat n)). reflexivity.
    + apply firstn_le_length.
    + intros b Hin. apply In_firstn_list in Hin.
      apply (In_skipn_list _ _ _ Hin).
  - intros skip limit H. rewrite get_books_eq.
    destruct (sqlite_integer skip) eqn:E1;
      [destruct (sqlite_integer limit) eqn:E2 |]; try reflexivity.
    exfalso. apply H. split; apply sqlite_integer_spec; assumption.
Qed.

(** ** Seeding *)

Lemma seed_data_present b bs db :
  books db = b :: bs ->
  get_db seed_data db = (Ok (mkMessage "Data already exists"), db).
Proof.
  intros E. unfold get_db, seed_data, bind, query_first, ret; cbn.
  rewrite E. reflexivity.
Qed.

Lemma seed_data_fresh db :
  books db = [] -> subscription_plans db = [] ->
  get_db seed_data db
  = (Ok (mkMessage "Sample data created successfully"),
     mkDB (users db) seeded_books seeded_plans (user_books db)).
Proof.
  destruct db as [us bs ps ubs]. cbn. intros -> ->. reflexivity.
Qed.

Lemma db_add_SubscriptionPlan_cases name price description max_books s :
  db_add_SubscriptionPlan name price description max_books s
  = (InternalServerError, s)
  \/ exists row s',
       db_add_SubscriptionPlan name price description max_books s = (Ok row, s').
Proof.
  unfold db_add_SubscriptionPlan.
  destruct (existsb _ _); [left; reflexivity | right; eauto].
Qed.

Lemma seed_books_and_commit_books s :
  exists s',
    seed_books_and_commit s
    = (Ok (mkMessage "Sample data created successfully"), s')
    /\ books (database s') <> [].
Proof.
  eexists. split; [reflexivity |].
  cbn. destruct (books (transaction s)); discriminate.
Qed.

Lemma seed_data_leaves_books db msg db' :
  get_db seed_data db = (Ok msg, db') -> books db' <> [].
Proof.
  destruct (books db) as [| b bs] eqn:Eb.
  2: { rewrite (seed_data_present b bs db Eb). intros H.
       injection H as _ <-. rewrite Eb. discriminate. }
  unfold get_db, seed_data.
  unfold bind at 1. rewrite query_first_eq. cbn [transaction].
  rewrite Eb. cbn [find].
  unfold bind at 1.
  destruct (db_add_SubscriptionPlan_cases "free" 0.0%float
              "Access to basic books" 5 (mkSession db db))
    as [E | (r1 & s1 & E)]; rewrite E; [discriminate |].
  unfold bind at 1.
  destruct (db_add_SubscriptionPlan_cases "premium" 9.99%float
              "Access to all books" 100 s1)
    as [E2 | (r2 & s2 & E2)]; rewrite E2; [discriminate |].
  unfold bind at 1.
  destruct (db_add_SubscriptionPlan_cases "unlimited" 19.99%float
              "Unlimited access" 999 s2)
    as [E3 | (r3 & s3 & E3)]; rewrite E3; [discriminate |].
  match goal with
  | |- context [bind (db_add_Book ?a ?b ?c ?d ?e ?f) ?k ?s] =>
      change (bind (db_add_Book a b c d e f) k s)
        with (seed_books_and_commit s)
  end.
  destruct (seed_books_and_commit_books s3) as (s' & -> & Hb).
  intros H. injection H as _ <-. exact Hb.
Qed.

(** X3. Seeding is idempotent: whenever [seed-data] is answered 200, the
    catalogue is not empty afterwards, and a further [seed-data] is
    answered 200 "Data already exists" and leaves the store as it is. *)
Theorem seed_data_twice now db msg db' :
  handle now POST_seed_data db = (Ok msg, db') ->
  books db' <> []
  /\ forall now2,
       handle now2 POST_seed_data db'
       = (Ok (JSON_Message (mkMessage "Data already exists")), db').
Proof.
  rewrite handle_seed_data. intros H.
  destruct (get_db seed_data db) as [r d] eqn:E. cbn [fst snd] in H.
  destruct r as [m | |]; try discriminate.
  injection H as _ ->.
  pose proof (seed_data_leaves_books db m db' E) as Hb.
  split; [exact Hb |]. intros now2.
  destruct (books db') as [| b bs] eqn:Eb; [congruence |].
  rewrite handle_seed_data, (seed_data_present b bs db' Eb). reflexivity.
Qed.

(** ** Reference data and users along a history *)

Lemma handle_reference_tables now request db :
  request <> POST_seed_data ->
  books (snd (handle now request db)) = books db
  /\ subscription_plans (snd (handle now request db)) = subscription_plans db.
Proof.
  destruct request as [user | user | credentials | book_id credentials
                      | credentials | book_id credentials
                      | plan_id credentials |]; intros Hne.
  - rewrite handle_register, register_eq.
    destruct (find _ (users db)); [split; reflexivity |].
    destruct (bcrypt_hashpw _ _); split; reflexivity.
  - rewrite handle_login, login_eq.
    destruct (find _ (users db)) as [u |]; [| split; reflexivity].
    destruct (bcrypt_checkpw _ _) as [[|] |]; split; reflexivity.
  - rewrite handle_me. split; reflexivity.
  - rewrite handle_add_to_library.
    destruct (current_user now credentials db) as [user | c d |];
      [| split; reflexivity ..].
    rewrite add_book_to_library_eq.
    destruct (find _ (books db)) as [book |]; [| split; reflexivity].
    destruct (find _ (user_books db)); [split; reflexivity |].
    destruct (Book_is_premium book && _); split; reflexivity.
  - rewrite handle_my_books.
    destruct (current_user now credentials db); split; reflexivity.
  - rewrite handle_mark_read.
    destruct (current_user now credentials db) as [user | c d |];
      [| split; reflexivity ..].
    rewrite mark_book_as_read_eq.
    destruct (find _ (user_books db)); split; reflexivity.
  - rewrite handle_subscribe.
    destruct (current_user now credentials db) as [user | c d |];
      [| split; reflexivity ..].
    rewrite subscribe_to_plan_eq.
    destruct (find _ (subscription_plans db)); split; reflexivity.
  - congruence.
Qed.

Lemma reference_data_serve db event :
  reference_data_ok db -> reference_data_ok (serve db event).
Proof.
  intros R. unfold serve.
  destruct event as [now request]. cbn [fst snd].
  assert (D : request = POST_seed_data \/ request <> POST_seed_data)
    by (destruct request; auto; right; discriminate).
  destruct D as [-> | Hne].
  - rewrite handle_seed_data. destruct R as [[Eb Ep] | [Eb Ep]].
    + rewrite (seed_data_fresh db Eb Ep). right. split; reflexivity.
    + rewrite (seed_data_present _ _ db Eb). right. split; assumption.
  - destruct (handle_reference_tables now request db Hne) as [Eb Ep].
    unfold reference_data_ok. rewrite Eb, Ep. exact R.
Qed.

Lemma handle_users_step now request db :
  users_step db (snd (handle now request db)).
Proof.
  destruct request as [user | user | credentials | book_id credentials
                      | credentials | book_id credentials
                      | plan_id credentials |].
  - rewrite handle_register, register_eq.
    destruct (find _ (users db)) eqn:E; [apply users_same; reflexivity |].
    destruct (bcrypt_hashpw _ _); [| apply users_same; reflexivity].
    eapply users_registered; [reflexivity | reflexivity | exact E
                             | reflexivity | reflexivity].
  - apply users_same. rewrite handle_login, login_eq.
    destruct (find _ (users db)) as [u |]; [| reflexivity].
    destruct (bcrypt_checkpw _ _) as [[|] |]; reflexivity.
  - apply users_same. rewrite handle_me. reflexivity.
  - apply users_same. rewrite handle_add_to_library.
    destruct (current_user now credentials db) as [user | c d |];
      [| reflexivity ..].
    rewrite add_book_to_library_eq.
    destruct (find _ (books db)) as [book |]; [| reflexivity].
    destruct (find _ (user_books db)); [reflexivity |].
    destruct (Book_is_premium book && _); reflexivity.
  - apply users_same. rewrite handle_my_books.
    destruct (current_user now credentials db); reflexivity.
  - apply users_same. rewrite handle_mark_read.
    destruct (current_user now credentials db) as [user | c d |];
      [| reflexivity ..].
    rewrite mark_book_as_read_eq.
    destruct (find _ (user_books db)); reflexivity.
  - rewrite handle_subscribe.
    destruct (current_user now credentials db) as [user | c d |] eqn:Eu;
      [| apply users_same; reflexivity ..].
    rewrite subscribe_to_plan_eq.
    destruct (find _ (subscription_plans db)) as [plan |] eqn:Ep;
      [| apply users_same; reflexivity].
    apply (users_switched db _ user plan).
    + apply (current_user_in now credentials db user Eu).
    + apply find_some in Ep. apply Ep.
    + reflexivity.
  - apply users_same. rewrite handle_seed_data.
    destruct (seed_data_effect db) as (r & db' & -> & H & _).
    exact H.
Qed.

Lemma switch_id id name u : User_id (switch id name u) = User_id u.
Proof. unfold switch. destruct (_ =? _)%Z; reflexivity. Qed.

Lemma switch_email id name u : User_email (switch id name u) = User_email u.
Proof. unfold switch. destruct (_ =? _)%Z; reflexivity. Qed.

Lemma switch_same_account id name u : same_account u (switch id name u).
Proof. unfold switch. destruct (_ =? _)%Z; repeat split. Qed.

Lemma same_account_refl u : same_account u u.
Proof. repeat split. Qed.

Lemma same_account_trans u v w :
  same_account u v -> same_account v w -> same_account u w.
Proof.
  unfold same_account. intros (A1 & A2 & A3 & A4 & A5) (B1 & B2 & B3 & B4 & B5).
  repeat split; congruence.
Qed.

Lemma find_app_some {A} (p : A -> bool) (l l' : list A) (a : A) :
  find p l = Some a -> find p (l ++ l') = Some a.
Proof.
  induction l as [| x l IH]; cbn; [discriminate |].
  destruct (p x); [auto | exact IH].
Qed.

(** A user found by email is still found after any request, as a row of
    the same account. *)
Lemma serve_account db event email u :
  find (has_email email) (users db) = Some u ->
  exists u',
    find (has_email email) (users (serve db event)) = Some u'
    /\ same_account u u'.
Proof.
  intros Hf.
  destruct (handle_users_step (fst event) (snd event) db)
    as [E | row E _ _ _ _ | caller plan _ _ E]; unfold serve; rewrite E.
  - exists u. split; [exact Hf | apply same_account_refl].
  - exists u. split; [| apply same_account_refl].
    apply find_app_some, Hf.
  - exists (switch (User_id caller) (SubscriptionPlan_name plan) u).
    split; [| apply switch_same_account].
    clear E. induction (users db) as [| x l IH]; [discriminate |].
    cbn in *. unfold has_email at 1. rewrite switch_email.
    fold (has_email email x).
    destruct (has_email email x); [congruence | apply IH, Hf].
Qed.

Lemma run_account history db email u :
  find (has_email email) (users db) = Some u ->
  exists u',
    find (has_email email) (users (run history db)) = Some u'
    /\ same_account u u'.
Proof.
  revert db u. induction history as [| event history IH]; intros db u Hf.
  - exists u. split; [exact Hf | apply same_account_refl].
  - rewrite run_cons.
    destruct (serve_account db event email u Hf) as (u1 & H1 & S1).
    destruct (IH _ _ H1) as (u2 & H2 & S2).
    exists u2. split; [exact H2 |]. apply (same_account_trans _ _ _ S1 S2).
Qed.

Lemma users_step_keeps_ids db db' u :
  users_step db db' -> In u (users db) ->
  exists u', In u' (users db') /\ User_id u' = User_id u.
Proof.
  intros [E | row E _ _ _ _ | caller plan _ _ E] Hin; rewrite E.
  - exists u. auto.
  - exists u. split; [apply in_or_app; left; exact Hin | reflexivity].
  - exists (switch (User_id caller) (SubscriptionPlan_name plan) u).
    split; [apply in_map, Hin | apply switch_id].
Qed.

Lemma users_ok_serve db event :
  reference_data_ok db -> users_ok db -> users_ok (serve db event).
Proof.
  intros R (Nid & Nem & Hrows & Hfk).
  pose proof (handle_users_step (fst event) (snd event) db) as US.
  fold (serve db event) in US.
  repeat split.
  - destruct US as [E | row E Eid _ _ _ | caller plan _ _ E]; rewrite E.
    + exact Nid.
    + rewrite map_app. cbn. apply NoDup_snoc; [exact Nid |].
      rewrite Eid. intros H. apply next_id_above in H. lia.
    + rewrite map_map. erewrite map_ext; [exact Nid |].
      intros; apply switch_id.
  - destruct US as [E | row E _ Ef _ _ | caller plan _ _ E]; rewrite E.
    + exact Nem.
    + rewrite map_app. cbn. apply NoDup_snoc; [exact Nem |].
      intros H. apply in_map_iff in H. destruct H as (u & Eu & Hin).
      pose proof (find_none _ _ Ef u Hin) as Hp.
      unfold has_email in Hp. rewrite Eu, String.eqb_refl in Hp. discriminate.
    + rewrite map_map. erewrite map_ext; [exact Nem |].
      intros; apply switch_email.
  - destruct US as [E | row E _ _ _ Ea | caller plan _ _ E];
      rewrite E in H.
    + apply (Hrows u H).
    + apply in_app_or in H. destruct H as [H | [<- | []]];
        [apply (Hrows u H) | exact Ea].
    + apply in_map_iff in H. destruct H as (u0 & <- & H).
      unfold switch. destruct (_ =? _)%Z; apply (Hrows u0 H).
  - destruct US as [E | row E _ _ Ep _ | caller plan _ Hp E];
      rewrite E in H.
    + apply (Hrows u H).
    + apply in_app_or in H. destruct H as [H | [<- | []]];
        [apply (Hrows u H) | left; exact Ep].
    + apply in_map_iff in H. destruct H as (u0 & <- & H).
      unfold switch. destruct (_ =? _)%Z; [| apply (Hrows u0 H)].
      cbn [set_subscription_plan User_subscription_plan].
      destruct R as [[_ Epl] | [_ Epl]]; rewrite Epl in Hp.
      * destruct Hp.
      * destruct Hp as [<- | [<- | [<- | []]]]; cbn; auto.
  - intros ub Hin.
    assert (Hold : exists u, In u (users db) /\ User_id u = UserBook_user_id ub).
    { destruct (serve_ownership_step db event)
        as [E A | id E A | book_id credentials user book _ Hu _ _ E A];
        rewrite E in Hin.
      - apply (Hfk ub Hin).
      - apply in_map_iff in Hin. destruct Hin as (ub0 & <- & Hin).
        rewrite mark_user_id. apply (Hfk ub0 Hin).
      - apply in_app_or in Hin. destruct Hin as [Hin | [<- | []]].
        + apply (Hfk ub Hin).
        + exists user. split; [| reflexivity].
          apply (current_user_in _ _ _ _ Hu). }
    destruct Hold as (u & Hu & Eid).
    destruct (users_step_keeps_ids _ _ u US Hu) as (u' & Hu' & Eid').
    exists u'. split; [exact Hu' | congruence].
Qed.

Lemma reachable_service_invariants db :
  reachable db -> reference_data_ok db /\ users_ok db.
Proof.
  intros (history & ->).
  induction history as [| event history IH] using rev_ind.
  - split.
    + left. split; reflexivity.
    + unfold users_ok. cbn.
      split; [constructor |]. split; [constructor |].
      split; intros ? [].
  - rewrite run_snoc. destruct IH as (R & U). split.
    + apply reference_data_serve, R.
    + apply users_ok_serve; assumption.
Qed.

(** X4. The reference data is written once: in every store a history
    leads to from the empty tables, the catalogue and the plans are either
    both empty or exactly the five books and three plans of [seed_data],
    keyed 1 to 5 and 1 to 3. *)
Theorem reachable_reference_data history :
  reference_data_ok (run history create_all).
Proof.
  apply reachable_service_invariants. exists history. reflexivity.
Qed.

(** X5. In every store a history leads to, the default page of
    [GET /books] (skip 0, limit 100) is the whole catalogue, and
    [GET /subscription-plans] lists every plan. *)
Theorem default_listings_are_complete history :
  let db := run history create_all in
  get_db (get_books 0 100) db = (Ok (books db), db)
  /\ get_db get_subscription_plans db = (Ok (subscription_plans db), db).
Proof.
  intros db. subst db. split.
  - rewrite get_books_eq.
    destruct (reachable_reference_data history) as [[-> _] | [-> _]];
      reflexivity.
  - unfold get_db, get_subscription_plans, bind, query_all, ret; cbn.
    induction (subscription_plans (run history create_all)) as [| p l IH];
      [reflexivity |].
    cbn. injection IH as IH. rewrite IH. reflexivity.
Qed.

(** X6. In every store a history leads to: user keys are unique, emails
    are unique, every user is active and on one of the plans "free",
    "premium", "unlimited", and every ownership row belongs to a stored
    user. *)
Theorem reachable_users_ok history :
  let db := run history create_all in
  NoDup (map User_id (users db))
  /\ NoDup (map User_email (users db))
  /\ (forall u, In u (users db) ->
        User_is_active u = true
        /\ (User_subscription_plan u = "free"
            \/ User_subscription_plan u = "premium"
            \/ User_subscription_plan u = "unlimited"))
  /\ (forall ub, In ub (user_books db) ->
        exists u, In u (users db) /\ User_id u = UserBook_user_id ub).
Proof.
  apply reachable_service_invariants. exists history. reflexivity.
Qed.

(** ** Credentials *)

Lemma verify_token_failure now credentials :
  is_failure (verify_token now credentials) = true ->
  verify_token now credentials = InvalidToken
  \/ verify_token now credentials = InternalServerError.
Proof.
  unfold verify_token.
  destruct (jwt_decode now credentials SECRET_KEY [ALGORITHM]) as [e | payload].
  - destruct e; auto.
  - destruct (dict_get "sub" payload) as [[] |]; auto; discriminate.
Qed.

Lemma first_raised_none checks :
  first_raised checks = None <-> Forall (fun c => c = None) checks.
Proof.
  induction checks as [| [e |] checks IH]; cbn.
  - split; [constructor | reflexivity].
  - split; [discriminate |]. intros H. inversion H. discriminate.
  - rewrite IH. split; [constructor; auto |]. intros H. inversion H; auto.
Qed.

Lemma validate_time_claim_none name not_an_integer acceptable refused payload :
  validate_time_claim name not_an_integer acceptable refused payload = None
  <-> forall v, dict_get name payload = Some v ->
                exists n, py_int v = inr n /\ acceptable n = true.
Proof.
  unfold validate_time_claim.
  destruct (dict_get name payload) as [v |].
  - destruct (py_int v) as [e | n] eqn:E.
    + split.
      * destruct e; discriminate.
      * intros H. destruct (H v eq_refl) as (n & Hn & _). congruence.
    + destruct (acceptable n) eqn:Ea.
      * split; [| reflexivity]. intros _ v' Hv. injection Hv as <-.
        exists n. auto.
      * split; [discriminate |]. intros H.
        destruct (H v eq_refl) as (n' & Hn & Ha). congruence.
  - split; [| reflexivity]. intros _ v Hv. discriminate.
Qed.

Lemma validate_claims_none now payload :
  validate_claims now payload = None
  <-> (forall v, dict_get "iat" payload = Some v ->
                 exists iat, py_int v = inr iat /\ iat * 1000000 <= now)
      /\ (forall v, dict_get "nbf" payload = Some v ->
                    exists nbf, py_int v = inr nbf /\ nbf * 1000000 <= now)
      /\ (forall v, dict_get "exp" payload = Some v ->
                    exists exp, py_int v = inr exp /\ now < exp * 1000000)
      /\ (forall v, dict_get "aud" payload = Some v -> py_bool v = false)
      /\ (forall v, dict_get "sub" payload = Some v -> exists s, v = PyStr s)
      /\ (forall v, dict_get "jti" payload = Some v -> exists s, v = PyStr s).
Proof.
  unfold validate_claims. rewrite first_raised_none.
  assert (Hstr : forall name (e : Exception),
             match dict_get name payload with
             | Some (PyStr _) | None => None
             | Some _ => Some e
             end = None
             <-> forall v, dict_get name payload = Some v ->
                           exists s, v = PyStr s).
  { intros name e. destruct (dict_get name payload) as [v |].
    - destruct v;
        try (split; [discriminate
                    | intros H; destruct (H _ eq_refl) as [s' Hs];
                      discriminate Hs]).
      split; [| reflexivity]. intros _ v Hv. injection Hv as <-. eauto.
    - split; [| reflexivity]. intros _ v Hv. discriminate. }
  assert (Haud : validate_aud payload = None
                 <-> forall v, dict_get "aud" payload = Some v ->
                               py_bool v = false).
  { unfold validate_aud. destruct (dict_get "aud" payload) as [v |].
    - destruct (py_bool v) eqn:E.
      + split; [discriminate |]. intros H. specialize (H v eq_refl).
        congruence.
      + split; [| reflexivity]. intros _ v' Hv. injection Hv as <-. exact E.
    - split; [| reflexivity]. intros _ v Hv. discriminate. }
  unfold validate_iat, validate_nbf, validate_exp.
  split.
  - intros H.
    inversion H as [| ? ? H1 H']; subst; clear H.
    inversion H' as [| ? ? H2 H'']; subst; clear H'.
    inversion H'' as [| ? ? H3 H']; subst; clear H''.
    inversion H' as [| ? ? H4 H'']; subst; clear H'.
    inversion H'' as [| ? ? H5 H']; subst; clear H''.
    inversion H' as [| ? ? H6 _]; subst; clear H'.
    pose proof (proj1 (validate_time_claim_none _ _ _ _ _) H1) as G1.
    pose proof (proj1 (validate_time_claim_none _ _ _ _ _) H2) as G2.
    pose proof (proj1 (validate_time_claim_none _ _ _ _ _) H3) as G3.
    pose proof (proj1 Haud H4) as G4.
    pose proof (proj1 (Hstr _ _) H5) as G5.
    pose proof (proj1 (Hstr _ _) H6) as G6.
    clear H1 H2 H3 H4 H5 H6.
    rename G1 into H1, G2 into H2, G3 into H3, G4 into H4, G5 into H5,
      G6 into H6.
    cbv beta in H1, H2, H3.
    repeat split; auto.
    + intros v Hv. destruct (H1 v Hv) as (n & E & Ha). exists n.
      split; [exact E |]. apply Z.leb_le, Ha.
    + intros v Hv. destruct (H2 v Hv) as (n & E & Ha). exists n.
      split; [exact E |]. apply Z.leb_le, Ha.
    + intros v Hv. destruct (H3 v Hv) as (n & E & Ha). exists n.
      split; [exact E |]. apply Z.ltb_lt, Ha.
  - intros (H1 & H2 & H3 & H4 & H5 & H6).
    repeat constructor.
    + apply validate_time_claim_none. intros v Hv.
      destruct (H1 v Hv) as (n & E & Ha). exists n.
      split; [exact E |]. apply Z.leb_le, Ha.
    + apply validate_time_claim_none. intros v Hv.
      destruct (H2 v Hv) as (n & E & Ha). exists n.
      split; [exact E |]. apply Z.leb_le, Ha.
    + apply validate_time_claim_none. intros v Hv.
      destruct (H3 v Hv) as (n & E & Ha). exists n.
      split; [exact E |]. apply Z.ltb_lt, Ha.
    + apply Haud, H4.
    + apply (Hstr "sub"), H5.
    + apply (Hstr "jti"), H6.
Qed.

(** X7. [verify_token] accepts exactly what was signed and is in force.
    A credential resolves to an email if and only if it is a well-formed
    token under HS256 whose signature is the MAC, under the service key,
    of its own header and claims, whose [sub] claim is that email, whose
    [iat] and [nbf] claims, if any, convert with [int()] to a second that
    is not ahead of the clock, whose [exp] claim, if any, converts to a
    second still ahead of it, whose [aud] claim, if any, is empty, and
    whose [jti] claim, if any, is a string.  Every other credential is
    answered 401 "Invalid token", or 500 when [int()] raises something
    else than a [ValueError]. *)
Theorem verify_token_sound now credentials :
  (forall email,
      verify_token now credentials = Ok email
      <-> exists claims,
            credentials
            = jwt_compact ALGORITHM claims
                (hmac_sha256 SECRET_KEY ALGORITHM claims)
            /\ dict_get "sub" claims = Some (PyStr email)
            /\ (forall v, dict_get "iat" claims = Some v ->
                          exists iat, py_int v = inr iat
                                      /\ iat * 1000000 <= now)
            /\ (forall v, dict_get "nbf" claims = Some v ->
                          exists nbf, py_int v = inr nbf
                                      /\ nbf * 1000000 <= now)
            /\ (forall v, dict_get "exp" claims = Some v ->
                          exists exp, py_int v = inr exp
                                      /\ now < exp * 1000000)
            /\ (forall v, dict_get "aud" claims = Some v -> py_bool v = false)
            /\ (forall v, dict_get "jti" claims = Some v ->
                          exists s, v = PyStr s))
  /\ (is_failure (verify_token now credentials) = true ->
      verify_token now credentials = InvalidToken
      \/ verify_token now credentials = InternalServerError).
Proof.
  split; [| apply verify_token_failure].
  intros email. unfold verify_token, jwt_decode.
  destruct credentials as [| alg claims signature].
  { split; [discriminate |]. intros (claims & H & _). discriminate. }
  cbn [existsb]. rewrite orb_false_r.
  destruct (String.eqb_spec alg ALGORITHM) as [-> | Halg]; cbn [negb].
  2: { split; [discriminate |]. intros (claims' & H & _).
       injection H as H _ _. contradiction. }
  destruct (String.eqb_spec signature (hmac_sha256 SECRET_KEY ALGORITHM claims))
    as [-> | Hsig]; cbn [negb].
  2: { split; [discriminate |]. intros (claims' & H & _).
       injection H as <- H. contradiction. }
  destruct (validate_claims now claims) as [e |] eqn:Ev.
  - split.
    + destruct e; discriminate.
    + intros (claims' & H & Hsub & H1 & H2 & H3 & H4 & H6).
      injection H as <- _.
      assert (Hn : validate_claims now claims = None).
      { apply validate_claims_none. repeat split; auto.
        intros v Hv. rewrite Hsub in Hv. injection Hv as <-. eauto. }
      congruence.
  - apply validate_claims_none in Ev.
    destruct Ev as (H1 & H2 & H3 & H4 & H5 & H6).
    split.
    + destruct (dict_get "sub" claims) as [v |] eqn:Esub; [| discriminate].
      destruct (H5 v eq_refl) as (s & ->).
      intros H. injection H as <-. exists claims. repeat split; auto.
    + intros (claims' & H & Hsub & _). injection H as <- _.
      rewrite Hsub. reflexivity.
Qed.

(** X8. A protected route does nothing for a credential that does not
    resolve to a stored user: the request is answered 401, with "Invalid
    token" when the credential itself is rejected and "User not found"
    when it verifies but no user has its email, or 500 when verifying the
    credential fails with an error of its own, and the store is left as
    it is; this holds for [me], [add-to-library], [my-books], [mark-read]
    and [subscribe] alike, which all give the same answer. *)
Theorem protected_routes_need_a_user now credentials db :
  is_failure (current_user now credentials db) = true ->
  exists answer : Result Body,
    ((exists detail,
         answer = HTTPException 401 detail
         /\ current_user now credentials db = HTTPException 401 detail
         /\ (detail = "Invalid token"
             /\ verify_token now credentials = InvalidToken
             \/ detail = "User not found"
                /\ exists email,
                     verify_token now credentials = Ok email
                     /\ forall u, In u (users db) -> User_email u <> email))
     \/ (answer = InternalServerError
         /\ current_user now credentials db = InternalServerError
         /\ verify_token now credentials = InternalServerError))
    /\ handle now (GET_me credentials) db = (answer, db)
    /\ handle now (GET_my_books credentials) db = (answer, db)
    /\ forall id,
         handle now (POST_add_to_library id credentials) db = (answer, db)
         /\ handle now (POST_mark_read id credentials) db = (answer, db)
         /\ handle now (POST_subscribe id credentials) db = (answer, db).
Proof.
  intros Hf.
  assert (H : (exists detail,
                  current_user now credentials db = HTTPException 401 detail
                  /\ (detail = "Invalid token"
                      /\ verify_token now credentials = InvalidToken
                      \/ detail = "User not found"
                         /\ exists email,
                              verify_token now credentials = Ok email
                              /\ forall u, In u (users db) ->
                                           User_email u <> email))
              \/ (current_user now credentials db = InternalServerError
                  /\ verify_token now credentials = InternalServerError)).
  { revert Hf. rewrite current_user_eq.
    destruct (verify_token now credentials) as [email | c d |] eqn:Ev.
    - destruct (find (has_email email) (users db)) as [u |] eqn:Ef;
        [discriminate |].
      intros _. left. exists "User not found". split; [reflexivity |].
      right. split; [reflexivity |]. exists email. split; [reflexivity |].
      intros u Hin He.
      pose proof (find_none _ _ Ef u Hin) as Hp.
      unfold has_email in Hp. rewrite He, String.eqb_refl in Hp. discriminate.
    - intros _. left.
      pose proof (verify_token_failure now credentials) as Hs.
      rewrite Ev in Hs. destruct (Hs eq_refl) as [Hs' | Hs'];
        [| discriminate].
      injection Hs' as -> ->.
      exists "Invalid token". split; [reflexivity |]. left. auto.
    - intros _. right. auto. }
  destruct H as [(detail & Hc & Hd) | (Hc & Hv)].
  - exists (HTTPException 401 detail).
    split; [left; exists detail; auto |].
    rewrite handle_me, handle_my_books, Hc.
    split; [reflexivity |]. split; [reflexivity |].
    intros id.
    rewrite handle_add_to_library, handle_mark_read, handle_subscribe, Hc.
    repeat split.
  - exists InternalServerError.
    split; [right; auto |].
    rewrite handle_me, handle_my_books, Hc.
    split; [reflexivity |]. split; [reflexivity |].
    intros id.
    rewrite handle_add_to_library, handle_mark_read, handle_subscribe, Hc.
    repeat split.
Qed.

(** ** Logging in *)

Lemma find_unique_email (l : list User) (u : User) :
  NoDup (map User_email l) -> In u l ->
  find (has_email (User_email u)) l = Some u.
Proof.
  induction l as [| x l IH]; cbn; [tauto |].
  intros N Hin. inversion N as [| ? ? Hx Nl]; subst.
  unfold has_email at 1.
  destruct (String.eqb_spec (User_email x) (User_email u)) as [E | E].
  - destruct Hin as [-> | Hin]; [reflexivity |].
    exfalso. apply Hx. rewrite E. apply in_map, Hin.
  - destruct Hin as [-> | Hin]; [congruence | apply IH; assumption].
Qed.

Lemma has_email_eq email u : has_email email u = true -> User_email u = email.
Proof. apply String.eqb_eq. Qed.

(** X9. In every store a history leads to, [login] is refused with 401
    "Invalid credentials" exactly when every stored user with the email
    (there is at most one) has a hash that bcrypt rejects for the
    password, so for an unknown email and for a wrong password alike; it
    is answered 500 exactly when a stored user has the email and bcrypt
    raises on the password, as it does for one of more than 72 bytes; it
    fails in no other way, and it never writes. *)
Theorem login_refused_iff history now user :
  let db := run history create_all in
  (fst (handle now (POST_login user) db) = InvalidCredentials
   <-> forall u, In u (users db) ->
                 User_email u = UserLogin_email user ->
                 bcrypt_checkpw (UserLogin_password user)
                                (User_hashed_password u) = Some false)
  /\ (fst (handle now (POST_login user) db) = InternalServerError
      <-> exists u, In u (users db)
                    /\ User_email u = UserLogin_email user
                    /\ bcrypt_checkpw (UserLogin_password user)
                                      (User_hashed_password u) = None)
  /\ (is_failure (fst (handle now (POST_login user) db)) = true ->
      fst (handle now (POST_login user) db) = InvalidCredentials
      \/ fst (handle now (POST_login user) db) = InternalServerError)
  /\ ((72 < String.length (UserLogin_password user))%nat ->
      (exists u, In u (users db) /\ User_email u = UserLogin_email user) ->
      fst (handle now (POST_login user) db) = InternalServerError)
  /\ snd (handle now (POST_login user) db) = db.
Proof.
  intros db.
  assert (U : users_ok db)
    by (apply reachable_service_invariants; exists history; reflexivity).
  destruct U as (_ & Nem & _).
  rewrite handle_login, login_eq.
  destruct (find (has_email (UserLogin_email user)) (users db)) as [u |] eqn:Ef.
  - pose proof (find_some _ _ Ef) as (Hin & He). apply has_email_eq in He.
    assert (Hu : forall u', In u' (users db) ->
                            User_email u' = UserLogin_email user -> u' = u).
    { intros u' Hin' He'.
      pose proof (find_unique_email _ u' Nem Hin') as Hf.
      rewrite He', Ef in Hf. injection Hf as <-. reflexivity. }
    pose proof (bcrypt_checkpw_limit (UserLogin_password user)
                  (User_hashed_password u)) as Hlim.
    destruct (bcrypt_checkpw _ (User_hashed_password u)) as [[|] |] eqn:Ec;
      cbn [fst snd Result_map is_failure].
    + split; [| split; [| split; [| split]]].
      * split; [discriminate |]. intros H.
        rewrite (H u Hin He) in Ec. discriminate.
      * split; [discriminate |]. intros (u' & Hin' & He' & Ec').
        rewrite (Hu u' Hin' He'), Ec in Ec'. discriminate.
      * discriminate.
      * intros Hlong _. specialize (Hlim Hlong). discriminate.
      * reflexivity.
    + split; [| split; [| split; [| split]]].
      * split; [| reflexivity]. intros _ u' Hin' He'.
        rewrite (Hu u' Hin' He'). exact Ec.
      * split; [discriminate |]. intros (u' & Hin' & He' & Ec').
        rewrite (Hu u' Hin' He'), Ec in Ec'. discriminate.
      * auto.
      * intros Hlong _. specialize (Hlim Hlong). discriminate.
      * reflexivity.
    + split; [| split; [| split; [| split]]].
      * split; [discriminate |]. intros H.
        rewrite (H u Hin He) in Ec. discriminate.
      * split; [| reflexivity]. intros _. exists u. auto.
      * auto.
      * intros _ _. reflexivity.
      * reflexivity.
  - assert (Hnone : forall u, In u (users db) ->
                              User_email u <> UserLogin_email user).
    { intros u Hin He.
      pose proof (find_none _ _ Ef u Hin) as Hp.
      unfold has_email in Hp. rewrite He, String.eqb_refl in Hp.
      discriminate. }
    cbn [fst snd Result_map is_failure].
    split; [| split; [| split; [| split]]].
    + split; [| reflexivity]. intros _ u Hin He.
      exfalso. apply (Hnone u Hin He).
    + split; [discriminate |]. intros (u & Hin & He & _).
      exfalso. apply (Hnone u Hin He).
    + auto.
    + intros _ (u & Hin & He). exfalso. apply (Hnone u Hin He).
    + reflexivity.
Qed.

(** X10. A session outlives whatever happens to the store: when [login]
    is answered 200 it hands out a "bearer" token and writes nothing, and
    after any further history that token, presented before its expiry
    second, resolves to a row of the very account whose password was
    checked (same key, email, hash; only the plan may have changed). *)
Theorem login_token_resolves now user db token db' history now' :
  handle now (POST_login user) db = (Ok (JSON_Token token), db') ->
  now' < timegm (now + timedelta_minutes ACCESS_TOKEN_EXPIRE_MINUTES) * 1000000 ->
  db' = db
  /\ token_type token = "bearer"
  /\ exists u u',
       In u (users db)
       /\ User_email u = UserLogin_email user
       /\ bcrypt_checkpw (UserLogin_password user) (User_hashed_password u)
          = Some true
       /\ current_user now' (access_token token) (run history db) = Ok u'
       /\ same_account u u'.
Proof.
  rewrite handle_login, login_eq. intros H Hnow.
  destruct (find (has_email (UserLogin_email user)) (users db)) as [u |] eqn:Ef;
    [| discriminate].
  destruct (bcrypt_checkpw _ (User_hashed_password u)) as [[|] |] eqn:Ec;
    try discriminate.
  cbn in H. injection H as <- <-.
  split; [reflexivity |]. split; [reflexivity |].
  destruct (run_account history db _ u Ef) as (u' & Hf' & S).
  exists u, u'. pose proof (find_some _ _ Ef) as (Hin & He).
  apply has_email_eq in He.
  split; [exact Hin |]. split; [exact He |]. split; [exact Ec |].
  split; [| exact S].
  rewrite current_user_eq. cbn [access_token].
  rewrite verify_token_issued.
  destruct (Z.leb_spec
              (timegm (now + timedelta_minutes ACCESS_TOKEN_EXPIRE_MINUTES)
               * 1000000) now'); [lia |].
  rewrite Hf'. reflexivity.
Qed.

Lemma find_app_none {A} (p : A -> bool) (l l' : list A) :
  find p l = None -> find p (l ++ l') = find p l'.
Proof.
  induction l as [| x l IH]; cbn; [reflexivity |].
  destruct (p x); [discriminate | exact IH].
Qed.

Lemma token_issued_now now email :
  verify_token now (create_access_token now [("sub", PyStr email)]) = Ok email.
Proof.
  rewrite verify_token_issued.
  destruct (Z.leb_spec
              (timegm (now + timedelta_minutes ACCESS_TOKEN_EXPIRE_MINUTES)
               * 1000000) now) as [H |]; [| reflexivity].
  exfalso. revert H.
  unfold timegm, timedelta_minutes, ACCESS_TOKEN_EXPIRE_MINUTES.
  pose proof (Z.div_mod (now + 30 * 60 * 1000000) 1000000 ltac:(lia)) as D.
  pose proof (Z.mod_pos_bound (now + 30 * 60 * 1000000) 1000000 ltac:(lia)).
  lia.
Qed.

(** X11. Registration and login fit together through bcrypt alone.  For a
    password on which [hashpw] returns a hash that [checkpw] accepts:
    after registering a fresh email and after any further history, [login]
    with that email and password is answered 200 with a token that
    resolves to the email; and [login] with any password that [checkpw]
    rejects against the stored hash is answered 401. *)
Theorem register_then_login now user hashed_password db history now2 :
  bcrypt_hashpw (UserCreate_password user) (bcrypt_gensalt now)
  = Some hashed_password ->
  bcrypt_checkpw (UserCreate_password user) hashed_password = Some true ->
  find (has_email (UserCreate_email user)) (users db) = None ->
  let db1 := run history (snd (handle now (POST_register user) db)) in
  (exists token,
      handle now2
        (POST_login (mkUserLogin (UserCreate_email user)
                                 (UserCreate_password user))) db1
      = (Ok (JSON_Token token), db1)
      /\ verify_token now2 (access_token token) = Ok (UserCreate_email user))
  /\ forall password2,
       bcrypt_checkpw password2 hashed_password = Some false ->
       handle now2 (POST_login (mkUserLogin (UserCreate_email user) password2))
              db1
       = (InvalidCredentials, db1).
Proof.
  intros Hh Hc Hfresh db1. subst db1.
  rewrite handle_register, register_eq, Hfresh, Hh. cbn [snd].
  set (row := new_user db (UserCreate_email user) hashed_password now).
  assert (Hf : find (has_email (UserCreate_email user))
                    (users (with_users (users db ++ [row]) db)) = Some row).
  { cbn [with_users users]. rewrite (find_app_none _ _ _ Hfresh).
    cbn. unfold has_email. cbn. rewrite String.eqb_refl. reflexivity. }
  destruct (run_account history _ _ row Hf) as (u' & Hf' & (_ & _ & Eh & _)).
  split.
  - eexists. rewrite handle_login, login_eq. cbn [UserLogin_email UserLogin_password].
    rewrite Hf', Eh. cbn [row new_user User_hashed_password]. rewrite Hc.
    split; [reflexivity |]. cbn [access_token].
    apply token_issued_now.
  - intros password2 Hc2. rewrite handle_login, login_eq.
    cbn [UserLogin_email UserLogin_password].
    rewrite Hf', Eh. cbn [row new_user User_hashed_password]. rewrite Hc2.
    reflexivity.
Qed.

(** ** Switching plans *)

Lemma current_user_find now credentials db user :
  current_user now credentials db = Ok user ->
  verify_token now credentials = Ok (User_email user)
  /\ find (has_email (User_email user)) (users db) = Some user.
Proof.
  rewrite current_user_eq.
  destruct (verify_token now credentials) as [email | |]; try discriminate.
  destruct (find (has_email email) (users db)) as [u |] eqn:E;
    try discriminate.
  intros H. injection H as <-.
  pose proof (find_some _ _ E) as (_ & He). apply has_email_eq in He.
  subst email. auto.
Qed.

Lemma find_email_switched email id name (l : list User) :
  find (has_email email) (map (switch id name) l)
  = option_map (switch id name) (find (has_email email) l).
Proof.
  induction l as [| x l IH]; [reflexivity |].
  cbn. unfold has_email at 1. rewrite switch_email. fold (has_email email x).
  destruct (has_email email x); [reflexivity | exact IH].
Qed.

(** X12. A plan switch takes effect at once and decides later
    acquisitions.  When [subscribe] finds the plan it is answered 200, and
    from then on any valid credential of the caller resolves to the
    caller's row with the new plan name, [me] reports that name, and an
    [add-to-library] for a catalogued book the caller does not hold is
    refused with 403 exactly when the book is premium and the new plan is
    named "free", and answered 200 otherwise. *)
Theorem subscribe_then_acquire now credentials plan_id db user plan :
  current_user now credentials db = Ok user ->
  find (has_plan_id plan_id) (subscription_plans db) = Some plan ->
  exists db',
    handle now (POST_subscribe plan_id credentials) db
    = (Ok (JSON_Message
             (mkMessage ("Successfully subscribed to "
                           ++ SubscriptionPlan_name plan ++ " plan"))), db')
    /\ forall now2 credentials2,
         verify_token now2 credentials2 = Ok (User_email user) ->
         current_user now2 credentials2 db'
         = Ok (set_subscription_plan (SubscriptionPlan_name plan) user)
         /\ handle now2 (GET_me credentials2) db'
            = (Ok (JSON_User
                     (mkUserResponse (User_id user) (User_email user)
                        (SubscriptionPlan_name plan) (User_is_active user))),
               db')
         /\ forall book_id book,
              find (has_book_id book_id) (books db) = Some book ->
              ownerships (User_id user) book_id db = [] ->
              fst (handle now2 (POST_add_to_library book_id credentials2) db')
              = if Book_is_premium book
                   && (SubscriptionPlan_name plan =? "free")
                then EntitlementDenied
                else Ok (JSON_Message (mkMessage "Book added to library")).
Proof.
  intros Hu Hp.
  destruct (current_user_find _ _ _ _ Hu) as (_ & Hf).
  rewrite handle_subscribe, Hu, subscribe_to_plan_eq, Hp.
  cbn [fst snd Result_map]. eexists. split; [reflexivity |].
  intros now2 credentials2 Hv.
  assert (Hu2 : current_user now2 credentials2
                  (with_users
                     (update_where User_id (User_id user)
                        (set_subscription_plan (SubscriptionPlan_name plan))
                        (users db)) db)
                = Ok (set_subscription_plan (SubscriptionPlan_name plan) user)).
  { rewrite current_user_eq, Hv. cbn [with_users users].
    change (update_where User_id (User_id user)
              (set_subscription_plan (SubscriptionPlan_name plan)) (users db))
      with (map (switch (User_id user) (SubscriptionPlan_name plan)) (users db)).
    rewrite find_email_switched, Hf. cbn [option_map].
    unfold switch. rewrite Z.eqb_refl. reflexivity. }
  split; [exact Hu2 |]. split.
  - rewrite handle_me, Hu2. reflexivity.
  - intros book_id book Hb Ho.
    rewrite handle_add_to_library, Hu2, add_book_to_library_eq.
    cbn [with_users books user_books set_subscription_plan User_id
         User_subscription_plan].
    rewrite Hb. apply find_none_filter in Ho. rewrite Ho.
    destruct (Book_is_premium book && _); reflexivity.
Qed.

(** X13. The quota of a plan is never enforced: [add-to-library] gives the
    same answer and leaves the same ownership table whatever the
    [subscription_plans] table holds, [max_books] included. *)
Theorem add_never_checks_quota now credentials book_id db plans :
  fst (handle now (POST_add_to_library book_id credentials)
         (with_subscription_plans plans db))
  = fst (handle now (POST_add_to_library book_id credentials) db)
  /\ user_books (snd (handle now (POST_add_to_library book_id credentials)
                        (with_subscription_plans plans db)))
     = user_books (snd (handle now (POST_add_to_library book_id credentials) db)).
Proof.
  rewrite !handle_add_to_library.
  rewrite (current_user_users now credentials db
             (with_subscription_plans plans db)) by reflexivity.
  destruct (current_user now credentials db) as [user | c d |];
    [| split; reflexivity ..].
  rewrite !add_book_to_library_eq.
  cbn [with_subscription_plans books user_books].
  destruct (find _ (books db)) as [book |]; [| split; reflexivity].
  destruct (find _ (user_books db)); [split; reflexivity |].
  destruct (Book_is_premium book && _); split; reflexivity.
Qed.

(** ** Ownership rows along a history *)

Lemma mark_added_at id ub : UserBook_added_at (mark id ub) = UserBook_added_at ub.
Proof. unfold mark. destruct (_ =? _)%Z; reflexivity. Qed.

Lemma mark_is_read id ub :
  UserBook_is_read ub = true -> UserBook_is_read (mark id ub) = true.
Proof. unfold mark. destruct (_ =? _)%Z; auto. Qed.

Lemma serve_keeps_ownership db event ub :
  In ub (user_books db) ->
  exists ub',
    In ub' (user_books (serve db event))
    /\ UserBook_id ub' = UserBook_id ub
    /\ UserBook_user_id ub' = UserBook_user_id ub
    /\ UserBook_book_id ub' = UserBook_book_id ub
    /\ UserBook_added_at ub' = UserBook_added_at ub
    /\ (UserBook_is_read ub = true -> UserBook_is_read ub' = true).
Proof.
  intros Hin.
  destruct (serve_ownership_step db event)
    as [E A | id E A | book_id credentials user book _ _ _ _ E A]; rewrite E.
  - exists ub. repeat split; auto.
  - exists (mark id ub). split; [apply in_map, Hin |].
    rewrite mark_id, mark_user_id, mark_book_id, mark_added_at.
    repeat split. apply mark_is_read.
  - exists ub. split; [apply in_or_app; left; exact Hin |]. repeat split; auto.
Qed.

(** X14. Nothing is ever taken back: along any history an ownership row
    stays in the table with its key, user, book and acquisition time, and
    once it is marked read it stays read. *)
Theorem ownership_rows_persist history db ub :
  In ub (user_books db) ->
  exists ub',
    In ub' (user_books (run history db))
    /\ UserBook_id ub' = UserBook_id ub
    /\ UserBook_user_id ub' = UserBook_user_id ub
    /\ UserBook_book_id ub' = UserBook_book_id ub
    /\ UserBook_added_at ub' = UserBook_added_at ub
    /\ (UserBook_is_read ub = true -> UserBook_is_read ub' = true).
Proof.
  revert db ub. induction history as [| event history IH]; intros db ub Hin.
  - exists ub. repeat split; auto.
  - rewrite run_cons.
    destruct (serve_keeps_ownership db event ub Hin)
      as (ub1 & H1 & A1 & B1 & C1 & D1 & R1).
    destruct (IH _ _ H1) as (ub2 & H2 & A2 & B2 & C2 & D2 & R2).
    exists ub2. repeat split; try congruence. auto.
Qed.

(** X15. [mark-read] touches one pair only: in a store a history leads
    to, when the request is answered 200 the users, the catalogue and the
    plans are unchanged, and so are the ownership rows of every other
    (user, book) pair. *)
Theorem mark_read_is_local history now credentials book_id user msg db' :
  let db := run history create_all in
  current_user now credentials db = Ok user ->
  handle now (POST_mark_read book_id credentials) db = (Ok msg, db') ->
  users db' = users db
  /\ books db' = books db
  /\ subscription_plans db' = subscription_plans db
  /\ forall uid bid,
       (uid, bid) <> (User_id user, book_id) ->
       ownerships uid bid db' = ownerships uid bid db.
Proof.
  intros db Hu H.
  assert (R : reachable db) by (exists history; reflexivity).
  destruct (reachable_invariants db R) as (_ & _ & N).
  destruct (ownerships (User_id user) book_id db) as [| ub rest] eqn:Ho.
  - rewrite (handle_mark_read_none now credentials book_id db user Hu Ho) in H.
    unfold miss in H. destruct (sqlite_integer book_id); discriminate.
  - rewrite (handle_mark_read_some now credentials book_id db user ub rest
               Hu Ho) in H.
    injection H as _ <-.
    split; [reflexivity |]. split; [reflexivity |]. split; [reflexivity |].
    intros uid bid Hne. unfold ownerships. cbn [with_user_books user_books].
    rewrite filter_map_preserved by (intros; apply mark_is_ownership).
    apply mark_all_read. intros r Hr Eid. exfalso. apply Hne.
    apply filter_In in Hr. destruct Hr as (Hr & Hp).
    apply is_ownership_eq in Hp. destruct Hp as (<- & <-).
    assert (Hub : In ub (user_books db) /\ is_ownership (User_id user) book_id ub = true).
    { apply filter_In. unfold ownerships in Ho. rewrite Ho. left. reflexivity. }
    destruct Hub as (Hub & Hp). apply is_ownership_eq in Hp.
    destruct Hp as (Eu & Eb).
    rewrite (NoDup_map_eq UserBook_id _ r ub N Hr Hub Eid).
    congruence.
Qed.

(** ** The lifetime of a token *)

(** X16. A token issued at clock reading [now] is accepted at exactly the
    readings before its expiry second, those before the issuance included
    (no issued-at or not-before claim is written), and rejected with 401
    at all others; the expiry second lies less than one second short of,
    or exactly at, 30 minutes after the issuance. *)
Theorem token_validity_window now now' email :
  let token := create_access_token now [("sub", PyStr email)] in
  let expiry :=
    timegm (now + timedelta_minutes ACCESS_TOKEN_EXPIRE_MINUTES) * 1000000 in
  (verify_token now' token = Ok email <-> now' < expiry)
  /\ (verify_token now' token = InvalidToken <-> expiry <= now')
  /\ now + timedelta_minutes 30 - 1000000 < expiry
  /\ expiry <= now + timedelta_minutes 30.
Proof.
  intros token expiry. subst token expiry.
  rewrite verify_token_issued.
  destruct (Z.leb_spec
              (timegm (now + timedelta_minutes ACCESS_TOKEN_EXPIRE_MINUTES)
               * 1000000) now') as [H | H].
  - split; [split; [discriminate | lia] |].
    split; [split; [intros _; exact H | reflexivity] |].
    unfold timegm, timedelta_minutes, ACCESS_TOKEN_EXPIRE_MINUTES.
    pose proof (Z.div_mod (now + 30 * 60 * 1000000) 1000000 ltac:(lia)) as D.
    pose proof (Z.mod_pos_bound (now + 30 * 60 * 1000000) 1000000 ltac:(lia)).
    lia.
  - split; [split; [intros _; exact H | reflexivity] |].
    split; [split; [discriminate | lia] |].
    unfold timegm, timedelta_minutes, ACCESS_TOKEN_EXPIRE_MINUTES.
    pose proof (Z.div_mod (now + 30 * 60 * 1000000) 1000000 ltac:(lia)) as D.
    pose proof (Z.mod_pos_bound (now + 30 * 60 * 1000000) 1000000 ltac:(lia)).
    lia.
Qed.

(** ** Two requests at once *)

Lemma get_db_query_first {R} (table : DB -> list R) parameters criterion db :
  get_db (query_first table parameters criterion) db
  = match find criterion (table db) with
    | Some row => (Ok (Some row), db)
    | None =>
        if forallb sqlite_integer parameters
        then (Ok None, db)
        else (InternalServerError, db)
    end.
Proof.
  unfold get_db, query_first. cbn [transaction database].
  destruct (find criterion (table db)); [reflexivity |].
  destruct (forallb sqlite_integer parameters); reflexivity.
Qed.

Lemma get_db_insert_UserBook user_id book_id now db :
  get_db (db_add_UserBook user_id book_id now ;; db_commit) db
  = (Ok tt,
     with_user_books
       (user_books db ++ [new_ownership db user_id book_id now]) db).
Proof. reflexivity. Qed.

(** X23. The uniqueness of an ownership pair rests on requests being
    served one at a time.  Taken without interruption, the statements of
    [add_book_to_library] are the endpoint.  But the check and the insert
    are separate statements and the table declares no uniqueness on the
    pair: when two requests of a user for a catalogued book the user does
    not hold and is entitled to both run their queries before either
    inserts, both are answered 200 and the store is left with two
    ownership rows for the pair; served one after the other, the second
    is answered 400 and there is one row. *)
Theorem overlapping_acquisitions_both_insert
    book_id user now1 now2 db book :
  find (has_book_id book_id) (books db) = Some book ->
  ownerships (User_id user) book_id db = [] ->
  ~ (Book_is_premium book = true /\ User_subscription_plan user = "free") ->
  let first := add_book_to_library_statements book_id user now1 in
  let second := add_book_to_library_statements book_id user now2 in
  let row1 := mkUserBook (next_id (map UserBook_id (user_books db)))
                (User_id user) book_id false now1 in
  let row2 := mkUserBook (next_id (map UserBook_id (user_books db ++ [row1])))
                (User_id user) book_id false now2 in
  (forall db0,
      to_the_end (add_book_to_library_statements book_id user now1) db0
      = get_db (add_book_to_library book_id user now1) db0)
  /\ (exists first' second' db1 db2,
        statements 2 first db = (first', db)
        /\ statements 2 second db = (second', db)
        /\ to_the_end first' db
           = (Ok (mkMessage "Book added to library"), db1)
        /\ to_the_end second' db1
           = (Ok (mkMessage "Book added to library"), db2)
        /\ user_books db2 = (user_books db ++ [row1; row2])%list
        /\ ownerships (User_id user) book_id db2 = [row1; row2])
  /\ (exists db1,
        to_the_end first db
        = (Ok (mkMessage "Book added to library"), db1)
        /\ to_the_end second db1 = (AlreadyOwned, db1)
        /\ ownerships (User_id user) book_id db1 = [row1]).
Proof.
  intros Hb Ho He first second row1 row2.
  assert (Hfree : Book_is_premium book
                  && (User_subscription_plan user =? "free") = false).
  { destruct (Book_is_premium book) eqn:Ep; [| reflexivity].
    destruct (String.eqb_spec (User_subscription_plan user) "free");
      [| reflexivity].
    exfalso. apply He. auto. }
  pose proof (proj2 (find_none_filter _ _) Ho) as Hn.
  assert (O1 : ownerships (User_id user) book_id
                 (with_user_books (user_books db ++ [row1]) db) = [row1]).
  { unfold ownerships in *. cbn [with_user_books user_books].
    rewrite filter_app, Ho. cbn. unfold is_ownership. cbn.
    rewrite !Z.eqb_refl. reflexivity. }
  split; [| split].
  - intros db0. rewrite add_book_to_library_eq.
    unfold add_book_to_library_statements. cbn [to_the_end].
    rewrite get_db_query_first. fold (has_book_id book_id).
    destruct (find (has_book_id book_id) (books db0)) as [b |].
    + cbn [to_the_end].
      rewrite get_db_query_first. fold (is_ownership (User_id user) book_id).
      destruct (find (is_ownership (User_id user) book_id) (user_books db0));
        [reflexivity |].
      cbn [forallb].
      destruct (Book_is_premium b && _); [reflexivity |].
      cbn [to_the_end]. rewrite get_db_insert_UserBook. reflexivity.
    + unfold miss. cbn [forallb]. rewrite andb_true_r.
      destruct (sqlite_integer book_id); reflexivity.
  - assert (S2 : forall now,
               statements 2 (add_book_to_library_statements book_id user now) db
               = (Insert_UserBook (User_id user) book_id now
                    (Returns (Ok (mkMessage "Book added to library"))), db)).
    { intros now. unfold add_book_to_library_statements.
      cbn [statements statement].
      rewrite get_db_query_first. fold (has_book_id book_id). rewrite Hb.
      cbn [statements statement].
      rewrite get_db_query_first. fold (is_ownership (User_id user) book_id).
      rewrite Hn. cbn [forallb]. rewrite Hfree. reflexivity. }
    do 4 eexists.
    split; [apply S2 |]. split; [apply S2 |].
    cbn [to_the_end]. rewrite !get_db_insert_UserBook.
    split; [reflexivity |]. split; [reflexivity |]. split.
    + cbn [with_user_books user_books]. rewrite <- app_assoc. reflexivity.
    + unfold ownerships in *. cbn [with_user_books user_books].
      rewrite !filter_app, Ho. cbn. unfold is_ownership. cbn.
      rewrite !Z.eqb_refl. reflexivity.
  - exists (with_user_books (user_books db ++ [row1]) db).
    unfold first, second, add_book_to_library_statements. cbn [to_the_end].
    rewrite !get_db_query_first. fold (has_book_id book_id).
    rewrite Hb. cbn [to_the_end].
    rewrite get_db_query_first. fold (is_ownership (User_id user) book_id).
    rewrite Hn. cbn [forallb]. rewrite Hfree.
    cbn [to_the_end]. rewrite get_db_insert_UserBook.
    split; [reflexivity |]. split; [| exact O1].
    cbn [with_user_books books]. rewrite Hb. cbn [to_the_end].
    rewrite get_db_query_first. fold (is_ownership (User_id user) book_id).
    rewrite (find_filter_head _ _ _ _ O1). reflexivity.
Qed.

End Service.

(** * Properties of the dashboard *)

Section DashboardProperties.

Variable W : Type.
Variable http : string -> string -> option JWT -> Payload -> W -> Reply * W.
Variable clicked : string -> option string -> bool.

(** ** What a script renders *)

Lemma renders_only_ret {A} P (a : A) : renders_only P (ui_ret W a).
Proof. intros b. constructor. Qed.

Lemma renders_only_bind {A B} P (m : UI W A) (k : A -> UI W B) :
  renders_only P m -> (forall a, renders_only P (k a)) ->
  renders_only P (ui_bind W m k).
Proof.
  intros Hm Hk b. unfold ui_bind. specialize (Hm b).
  destruct (m b) as [[out b'] [a | |]]; cbn in *; auto.
  specialize (Hk a b'). destruct (k a b') as [[out' b''] r]. cbn in *.
  apply Forall_app. auto.
Qed.

Lemma renders_only_render P e : P e -> renders_only P (render W e).
Proof. intros H b. cbn. auto. Qed.

Lemma renders_only_button P label key :
  P (st_button label key) -> renders_only P (button W clicked label key).
Proof. intros H b. cbn. auto. Qed.

Lemma renders_only_silent {A} P (m : UI W A) :
  (forall b, fst (fst (m b)) = []) -> renders_only P m.
Proof. intros H b. rewrite H. constructor. Qed.

Lemma renders_only_requests P method url bearer data :
  renders_only P (requests W http method url bearer data).
Proof.
  apply renders_only_silent. intros b. unfold requests.
  destruct (http _ _ _ _ _). reflexivity.
Qed.

Lemma renders_only_make_api_request P endpoint method data auth_required :
  (forall body, P (st_error body)) ->
  renders_only P (make_api_request W http endpoint method data auth_required).
Proof.
  intros HP. unfold make_api_request.
  apply renders_only_bind; [apply renders_only_silent; reflexivity |].
  intros s. apply renders_only_bind.
  - destruct (method =? "GET"); [apply renders_only_requests |].
    destruct (method =? "POST"); [apply renders_only_requests |].
    destruct (method =? "PUT");
      [apply renders_only_requests | apply renders_only_silent; reflexivity].
  - intros [status_code text json | e].
    + destruct ((status_code =? 200)%Z || (status_code =? 201)%Z);
        [apply renders_only_ret |].
      apply renders_only_bind; [apply renders_only_render, HP |].
      intros _. apply renders_only_ret.
    + apply renders_only_bind; [apply renders_only_render, HP |].
      intros _. apply renders_only_ret.
Qed.

(** A [GET] with the session's token, step by step. *)
Lemma make_api_request_get endpoint data b :
  make_api_request W http endpoint "GET" data true b
  = let (reply, w') :=
      http "GET" (API_BASE_URL ++ endpoint)
           (session_token (session_state b)) no_data (world b) in
    match reply with
    | Response status_code text json =>
        if (status_code =? 200)%Z || (status_code =? 201)%Z
        then ([], mkBrowser (session_state b) w', Done (Some json))
        else ([st_error ("API Error: " ++ str status_code ++ " - " ++ text)],
              mkBrowser (session_state b) w', Done None)
    | RequestException e =>
        ([st_error ("Connection error: " ++ e)],
         mkBrowser (session_state b) w', Done None)
    end.
Proof.
  unfold make_api_request, ui_bind, get_session, requests, render, ui_ret.
  change ("GET" =? "GET") with true. cbv iota beta.
  destruct (http "GET" (API_BASE_URL ++ endpoint)
              (session_token (session_state b)) no_data (world b))
    as [[status_code text json | e] w'].
  - cbv iota beta. cbn [session_state world].
    destruct ((status_code =? 200)%Z || (status_code =? 201)%Z); reflexivity.
  - reflexivity.
Qed.

Lemma library_cards_no_info user_books :
  renders_only not_info (library_cards W http clicked user_books).
Proof.
  induction user_books as [| book rest IH]; [apply renders_only_ret |].
  cbn [library_cards].
  repeat (apply renders_only_bind;
          [apply renders_only_render; exact I | intros _]).
  apply renders_only_bind.
  { destruct (BookResponse_is_premium book);
      [apply renders_only_render; exact I | apply renders_only_ret]. }
  intros _. apply renders_only_bind;
    [apply renders_only_button; exact I |].
  intros is_clicked. apply renders_only_bind; [| intros _; exact IH].
  destruct is_clicked; [| apply renders_only_ret].
  apply renders_only_bind;
    [apply renders_only_make_api_request; intros; exact I |].
  intros response. destruct (truthy_opt response); [| apply renders_only_ret].
  apply renders_only_bind; [apply renders_only_render; exact I |].
  intros _. apply renders_only_silent. reflexivity.
Qed.

(** X17. The library page has no empty state.  Whatever the API answers
    and whatever is clicked, the page never renders "Your library is
    empty. Go browse some books!": when [GET /my-books] is answered 200
    with an empty list, the list is falsy and the page renders the title
    followed by the error "Failed to load your library.", as it does when
    the request fails. *)
Theorem library_page_has_no_empty_state b :
  Forall not_info (fst (fst (show_my_library W http clicked b)))
  /\ (forall text w',
        http "GET" (API_BASE_URL ++ "/my-books")
             (session_token (session_state b)) no_data (world b)
        = (Response 200 text (JSON_Books []), w') ->
        show_my_library W http clicked b
        = ([st_title "📖 My Library";
            st_error "Failed to load your library."],
           mkBrowser (session_state b) w', Done tt)).
Proof.
  split.
  - revert b. change (renders_only not_info (show_my_library W http clicked)).
    unfold show_my_library.
    apply renders_only_bind; [apply renders_only_render; exact I |].
    intros _. apply renders_only_bind;
      [apply renders_only_make_api_request; intros; exact I |].
    intros [x |]; [| apply renders_only_render; exact I].
    destruct x as [u | t | [| book rest] | m]; cbn [truthy_opt truthy len Nat.eqb];
      try (apply renders_only_bind; [apply renders_only_render; exact I |];
           intros _;
           apply renders_only_bind; [apply renders_only_render; exact I |];
           intros _; apply renders_only_silent; reflexivity).
    + apply renders_only_render; exact I.
    + apply renders_only_bind; [apply renders_only_render; exact I |].
      intros _. apply library_cards_no_info.
  - intros text w' H.
    unfold show_my_library. unfold ui_bind at 1. unfold render at 1.
    unfold ui_bind at 1. rewrite make_api_request_get.
    cbn [session_state world]. rewrite H. reflexivity.
Qed.

Lemma check_auth_with_token b tok :
  session_token (session_state b) = Some tok ->
  check_auth W http b
  = let (reply, w') :=
      http "GET" (API_BASE_URL ++ "/me") (Some tok) no_data (world b) in
    let page := session_page (session_state b) in
    match reply with
    | Response status_code text json =>
        if (status_code =? 200)%Z || (status_code =? 201)%Z
        then
          if truthy json
          then ([], mkBrowser (mkSessionState (Some tok) (Some json) page) w',
                Done true)
          else ([], mkBrowser (mkSessionState None None page) w', Done false)
        else ([st_error ("API Error: " ++ str status_code ++ " - " ++ text)],
              mkBrowser (mkSessionState None None page) w', Done false)
    | RequestException e =>
        ([st_error ("Connection error: " ++ e)],
         mkBrowser (mkSessionState None None page) w', Done false)
    end.
Proof.
  intros Et. unfold check_auth. unfold ui_bind at 1. unfold get_session at 1.
  cbv beta iota. rewrite Et. cbv beta iota.
  unfold ui_bind at 1. rewrite make_api_request_get. rewrite Et.
  destruct (http "GET" (API_BASE_URL ++ "/me") (Some tok) no_data (world b))
    as [[status_code text json | e] w'].
  - destruct ((status_code =? 200)%Z || (status_code =? 201)%Z).
    + cbn [truthy_opt]. destruct (truthy json); cbn; rewrite ?Et; reflexivity.
    + cbn. reflexivity.
  - cbn. reflexivity.
Qed.

(** X18. [check_auth] decides on the answer of [GET /me] alone.  Without
    a token it answers [False], renders nothing and makes no request.
    With a token it makes exactly one request, [GET /me] with that token,
    and the world behind the API is what that request leaves.  If the
    reply is a 200 or 201 with a non-empty document, that document is
    stored as the user info, the token is kept and the answer is [True].
    In every other case (an empty document, another status, a connection
    error) the token and the user info are cleared and the answer is
    [False]; a status other than 200 and 201 and a connection error are
    reported with one error.  The current page is never touched. *)
Theorem check_auth_keeps_session_consistent b :
  (session_token (session_state b) = None ->
   check_auth W http b = ([], b, Done false))
  /\ (forall tok reply w',
        session_token (session_state b) = Some tok ->
        http "GET" (API_BASE_URL ++ "/me") (Some tok) no_data (world b)
        = (reply, w') ->
        let page := session_page (session_state b) in
        let cleared := mkBrowser (mkSessionState None None page) w' in
        (forall status_code text json,
            reply = Response status_code text json ->
            (status_code = 200 \/ status_code = 201) ->
            (truthy json = true ->
             check_auth W http b
             = ([], mkBrowser (mkSessionState (Some tok) (Some json) page) w',
                Done true))
            /\ (truthy json = false ->
                check_auth W http b = ([], cleared, Done false)))
        /\ (forall status_code text json,
              reply = Response status_code text json ->
              status_code <> 200 -> status_code <> 201 ->
              check_auth W http b
              = ([st_error ("API Error: " ++ str status_code ++ " - " ++ text)],
                 cleared, Done false))
        /\ (forall e,
              reply = RequestException e ->
              check_auth W http b
              = ([st_error ("Connection error: " ++ e)], cleared, Done false))).
Proof.
  split.
  - intros Et. unfold check_auth. unfold ui_bind at 1. unfold get_session at 1.
    rewrite Et. reflexivity.
  - intros tok reply w' Et Eh page cleared.
    rewrite (check_auth_with_token b tok Et), Eh. fold page.
    split; [| split].
    + intros status_code text json -> Hs.
      assert (E : (status_code =? 200)%Z || (status_code =? 201)%Z = true)
        by (destruct Hs as [-> | ->]; reflexivity).
      rewrite E. split; intros ->; reflexivity.
    + intros status_code text json -> H1 H2.
      destruct (Z.eqb_spec status_code 200); [contradiction |].
      destruct (Z.eqb_spec status_code 201); [contradiction |].
      reflexivity.
    + intros e ->. reflexivity.
Qed.

(** X19. Logging out ends the session without a request.  [logout]
    renders nothing, leaves the world behind the API and the current page
    as they are and asks for a rerun; in the state it leaves, [check_auth]
    answers [False] without rendering or requesting anything, so the next
    run shows the login page. *)
Theorem logout_ends_session b :
  exists b',
    logout W b = ([], b', Rerun)
    /\ world b' = world b
    /\ session_page (session_state b') = session_page (session_state b)
    /\ session_user_info (session_state b') = None
    /\ check_auth W http b' = ([], b', Done false).
Proof.
  eexists. split; [reflexivity |]. cbn. repeat split; reflexivity.
Qed.

End DashboardProperties.

(** * The dashboard over the backend *)

Section DashboardOverBackend.

Context {lib : External}.
Variable http : string -> string -> option JWT -> Payload -> DB -> Reply * DB.
Variable clicked : string -> option string -> bool.
Variable now : datetime.

Lemma current_user_failure credentials db :
  is_failure (current_user now credentials db) = true ->
  (exists detail, current_user now credentials db = HTTPException 401 detail)
  \/ current_user now credentials db = InternalServerError.
Proof.
  rewrite current_user_eq.
  destruct (verify_token now credentials) as [email | c d |] eqn:Ev.
  - destruct (find _ (users db)); [discriminate | eauto].
  - pose proof (verify_token_failure now credentials) as H.
    rewrite Ev in H. destruct (H eq_refl) as [H' | H']; [| discriminate].
    injection H' as -> ->. eauto.
  - auto.
Qed.

(** X20. The dashboard counts what the user holds.  When [GET /my-books]
    reaches the backend, in a store a history leads to and with a session
    token that resolves to a user, [get_user_books_count] is the number of
    ownership rows of that user, renders nothing and changes nothing; with
    a token that does not resolve it is 0, and one error is rendered. *)
Theorem books_count_matches_backend history tok s :
  reaches http now "GET" (API_BASE_URL ++ "/my-books") GET_my_books ->
  session_token s = Some tok ->
  let db := run history create_all in
  (forall user,
      current_user now tok db = Ok user ->
      get_user_books_count DB http (mkBrowser s db)
      = ([], mkBrowser s db,
         Done (List.length (filter (owned_by (User_id user)) (user_books db)))))
  /\ (is_failure (current_user now tok db) = true ->
      exists e,
        get_user_books_count DB http (mkBrowser s db)
        = ([st_error e], mkBrowser s db, Done 0%nat)).
Proof.
  intros Hr Et db.
  assert (R : reachable db) by (exists history; reflexivity).
  destruct (reachable_invariants db R) as (FK & _ & _).
  destruct (Hr tok no_data db) as (Hc & Hw).
  unfold get_user_books_count, ui_bind. rewrite make_api_request_get.
  cbn [session_state world]. rewrite Et.
  destruct (http "GET" (API_BASE_URL ++ "/my-books") (Some tok) no_data db)
    as [reply w'] eqn:Eh. cbn [fst snd] in Hc, Hw. subst w'.
  split.
  - intros user Hu.
    destruct (handle_my_books_ok now tok db user FK Hu) as (bs & E1 & _ & E2 & _).
    rewrite E1 in Hc |- *. cbn [fst snd] in *.
    destruct reply as [status_code text json | e]; [| destruct Hc].
    destruct Hc as (-> & ->). cbn.
    assert (El : List.length bs
                 = List.length (filter (owned_by (User_id user)) (user_books db))).
    { unfold owned_ids in E2.
      rewrite <- (length_map Book_id bs), E2, length_map. reflexivity. }
    rewrite <- El. rewrite length_map.
    destruct bs; reflexivity.
  - intros Hf.
    destruct (current_user_failure tok db Hf) as [(detail & Hd) | Hd];
      rewrite handle_my_books, Hd in Hc |- *; cbn [fst snd] in Hc |- *;
      (destruct reply as [status_code text json | e]; [| destruct Hc]);
      cbn in Hc; subst status_code; cbn; eexists; reflexivity.
Qed.

(** X21. The dashboard session follows the backend.  When [GET /me]
    reaches the backend and the session holds a token: if the token
    resolves to a stored user, [check_auth] answers [True], keeps the
    token and stores that user's response as user info; if it does not
    (it has expired, was tampered with, or its user is unknown),
    [check_auth] answers [False], renders one error and clears both the
    token and the user info. *)
Theorem check_auth_follows_backend tok s db :
  reaches http now "GET" (API_BASE_URL ++ "/me") GET_me ->
  session_token s = Some tok ->
  (forall user,
      current_user now tok db = Ok user ->
      check_auth DB http (mkBrowser s db)
      = ([],
         mkBrowser
           (mkSessionState (Some tok)
              (Some (JSON_User (UserResponse_from_attributes user)))
              (session_page s)) db,
         Done true))
  /\ (is_failure (current_user now tok db) = true ->
      exists e,
        check_auth DB http (mkBrowser s db)
        = ([st_error e],
           mkBrowser (mkSessionState None None (session_page s)) db,
           Done false)).
Proof.
  intros Hr Et.
  destruct (Hr tok no_data db) as (Hc & Hw).
  rewrite handle_me in Hc, Hw. cbn [fst snd] in Hc, Hw.
  rewrite (check_auth_with_token DB http (mkBrowser s db) tok Et).
  cbn [session_state world].
  destruct (http "GET" (API_BASE_URL ++ "/me") (Some tok) no_data db)
    as [reply w'] eqn:Eh. cbn [fst snd] in Hc, Hw. subst w'.
  split.
  - intros user Hu. rewrite Hu in Hc. cbn [Result_map] in Hc.
    destruct reply as [status_code text json | e]; [| destruct Hc].
    destruct Hc as (-> & ->). reflexivity.
  - intros Hf.
    destruct (current_user_failure tok db Hf) as [(detail & Hd) | Hd];
      rewrite Hd in Hc; cbn [Result_map] in Hc;
      (destruct reply as [status_code text json | e]; [| destruct Hc]);
      cbn in Hc; subst status_code; eexists; reflexivity.
Qed.

Lemma make_api_request_post endpoint data b :
  make_api_request DB http endpoint "POST" data true b
  = let (reply, w') :=
      http "POST" (API_BASE_URL ++ endpoint)
           (session_token (session_state b)) data (world b) in
    match reply with
    | Response status_code text json =>
        if (status_code =? 200)%Z || (status_code =? 201)%Z
        then ([], mkBrowser (session_state b) w', Done (Some json))
        else ([st_error ("API Error: " ++ str status_code ++ " - " ++ text)],
              mkBrowser (session_state b) w', Done None)
    | RequestException e =>
        ([st_error ("Connection error: " ++ e)],
         mkBrowser (session_state b) w', Done None)
    end.
Proof.
  unfold make_api_request, ui_bind, get_session, requests, render, ui_ret.
  change ("POST" =? "GET") with false. change ("POST" =? "POST") with true.
  cbv iota beta.
  destruct (http "POST" (API_BASE_URL ++ endpoint)
              (session_token (session_state b)) data (world b))
    as [[status_code text json | e] w'].
  - cbv iota beta. cbn [session_state world].
    destruct ((status_code =? 200)%Z || (status_code =? 201)%Z); reflexivity.
  - reflexivity.
Qed.

(** X22. Clicking "Mark as Read" works end to end.  When the button's
    call reaches the [mark-read] route, the session token resolves to a
    user who holds the first listed book and that book's button is
    clicked, the page renders the book's card, then "Marked as read!",
    and asks for a rerun without rendering the other books; the store is
    the one [mark-read] leaves, in which the user's row for the book is
    read. *)
Theorem click_mark_as_read tok s db user book rest user_book others :
  reaches http now "POST"
          (API_BASE_URL ++ "/books/" ++ str (BookResponse_id book) ++ "/mark-read")
          (POST_mark_read (BookResponse_id book)) ->
  session_token s = Some tok ->
  current_user now tok db = Ok user ->
  ownerships (User_id user) (BookResponse_id book) db = user_book :: others ->
  clicked "Mark as Read" (Some ("read_" ++ str (BookResponse_id book))) = true ->
  exists db',
    library_cards DB http clicked (book :: rest) (mkBrowser s db)
    = ((card book ++ [st_success "Marked as read!"])%list,
       mkBrowser s db', Rerun)
    /\ db' = snd (handle now (POST_mark_read (BookResponse_id book) tok) db)
    /\ exists others',
         ownerships (User_id user) (BookResponse_id book) db'
         = set_is_read true user_book :: others'.
Proof.
  intros Hr Et Hu Ho Hclick.
  destruct (Hr tok no_data db) as (Hc & Hw).
  rewrite (handle_mark_read_some now tok (BookResponse_id book) db user
             user_book others Hu Ho) in Hc, Hw |- *.
  cbn [fst snd] in Hc, Hw |- *.
  eexists. split; [| split; [reflexivity |]].
  2: { eexists. apply ownerships_marked, Ho. }
  cbn [library_cards]. unfold card.
  destruct (BookResponse_is_premium book);
    unfold ui_bind, render, button, ui_ret; cbv beta iota;
    rewrite Hclick; cbv beta iota;
    rewrite make_api_request_post; cbn [session_state world]; rewrite Et;
    destruct (http "POST" _ (Some tok) no_data db) as [reply w'] eqn:Eh;
    cbn [fst snd] in Hc, Hw; subst w';
    (destruct reply as [status_code text json | e]; [| destruct Hc]);
    destruct Hc as (-> & ->); reflexivity.
Qed.

End DashboardOverBackend.

(** * Concrete runs

    The theorems above, applied to the sample histories with the stand-in
    collaborators. *)

Lemma downgrade_keeps_ownership_witness :
  exists db3,
    @handle sample_lib 9 (POST_subscribe 1 alice_token) owned_db
    = (Ok (JSON_Message (mkMessage "Successfully subscribed to free plan")), db3)
    /\ user_books db3 = user_books owned_db
    /\ books db3 = books owned_db
    /\ forall now4 credentials4 user4,
         @current_user sample_lib now4 credentials4 db3 = Ok user4 ->
         User_id user4 = 1 ->
         User_subscription_plan user4 = "free"
         /\ (exists rs,
               @handle sample_lib now4 (GET_my_books credentials4) db3
               = (Ok (JSON_Books rs), db3)
               /\ In (mkBookResponse 2 "Advanced FastAPI" "Jane Smith"
                        "Programming" "Master FastAPI development"
                        39.99%float true) rs)
         /\ (exists db4 user_book' rest',
               @handle sample_lib now4 (POST_mark_read 2 credentials4) db3
               = (Ok (JSON_Message (mkMessage "Book marked as read")), db4)
               /\ ownerships 1 2 db4 = user_book' :: rest'
               /\ UserBook_id user_book' = 1
               /\ UserBook_is_read user_book' = true).
Proof.
  assert (H1 : @current_user sample_lib 8 alice_token
                 (@run sample_lib sample_history create_all) = Ok alice_row)
    by (vm_compute; reflexivity).
  assert (H2 : @handle sample_lib 8 (POST_add_to_library 2 alice_token)
                 (@run sample_lib sample_history create_all)
               = (Ok (JSON_Message (mkMessage "Book added to library")),
                  owned_db)) by (vm_compute; reflexivity).
  assert (H3 : @current_user sample_lib 9 alice_token
                 (@run sample_lib [] owned_db) = Ok alice_row)
    by (vm_compute; reflexivity).
  assert (H4 : find (has_plan_id 1)
                 (subscription_plans (@run sample_lib [] owned_db))
               = Some free_plan) by (vm_compute; reflexivity).
  destruct (@downgrade_keeps_ownership sample_lib
              sample_history 8 alice_token 2 alice_row
              (JSON_Message (mkMessage "Book added to library")) owned_db
              [] 9 alice_token alice_row 1 free_plan H1 H2 H3 eq_refl H4)
    as (db3 & G1 & G2 & G3 & G4).
  exists db3. split; [exact G1 |]. split; [exact G2 |]. split; [exact G3 |].
  intros now4 credentials4 user4 Hu Hid.
  destruct (G4 now4 credentials4 user4 Hu Hid)
    as (P & (rs & book & L1 & Hin & Hb & Hr)
          & (ub & rest & db4 & ub' & rest' & O3 & M1 & O4 & Eid & Er & _)).
  split; [exact P |]. split.
  - exists rs. split; [exact L1 |].
    change (books (@run sample_lib [] owned_db)) with (books owned_db) in G3.
    rewrite G3 in Hin. vm_compute in Hin.
    destruct Hin as [<- | [<- | [<- | [<- | [<- | []]]]]];
      try discriminate Hb.
    exact Hr.
  - exists db4, ub', rest'. split; [exact M1 |]. split; [exact O4 |].
    split; [| exact Er].
    rewrite Eid.
    change (user_books (@run sample_lib [] owned_db))
      with (user_books owned_db) in G2.
    unfold ownerships in O3. rewrite G2 in O3. vm_compute in O3.
    injection O3 as <- _. reflexivity.
Defined.

Lemma add_to_library_entitlement_witness :
  fst (@handle sample_lib 8 (POST_add_to_library 2 alice_token) free_db)
  = EntitlementDenied
  /\ @handle sample_lib 8 (POST_add_to_library 2 alice_token) sample_db
     = (Ok (JSON_Message (mkMessage "Book added to library")),
        mkDB (users sample_db) (books sample_db) (subscription_plans sample_db)
             [mkUserBook 1 1 2 false 8]).
Proof.
  split.
  - destruct (@add_to_library_entitlement sample_lib 8 alice_token 2 free_db
                alice_free_row) as [[_ H] _]; [vm_compute; reflexivity |].
    apply H. exists advanced_fastapi. repeat split; vm_compute; reflexivity.
  - destruct (@add_to_library_entitlement sample_lib 8 alice_token 2 sample_db
                alice_row) as [_ H]; [vm_compute; reflexivity |].
    apply (H advanced_fastapi); [vm_compute; reflexivity ..|].
    intros [_ E]. discriminate E.
Defined.


Lemma failure_leaves_store_unchanged_witness :
  snd (@handle sample_lib 8 (POST_add_to_library 2 alice_token) free_db)
  = free_db.
Proof.
  apply (@failure_leaves_store_unchanged sample_lib). vm_compute. reflexivity.
Defined.



Lemma mark_read_behaviour_witness :
  @handle sample_lib 9 (POST_mark_read 4 alice_token) owned_db
  = (NotOwned, owned_db)
  /\ @handle sample_lib 9 (POST_mark_read (2 ^ 63) alice_token) owned_db
     = (InternalServerError, owned_db)
  /\ exists db',
       @handle sample_lib 9 (POST_mark_read 2 alice_token) owned_db
       = (Ok (JSON_Message (mkMessage "Book marked as read")), db')
       /\ user_books db' = [mkUserBook 1 1 2 true 8].
Proof.
  assert (Hu : @current_user sample_lib 9 alice_token owned_db = Ok alice_row)
    by (vm_compute; reflexivity).
  assert (H4 : ownerships (User_id alice_row) 4 owned_db = [])
    by (vm_compute; reflexivity).
  assert (Hbig : ownerships (User_id alice_row) (2 ^ 63) owned_db = [])
    by (vm_compute; reflexivity).
  assert (H2 : ownerships (User_id alice_row) 2 owned_db
               = [mkUserBook 1 1 2 false 8]) by (vm_compute; reflexivity).
  split; [| split].
  - apply (proj1 (proj1 (@mark_read_behaviour sample_lib 9 alice_token 4
                           owned_db alice_row Hu) H4)).
    lia.
  - apply (proj2 (proj1 (@mark_read_behaviour sample_lib 9 alice_token (2 ^ 63)
                           owned_db alice_row Hu) Hbig)).
    lia.
  - destruct (proj2 (@mark_read_behaviour sample_lib 9 alice_token 2 owned_db
                       alice_row Hu)
                (mkUserBook 1 1 2 false 8) [] H2)
      as (db' & H & -> & _).
    eexists. split; [exact H |]. vm_compute. reflexivity.
Defined.

(** C6 as stated does not hold for every item id: alice holds no row for
    the id 2^63, and [mark-read] on it is answered 500, not 404 "Book not
    in your library"; the id cannot be bound to the query. *)
Lemma mark_read_beyond_the_integer_range :
  @current_user sample_lib 9 alice_token owned_db = Ok alice_row
  /\ ownerships (User_id alice_row) 9223372036854775808 owned_db = []
  /\ @handle sample_lib 9 (POST_mark_read 9223372036854775808 alice_token)
             owned_db
     = (InternalServerError, owned_db)
  /\ @handle sample_lib 9 (POST_mark_read 9223372036854775808 alice_token)
             owned_db
     <> (NotOwned, owned_db).
Proof.
  split; [vm_compute; reflexivity |]. split; [vm_compute; reflexivity |].
  split; [vm_compute; reflexivity |].
  intros E. vm_compute in E. discriminate E.
Qed.

Lemma token_round_trip_and_expiry_witness :
  @verify_token sample_lib 6 alice_token = Ok "a@x.com"
  /\ @verify_token sample_lib 1799999999 alice_token = Ok "a@x.com"
  /\ @verify_token sample_lib 1800000006 alice_token = InvalidToken.
Proof.
  destruct (@token_round_trip_and_expiry sample_lib 6 "a@x.com")
    as (H1 & H2 & H3).
  split; [exact H1 |]. split.
  - apply H2. vm_compute. reflexivity.
  - apply H3. vm_compute. discriminate.
Defined.

Lemma my_books_in_acquisition_order_witness :
  exists rs,
    @handle sample_lib 14 (GET_my_books alice_token)
            (@run sample_lib shelf_history create_all)
    = (Ok (JSON_Books rs), @run sample_lib shelf_history create_all)
    /\ map BookResponse_id rs = [2; 1; 3]
    /\ rs = [ mkBookResponse 2 "Advanced FastAPI" "Jane Smith" "Programming"
                "Master FastAPI development" 39.99%float true;
              mkBookResponse 1 "The Python Guide" "John Doe" "Programming"
                "Learn Python programming" 29.99%float false;
              mkBookResponse 3 "Data Science Handbook" "Bob Johnson"
                "Data Science" "Complete guide to data science"
                49.99%float true ].
Proof.
  assert (Hu : @current_user sample_lib 14 alice_token
                 (@run sample_lib shelf_history create_all) = Ok alice_row)
    by (vm_compute; reflexivity).
  destruct (@my_books_in_acquisition_order sample_lib shelf_history 14
              alice_token alice_row Hu)
    as (rs & H1 & _ & H2 & _).
  exists rs. split; [exact H1 |]. split.
  - rewrite H2. vm_compute. reflexivity.
  - vm_compute in H1. injection H1 as <-. reflexivity.
Defined.

Lemma mark_read_stored_not_listed_witness :
  fst (@handle sample_lib 10 (GET_my_books alice_token) read_db)
  = fst (@handle sample_lib 10 (GET_my_books alice_token) owned_db).
Proof.
  apply (@mark_read_stored_not_listed sample_lib 9 alice_token 2 owned_db
           alice_row (JSON_Message (mkMessage "Book marked as read")) read_db);
    vm_compute; reflexivity.
Defined.

Lemma mark_read_ignores_catalog_witness :
  find (has_book_id 99) (books owned_db) = None
  /\ @handle sample_lib 9 (POST_mark_read 99 alice_token) owned_db
     = (NotOwned, owned_db)
  /\ @handle sample_lib 9 (POST_mark_read 2 alice_token)
             (with_books [] free_db)
     = (NotOwned, with_books [] free_db)
  /\ @handle sample_lib 9 (POST_mark_read (- 2 ^ 63 - 1) alice_token)
             (with_books [] free_db)
     = (InternalServerError, with_books [] free_db).
Proof.
  assert (Hu : @current_user sample_lib 9 alice_token owned_db = Ok alice_row)
    by (vm_compute; reflexivity).
  assert (Hu' : @current_user sample_lib 9 alice_token free_db
                = Ok alice_free_row) by (vm_compute; reflexivity).
  assert (H99 : ownerships (User_id alice_row) 99 owned_db = [])
    by (vm_compute; reflexivity).
  assert (H2 : ownerships (User_id alice_free_row) 2 free_db = [])
    by (vm_compute; reflexivity).
  assert (Hlow : ownerships (User_id alice_free_row) (- 2 ^ 63 - 1) free_db = [])
    by (vm_compute; reflexivity).
  split; [vm_compute; reflexivity |]. split; [| split].
  - apply (proj1 (@mark_read_ignores_catalog sample_lib 9 alice_token 99
                    owned_db alice_row Hu H99)).
    lia.
  - apply (proj1 (@mark_read_ignores_catalog sample_lib 9 alice_token 2
                    free_db alice_free_row Hu' H2)).
    lia.
  - apply (proj2 (@mark_read_ignores_catalog sample_lib 9 alice_token
                    (- 2 ^ 63 - 1) free_db alice_free_row Hu' Hlow)).
    lia.
Defined.

(** C10 as stated does not hold for every item id: for the id
    -2^63 - 1, which alice holds no row for and no book of the catalogue
    has, [mark-read] is answered 500, not 404. *)
Lemma mark_read_below_the_integer_range :
  @current_user sample_lib 9 alice_token free_db = Ok alice_free_row
  /\ ownerships (User_id alice_free_row) (-9223372036854775809) free_db = []
  /\ find (has_book_id (-9223372036854775809)) (books free_db) = None
  /\ @handle sample_lib 9 (POST_mark_read (-9223372036854775809) alice_token)
             free_db
     = (InternalServerError, free_db)
  /\ @handle sample_lib 9 (POST_mark_read (-9223372036854775809) alice_token)
             free_db
     <> (NotOwned, free_db).
Proof.
  split; [vm_compute; reflexivity |]. split; [vm_compute; reflexivity |].
  split; [vm_compute; reflexivity |]. split; [vm_compute; reflexivity |].
  intros E. vm_compute in E. discriminate E.
Qed.

(** C9 as stated does not hold: no reading of a [BookResponse] tells a
    read book from an unread one.  Were there a function [shows_read] on
    the records of a listing that agrees with the stored flag of the
    user's ownership row whenever the listing is produced, it would have
    to answer both [false] and [true] on the same record: the listing for
    alice before she marks book 2 and the listing after are the same. *)
Lemma my_books_response_has_no_read_flag :
  ~ exists shows_read : BookResponse -> bool,
      forall db now credentials user book_id user_book response,
        reachable (lib := sample_lib) db ->
        @current_user sample_lib now credentials db = Ok user ->
        ownerships (User_id user) book_id db = [user_book] ->
        fst (@handle sample_lib now (GET_my_books credentials) db)
        = Ok (JSON_Books response) ->
        forall r, In r response -> BookResponse_id r = book_id ->
                  shows_read r = UserBook_is_read user_book.
Proof.
  intros (shows_read & H).
  assert (S1 : shows_read (BookResponse_from_attributes advanced_fastapi)
               = false).
  { apply (H owned_db 10 alice_token alice_row 2 (mkUserBook 1 1 2 false 8)
             [BookResponse_from_attributes advanced_fastapi]);
      try reflexivity; [exists owned_history; reflexivity | left; reflexivity]. }
  assert (S2 : shows_read (BookResponse_from_attributes advanced_fastapi)
               = true).
  { apply (H read_db 10 alice_token alice_row 2 (mkUserBook 1 1 2 true 8)
             [BookResponse_from_attributes advanced_fastapi]);
      try reflexivity; [exists read_history; reflexivity | left; reflexivity]. }
  congruence.
Qed.


(** * Concrete runs of the further properties *)

Lemma get_book_found_iff_witness :
  fst (@handle sample_lib 9 (POST_add_to_library 99 alice_token) owned_db)
  = BookNotFound
  /\ fst (@handle sample_lib 9 (POST_add_to_library (2 ^ 63) alice_token)
            owned_db)
     = InternalServerError
  /\ snd (get_db (get_book 2) owned_db) = owned_db.
Proof.
  assert (Hu : @current_user sample_lib 9 alice_token owned_db = Ok alice_row)
    by (vm_compute; reflexivity).
  assert (Hnone : forall id, 5 < id ->
                    forall b, In b (books owned_db) -> Book_id b <> id).
  { intros id Hid b Hin. vm_compute in Hin.
    destruct Hin as [<- | [<- | [<- | [<- | [<- | []]]]]]; cbn; lia. }
  pose proof (@get_book_found_iff sample_lib 9 alice_token 99 owned_db
                alice_row Hu) as (_ & A & _ & _ & [_ H] & _).
  pose proof (@get_book_found_iff sample_lib 9 alice_token (2 ^ 63) owned_db
                alice_row Hu) as (_ & _ & B & _ & _ & [_ H']).
  pose proof (@get_book_found_iff sample_lib 9 alice_token 2 owned_db
                alice_row Hu) as (H2 & _).
  split; [| split; [| exact H2]].
  - apply H. apply A; [lia |]. apply Hnone. lia.
  - apply H'. apply B; [lia |]. apply Hnone. lia.
Defined.

Lemma get_books_pages_witness :
  (exists page1 page2,
      get_db (get_books 1 2) owned_db = (Ok page1, owned_db)
      /\ get_db (get_books (1 + 2) 2) owned_db = (Ok page2, owned_db)
      /\ get_db (get_books 1 (2 + 2)) owned_db
         = (Ok (page1 ++ page2)%list, owned_db)
      /\ map Book_id page1 = [2; 3])
  /\ get_db (get_books 0 (2 ^ 63)) owned_db = (InternalServerError, owned_db).
Proof.
  destruct (get_books_pages owned_db) as [A B].
  split.
  - destruct (A 1 2 2) as (p1 & p2 & H1 & H2 & H3 & _); [lia .. |].
    exists p1, p2. split; [exact H1 |]. split; [exact H2 |].
    split; [exact H3 |].
    vm_compute in H1. injection H1 as <-. reflexivity.
  - apply B. lia.
Defined.

Lemma seed_data_twice_witness :
  @handle sample_lib 1 POST_seed_data (mkDB [] seeded_books seeded_plans [])
  = (Ok (JSON_Message (mkMessage "Data already exists")),
     mkDB [] seeded_books seeded_plans []).
Proof.
  assert (H : @handle sample_lib 0 POST_seed_data create_all
              = (Ok (JSON_Message
                       (mkMessage "Sample data created successfully")),
                 mkDB [] seeded_books seeded_plans []))
    by (vm_compute; reflexivity).
  exact (proj2 (@seed_data_twice sample_lib 0 create_all _ _ H) 1).
Defined.

Lemma verify_token_sound_witness :
  (exists claims,
      alice_token
      = jwt_compact ALGORITHM claims
          (@hmac_sha256 sample_lib SECRET_KEY ALGORITHM claims)
      /\ dict_get "sub" claims = Some (PyStr "a@x.com")
      /\ (forall v, dict_get "exp" claims = Some v ->
                    exists exp, @py_int sample_lib v = inr exp
                                /\ 7 < exp * 1000000))
  /\ @verify_token sample_lib 7
       (jwt_compact "HS256" [("sub", PyStr "a@x.com"); ("exp", PyStr "1800")]
          (@hmac_sha256 sample_lib SECRET_KEY "HS256"
             [("sub", PyStr "a@x.com"); ("exp", PyStr "1800")]))
     = Ok "a@x.com"
  /\ @verify_token sample_lib 7
       (jwt_compact "HS256" [("sub", PyStr "a@x.com"); ("nbf", PyInt 1800)]
          (@hmac_sha256 sample_lib SECRET_KEY "HS256"
             [("sub", PyStr "a@x.com"); ("nbf", PyInt 1800)]))
     = InvalidToken.
Proof.
  assert (H : @verify_token sample_lib 7 alice_token = Ok "a@x.com")
    by (vm_compute; reflexivity).
  split; [| split].
  - destruct (proj1 (proj1 (@verify_token_sound sample_lib 7 alice_token)
                       "a@x.com") H)
      as (claims & E & Hsub & _ & _ & Hexp & _).
    exists claims. auto.
  - apply (proj2 (proj1 (@verify_token_sound sample_lib 7 _) "a@x.com")).
    eexists. split; [reflexivity |]. split; [reflexivity |].
    repeat split; intros v Hv; try discriminate Hv.
    injection Hv as <-. exists 1800. split; [vm_compute; reflexivity | lia].
  - destruct (proj2 (@verify_token_sound sample_lib 7
                       (jwt_compact "HS256"
                          [("sub", PyStr "a@x.com"); ("nbf", PyInt 1800)]
                          (@hmac_sha256 sample_lib SECRET_KEY "HS256"
                             [("sub", PyStr "a@x.com"); ("nbf", PyInt 1800)]))))
      as [E | E]; [vm_compute; reflexivity | exact E |].
    vm_compute in E. discriminate E.
Defined.

Lemma protected_routes_need_a_user_witness :
  @handle sample_lib 7 (POST_subscribe 2 jwt_malformed) free_db
  = (HTTPException 401 "Invalid token", free_db)
  /\ @handle sample_lib 7
       (POST_add_to_library 2
          (jwt_compact "HS256" [("sub", PyStr "a@x.com"); ("exp", PyNone)]
             (@hmac_sha256 sample_lib SECRET_KEY "HS256"
                [("sub", PyStr "a@x.com"); ("exp", PyNone)])))
       free_db
     = (InternalServerError, free_db).
Proof.
  assert (Hf : is_failure (@current_user sample_lib 7 jwt_malformed free_db)
               = true) by (vm_compute; reflexivity).
  assert (Hf' : is_failure
                  (@current_user sample_lib 7
                     (jwt_compact "HS256"
                        [("sub", PyStr "a@x.com"); ("exp", PyNone)]
                        (@hmac_sha256 sample_lib SECRET_KEY "HS256"
                           [("sub", PyStr "a@x.com"); ("exp", PyNone)]))
                     free_db)
                = true) by (vm_compute; reflexivity).
  split.
  - destruct (@protected_routes_need_a_user sample_lib 7 jwt_malformed free_db Hf)
      as (answer & Ha & _ & _ & H).
    rewrite (proj2 (proj2 (H 2))). f_equal.
    destruct Ha as [(detail & -> & Hc & _) | (-> & Hc & _)];
      vm_compute in Hc; [injection Hc as <-; reflexivity | discriminate Hc].
  - destruct (@protected_routes_need_a_user sample_lib 7 _ free_db Hf')
      as (answer & Ha & _ & _ & H).
    rewrite (proj1 (H 2)). f_equal.
    destruct Ha as [(detail & -> & Hc & _) | (-> & _)];
      [vm_compute in Hc; discriminate Hc | reflexivity].
Defined.

Lemma login_refused_iff_witness :
  fst (@handle sample_lib 7 (POST_login (mkUserLogin "a@x.com" "guess"))
         (@run sample_lib free_history create_all))
  = InvalidCredentials
  /\ fst (@handle sample_lib 7
            (POST_login
               (mkUserLogin "a@x.com"
                  "0123456789012345678901234567890123456789012345678901234567890123456789012"))
            (@run sample_lib free_history create_all))
     = InternalServerError.
Proof.
  split.
  - pose proof (@login_refused_iff sample_lib free_history 7
                  (mkUserLogin "a@x.com" "guess")) as H.
    cbv zeta in H. destruct H as [[_ H] _]. apply H.
    intros u Hin _. vm_compute in Hin. destruct Hin as [<- | []].
    vm_compute. reflexivity.
  - pose proof (@login_refused_iff sample_lib free_history 7
                  (mkUserLogin "a@x.com"
                     "0123456789012345678901234567890123456789012345678901234567890123456789012"))
      as H.
    cbv zeta in H. destruct H as (_ & _ & _ & H & _). apply H.
    + vm_compute. lia.
    + exists alice_free_row. split; [vm_compute; auto | reflexivity].
Defined.

Lemma login_token_resolves_witness :
  exists u u',
    @current_user sample_lib 8 alice_token
      (@run sample_lib [(7, POST_subscribe 2 alice_token)] free_db) = Ok u'
    /\ same_account u u'
    /\ User_email u = "a@x.com".
Proof.
  assert (H1 : @handle sample_lib 6 (POST_login alice_login) free_db
               = (Ok (JSON_Token (mkToken alice_token "bearer")), free_db))
    by (vm_compute; reflexivity).
  assert (H2 : 8 < timegm (6 + timedelta_minutes ACCESS_TOKEN_EXPIRE_MINUTES)
                   * 1000000) by (vm_compute; reflexivity).
  destruct (@login_token_resolves sample_lib 6 alice_login free_db
              (mkToken alice_token "bearer") free_db
              [(7, POST_subscribe 2 alice_token)] 8 H1 H2)
    as (_ & _ & u & u' & _ & He & _ & Hc & S).
  exists u, u'. split; [exact Hc |]. split; [exact S | exact He].
Defined.

Lemma register_then_login_witness :
  exists token,
    @handle sample_lib 6
      (POST_login (mkUserLogin (UserCreate_email alice)
                               (UserCreate_password alice)))
      (@run sample_lib []
         (snd (@handle sample_lib 5 (POST_register alice)
                 (mkDB [] seeded_books seeded_plans []))))
    = (Ok (JSON_Token token),
       @run sample_lib []
         (snd (@handle sample_lib 5 (POST_register alice)
                 (mkDB [] seeded_books seeded_plans []))))
    /\ @verify_token sample_lib 6 (access_token token)
       = Ok (UserCreate_email alice).
Proof.
  assert (H0 : @bcrypt_hashpw sample_lib (UserCreate_password alice)
                 (@bcrypt_gensalt sample_lib 5) = Some "$2b$12$5$pw1")
    by (vm_compute; reflexivity).
  assert (H1 : @bcrypt_checkpw sample_lib (UserCreate_password alice)
                 "$2b$12$5$pw1" = Some true) by (vm_compute; reflexivity).
  assert (H2 : find (has_email (UserCreate_email alice))
                    (users (mkDB [] seeded_books seeded_plans [])) = None)
    by reflexivity.
  exact (proj1 (@register_then_login sample_lib 5 alice "$2b$12$5$pw1"
                  (mkDB [] seeded_books seeded_plans []) [] 6 H0 H1 H2)).
Defined.

Lemma subscribe_then_acquire_witness :
  exists db',
    @handle sample_lib 7 (POST_subscribe 2 alice_token) free_db
    = (Ok (JSON_Message (mkMessage "Successfully subscribed to premium plan")),
       db')
    /\ @current_user sample_lib 8 alice_token db' = Ok alice_row.
Proof.
  assert (H1 : @current_user sample_lib 7 alice_token free_db
               = Ok alice_free_row) by (vm_compute; reflexivity).
  assert (H2 : find (has_plan_id 2) (subscription_plans free_db)
               = Some (mkSubscriptionPlan 2 "premium" 9.99%float
                         "Access to all books" 100))
    by (vm_compute; reflexivity).
  assert (H3 : @verify_token sample_lib 8 alice_token
               = Ok (User_email alice_free_row)) by (vm_compute; reflexivity).
  destruct (@subscribe_then_acquire sample_lib 7 alice_token 2 free_db
              alice_free_row _ H1 H2) as (db' & Hs & Hn).
  exists db'. split; [exact Hs |].
  exact (proj1 (Hn 8 alice_token H3)).
Defined.

Lemma ownership_rows_persist_witness :
  exists ub',
    In ub' (user_books
              (@run sample_lib [(9, POST_mark_read 2 alice_token)] owned_db))
    /\ UserBook_id ub' = 1
    /\ UserBook_added_at ub' = 8.
Proof.
  assert (H : In (mkUserBook 1 1 2 false 8) (user_books owned_db))
    by (vm_compute; auto).
  destruct (@ownership_rows_persist sample_lib
              [(9, POST_mark_read 2 alice_token)] owned_db _ H)
    as (ub' & H1 & H2 & _ & _ & H3 & _).
  exists ub'. split; [exact H1 |]. split; [exact H2 | exact H3].
Defined.

Lemma mark_read_is_local_witness :
  users read_db = users (@run sample_lib owned_history create_all)
  /\ ownerships 1 3 read_db
     = ownerships 1 3 (@run sample_lib owned_history create_all).
Proof.
  assert (H1 : @current_user sample_lib 9 alice_token
                 (@run sample_lib owned_history create_all) = Ok alice_row)
    by (vm_compute; reflexivity).
  assert (H2 : @handle sample_lib 9 (POST_mark_read 2 alice_token)
                 (@run sample_lib owned_history create_all)
               = (Ok (JSON_Message (mkMessage "Book marked as read")), read_db))
    by (vm_compute; reflexivity).
  destruct (@mark_read_is_local sample_lib owned_history 9 alice_token 2
              alice_row _ read_db H1 H2) as (E1 & _ & _ & E2).
  split; [exact E1 |]. apply E2. intros E. discriminate E.
Defined.

Lemma overlapping_acquisitions_both_insert_witness :
  exists first' second' db1 db2,
    statements 2 (add_book_to_library_statements 2 alice_row 8) sample_db
    = (first', sample_db)
    /\ statements 2 (add_book_to_library_statements 2 alice_row 9) sample_db
       = (second', sample_db)
    /\ to_the_end first' sample_db
       = (Ok (mkMessage "Book added to library"), db1)
    /\ to_the_end second' db1
       = (Ok (mkMessage "Book added to library"), db2)
    /\ ownerships 1 2 db2
       = [mkUserBook 1 1 2 false 8; mkUserBook 2 1 2 false 9].
Proof.
  assert (H1 : find (has_book_id 2) (books sample_db)
               = Some advanced_fastapi)
    by (vm_compute; reflexivity).
  assert (H2 : ownerships (User_id alice_row) 2 sample_db = [])
    by (vm_compute; reflexivity).
  assert (H3 : ~ (Book_is_premium advanced_fastapi = true
                  /\ User_subscription_plan alice_row = "free"))
    by (intros [_ E]; vm_compute in E; discriminate E).
  destruct (overlapping_acquisitions_both_insert 2 alice_row 8 9 sample_db
              _ H1 H2 H3)
    as (_ & (first' & second' & db1 & db2 & E1 & E2 & E3 & E4 & _ & E6) & _).
  exists first', second', db1, db2.
  split; [exact E1 |]. split; [exact E2 |]. split; [exact E3 |].
  split; [exact E4 |]. exact E6.
Defined.

(** * Concrete runs of the dashboard *)

Lemma carries_as_reply answer : carries answer (as_reply answer).
Proof. destruct answer; cbn; auto. Qed.

Lemma sample_http_reaches method url route :
  (forall tok, sample_route method url tok = Some (route tok)) ->
  @reaches sample_lib sample_http 10 method url route.
Proof.
  intros H tok data db. unfold sample_http. rewrite H. cbn [fst snd].
  split; [apply carries_as_reply | reflexivity].
Qed.

Lemma library_page_has_no_empty_state_witness :
  show_my_library DB sample_http no_clicks (mkBrowser alice_session free_db)
  = ([st_title "📖 My Library"; st_error "Failed to load your library."],
     mkBrowser alice_session free_db, Done tt).
Proof.
  apply (proj2 (library_page_has_no_empty_state DB sample_http no_clicks
                  (mkBrowser alice_session free_db)) "" free_db).
  vm_compute. reflexivity.
Defined.

Lemma check_auth_keeps_session_consistent_witness :
  check_auth DB sample_http (mkBrowser alice_session free_db)
  = ([],
     mkBrowser
       (mkSessionState (Some alice_token)
          (Some (JSON_User (mkUserResponse 1 "a@x.com" "free" true)))
          "library") free_db,
     Done true)
  /\ check_auth DB sample_http
       (mkBrowser (mkSessionState (Some jwt_malformed) None "library") free_db)
     = ([st_error "API Error: 401 - Invalid token"],
        mkBrowser (mkSessionState None None "library") free_db, Done false).
Proof.
  split.
  - assert (Eh : sample_http "GET" (API_BASE_URL ++ "/me") (Some alice_token)
                   no_data free_db
                 = (Response 200 ""
                      (JSON_User (mkUserResponse 1 "a@x.com" "free" true)),
                    free_db)) by (vm_compute; reflexivity).
    destruct (proj2 (check_auth_keeps_session_consistent DB sample_http
                       (mkBrowser alice_session free_db))
                alice_token _ free_db eq_refl Eh) as (H & _).
    apply (proj1 (H 200 "" _ eq_refl (or_introl eq_refl))). reflexivity.
  - assert (Eh : sample_http "GET" (API_BASE_URL ++ "/me") (Some jwt_malformed)
                   no_data free_db
                 = (Response 401 "Invalid token"
                      (JSON_Message (mkMessage "Invalid token")),
                    free_db)) by (vm_compute; reflexivity).
    destruct (proj2 (check_auth_keeps_session_consistent DB sample_http
                       (mkBrowser
                          (mkSessionState (Some jwt_malformed) None "library")
                          free_db))
                jwt_malformed _ free_db eq_refl Eh) as (_ & H & _).
    rewrite (H 401 "Invalid token" _ eq_refl); [| lia | lia].
    f_equal.
Defined.

Lemma books_count_matches_backend_witness :
  get_user_books_count DB sample_http
    (mkBrowser alice_session (@run sample_lib shelf_history create_all))
  = ([], mkBrowser alice_session (@run sample_lib shelf_history create_all),
     Done (List.length
             (filter (owned_by (User_id alice_row))
                (user_books (@run sample_lib shelf_history create_all))))).
Proof.
  assert (Hu : @current_user sample_lib 10 alice_token
                 (@run sample_lib shelf_history create_all) = Ok alice_row)
    by (vm_compute; reflexivity).
  pose proof (@books_count_matches_backend sample_lib sample_http 10
                shelf_history alice_token alice_session
                (sample_http_reaches "GET" (API_BASE_URL ++ "/my-books") GET_my_books
                   (fun _ => eq_refl))
                eq_refl) as H.
  cbv zeta in H. exact (proj1 H alice_row Hu).
Defined.

Lemma check_auth_follows_backend_witness :
  exists e,
    check_auth DB sample_http
      (mkBrowser (mkSessionState (Some jwt_malformed) None "library") free_db)
    = ([st_error e],
       mkBrowser (mkSessionState None None "library") free_db, Done false).
Proof.
  assert (Hf : is_failure (@current_user sample_lib 10 jwt_malformed free_db)
               = true) by (vm_compute; reflexivity).
  exact (proj2 (@check_auth_follows_backend sample_lib sample_http 10
                  jwt_malformed
                  (mkSessionState (Some jwt_malformed) None "library") free_db
                  (sample_http_reaches "GET" (API_BASE_URL ++ "/me") GET_me
                     (fun _ => eq_refl))
                  eq_refl) Hf).
Defined.

Lemma click_mark_as_read_witness :
  exists db',
    library_cards DB sample_http click_read_2
      [BookResponse_from_attributes advanced_fastapi]
      (mkBrowser alice_session owned_db)
    = ((card (BookResponse_from_attributes advanced_fastapi)
          ++ [st_success "Marked as read!"])%list,
       mkBrowser alice_session db', Rerun)
    /\ user_books db' = [mkUserBook 1 1 2 true 8].
Proof.
  assert (Hu : @current_user sample_lib 10 alice_token owned_db = Ok alice_row)
    by (vm_compute; reflexivity).
  assert (Ho : ownerships (User_id alice_row)
                 (BookResponse_id (BookResponse_from_attributes advanced_fastapi))
                 owned_db = [mkUserBook 1 1 2 false 8])
    by (vm_compute; reflexivity).
  destruct (@click_mark_as_read sample_lib sample_http click_read_2 10
              alice_token alice_session owned_db alice_row
              (BookResponse_from_attributes advanced_fastapi) []
              (mkUserBook 1 1 2 false 8) []
              (sample_http_reaches "POST"
                 (API_BASE_URL ++ "/books/" ++ str 2 ++ "/mark-read")
                 (POST_mark_read 2) (fun _ => eq_refl))
              eq_refl Hu Ho eq_refl) as (db' & H1 & H2 & _).
  exists db'. split; [exact H1 |]. rewrite H2. vm_compute. reflexivity.
Defined.
